(** * Extraction review engine of the invoice agent

    A shallow embedding of the review workflow of the invoice agent:
    the vendor normalisation, the rule-based detection of category and
    transaction type, the status classifier, the question builder and
    the extraction of [apps/worker/pipeline/services_ocr_llm.py], the
    answer normalisation and the review endpoints of
    [apps/api/routes/invoices.py], the review resolution, the manual
    update and the manual approval of
    [apps/api/services/invoice_service.py], the insertion of a row and
    the reverse spreadsheet sync of [apps/worker/pipeline/storage.py],
    the processing of one invoice of
    [apps/worker/pipeline/core_pipeline.py] and the slugs of
    [apps/worker/pipeline/file_organizer.py].

    Python floats are IEEE 754 binary64 numbers; they are modelled by
    [spec_float] of the Standard Library at precision 53 and maximal
    exponent 1024, so that comparisons against NaN and roundings behave
    as they do in the interpreter. *)

From Stdlib Require Import ZArith List String Ascii Bool Lia.
From Stdlib Require Import SpecFloat DecimalString.
From stdpp Require Import base option list strings gmap.

Local Open Scope string_scope.

(** ** Python floats *)

Module PyFloat.

Definition prec : Z := 53.
Definition emax : Z := 1024.

Definition float : Type := spec_float.

Definition zero : float := S754_zero false.

(** [float(n)] for an integer in range: the nearest double, ties to even. *)
Definition of_Z (n : Z) : float := binary_normalize prec emax n 0 false.

Definition add : float -> float -> float := SFadd prec emax.
Definition sub : float -> float -> float := SFsub prec emax.
Definition mul : float -> float -> float := SFmul prec emax.
Definition div : float -> float -> float := SFdiv prec emax.

Definition ltb : float -> float -> bool := SFltb.
Definition leb : float -> float -> bool := SFleb.
Definition eqb : float -> float -> bool := SFeqb.

Definition is_nan (x : float) : bool :=
  match x with S754_nan => true | _ => false end.

Definition is_finite (x : float) : bool :=
  match x with S754_zero _ | S754_finite _ _ _ => true | _ => false end.

(** [bool(x)]: every float but the two zeros is truthy, NaN included. *)
Definition truthy (x : float) : bool := negb (eqb x zero).

(** The decimal literal [num/den] (for instance [6/10] for [0.6]): the
    double nearest to the quotient, which is what a correctly rounded
    division of the two exact integers returns. *)
Definition lit (num den : Z) : float := div (of_Z num) (of_Z den).

(** Nearest integer, ties to even, of [m * 2^e * 10^digits] for [0 <= m]. *)
Definition scaled_rne (digits : nat) (m e : Z) : Z :=
  let num := (m * 10 ^ Z.of_nat digits)%Z in
  if (0 <=? e)%Z then (num * 2 ^ e)%Z
  else
    let den := (2 ^ (- e))%Z in
    let q := (num / den)%Z in
    let r := (num mod den)%Z in
    match (2 * r ?= den)%Z with
    | Lt => q
    | Gt => (q + 1)%Z
    | Eq => if Z.even q then q else (q + 1)%Z
    end.

(** [round(x, digits)] for [0 <= digits]: the exact value is rounded to
    [digits] decimals (ties to even) and the decimal is read back as the
    nearest double; zeros, infinities and NaN round to themselves. *)
Definition round (x : float) (digits : nat) : float :=
  match x with
  | S754_finite s m e =>
      match scaled_rne digits (Zpos m) e with
      | Zpos n => div (S754_finite s n 0) (of_Z (10 ^ Z.of_nat digits))
      | _ => S754_zero s
      end
  | _ => x
  end.

Definition decimal (n : Z) : string :=
  NilZero.string_of_uint (N.to_uint (Z.to_N n)).

Fixpoint zeros (n : nat) : string :=
  match n with O => "" | S n' => "0" ++ zeros n' end.

(** The digits of [n / 10^digits] in fixed notation. *)
Definition fixed (digits : nat) (n : Z) : string :=
  let p := (10 ^ Z.of_nat digits)%Z in
  let frac := decimal (n mod p) in
  decimal (n / p) ++
  match digits with
  | O => ""
  | _ => "." ++ zeros (digits - String.length frac) ++ frac
  end.

Definition sign (s : bool) : string := if s then "-" else "".

(** [format(x, ".<digits>f")]. *)
Definition format_f (digits : nat) (x : float) : string :=
  match x with
  | S754_nan => "nan"
  | S754_infinity s => sign s ++ "inf"
  | S754_zero s => sign s ++ fixed digits 0
  | S754_finite s m e => sign s ++ fixed digits (scaled_rne digits (Zpos m) e)
  end.

(** [format(x, ".0%")]: the value is multiplied by 100 as a float, printed
    with no decimals and followed by a percent sign. *)
Definition format_percent0 (x : float) : string :=
  format_f 0 (mul x (of_Z 100)) ++ "%".

End PyFloat.

Abbreviation float := PyFloat.float.

(** ** Python strings

    A character of a [string] stands for a code point below 256. *)

Definition is_space (c : ascii) : bool :=
  let n := nat_of_ascii c in
  ((9 <=? n)%nat && (n <=? 13)%nat) || ((28 <=? n)%nat && (n <=? 32)%nat)
  || (n =? 133)%nat || (n =? 160)%nat.

Fixpoint lstrip (s : string) : string :=
  match s with
  | String c s' => if is_space c then lstrip s' else s
  | EmptyString => EmptyString
  end.

Fixpoint rstrip (s : string) : string :=
  match s with
  | String c s' =>
      match rstrip s' with
      | EmptyString => if is_space c then EmptyString else String c EmptyString
      | r => String c r
      end
  | EmptyString => EmptyString
  end.

(** [s.strip()] *)
Definition strip (s : string) : string := rstrip (lstrip s).

Definition lower_char (c : ascii) : ascii :=
  let n := nat_of_ascii c in
  if ((65 <=? n)%nat && (n <=? 90)%nat)
     || ((192 <=? n)%nat && (n <=? 222)%nat && negb (n =? 215)%nat)
  then ascii_of_nat (n + 32) else c.

(** [s.lower()] *)
Fixpoint lower (s : string) : string :=
  match s with
  | String c s' => String (lower_char c) (lower s')
  | EmptyString => EmptyString
  end.

(** [sep.join(parts)] *)
Fixpoint join (sep : string) (parts : list string) : string :=
  match parts with
  | [] => ""
  | [p] => p
  | p :: rest => p ++ sep ++ join sep rest
  end.

(** [pattern in s] *)
Fixpoint contains (pattern s : string) : bool :=
  String.prefix pattern s ||
  match s with
  | String _ s' => contains pattern s'
  | EmptyString => false
  end.

(** The upper case of a character: [ß] becomes [SS]; [ÿ] and [µ], whose
    upper case lies beyond code point 255, are kept. *)
Definition upper_char (c : ascii) : string :=
  let n := nat_of_ascii c in
  if ((97 <=? n)%nat && (n <=? 122)%nat)
     || ((224 <=? n)%nat && (n <=? 254)%nat && negb (n =? 247)%nat)
  then String (ascii_of_nat (n - 32)) EmptyString
  else if (n =? 223)%nat then "SS"
  else String c EmptyString.

(** [s.upper()] *)
Fixpoint upper (s : string) : string :=
  match s with
  | String c s' => upper_char c ++ upper s'
  | EmptyString => EmptyString
  end.

(** [s.endswith(suffix)] *)
Definition endswith (s suffix : string) : bool :=
  (String.length suffix <=? String.length s)%nat
  && String.eqb (substring (String.length s - String.length suffix)
                           (String.length suffix) s) suffix.

(** [s[:-n]] for [0 < n] *)
Definition drop_end (n : nat) (s : string) : string :=
  substring 0 (String.length s - n) s.

(** [s.lstrip(chars)], [s.rstrip(chars)] and [s.strip(chars)], for the
    characters that satisfy [chars]. *)
Fixpoint lstrip_by (chars : ascii -> bool) (s : string) : string :=
  match s with
  | String c s' => if chars c then lstrip_by chars s' else s
  | EmptyString => EmptyString
  end.

Fixpoint rstrip_by (chars : ascii -> bool) (s : string) : string :=
  match s with
  | String c s' =>
      match rstrip_by chars s' with
      | EmptyString => if chars c then EmptyString else String c EmptyString
      | r => String c r
      end
  | EmptyString => EmptyString
  end.

Definition strip_by (chars : ascii -> bool) (s : string) : string :=
  rstrip_by chars (lstrip_by chars s).

(** [re.sub(r"[...]+", "_", s)]: every maximal run of characters of the
    class is replaced by one underscore; [inside] tells that the
    character before belongs to a run. *)
Fixpoint sub_runs (class : ascii -> bool) (inside : bool) (s : string) : string :=
  match s with
  | String c s' =>
      if class c then
        if inside then sub_runs class true s'
        else String "_" (sub_runs class true s')
      else String c (sub_runs class false s')
  | EmptyString => EmptyString
  end.

(** [s[:n]] *)
Definition slice_to (n : Z) (s : string) : string :=
  if (0 <=? n)%Z then substring 0 (Z.to_nat n) s
  else substring 0 (String.length s - Z.to_nat (- n)) s.

(** ** Dynamically typed values

    The scalars a JSON payload, a spreadsheet cell or a database column
    can hold. *)

Inductive pyval : Type :=
| PNone
| PBool (b : bool)
| PInt (n : Z)
| PFloat (x : float)
| PStr (s : string).

(** [bool(v)] *)
Definition py_truthy (v : pyval) : bool :=
  match v with
  | PNone => false
  | PBool b => b
  | PInt n => negb (n =? 0)%Z
  | PFloat x => PyFloat.truthy x
  | PStr s => negb (String.eqb s "")
  end.

(** [a or b] *)
Definition py_or (a b : pyval) : pyval := if py_truthy a then a else b.

(** The exact comparison of an integer with a float. *)
Definition Z_eqb_float (n : Z) (x : float) : bool :=
  match x with
  | S754_zero _ => (n =? 0)%Z
  | S754_finite s m e =>
      let v := if s then Zneg m else Zpos m in
      if (0 <=? e)%Z then (n =? v * 2 ^ e)%Z else (n * 2 ^ (- e) =? v)%Z
  | _ => false
  end.

(** [a == b]: numbers compare by value across bool, int and float. *)
Definition py_eq (a b : pyval) : bool :=
  match a, b with
  | PNone, PNone => true
  | PStr s, PStr t => String.eqb s t
  | PBool x, PBool y => Bool.eqb x y
  | PBool x, PInt n | PInt n, PBool x => (Z.b2z x =? n)%Z
  | PInt n, PInt k => (n =? k)%Z
  | PBool x, PFloat f | PFloat f, PBool x => Z_eqb_float (Z.b2z x) f
  | PInt n, PFloat f | PFloat f, PInt n => Z_eqb_float n f
  | PFloat f, PFloat g => PyFloat.eqb f g
  | _, _ => false
  end.

(** ** Exceptions

    [DataError] is not a Python exception: it marks a database row whose
    column holds a value outside its declared type, or an answer of the
    LLM with such a value, on which the typed record of the worker
    cannot be built.

    The detail of the rejection of unknown answer keys prints two Python
    sets, whose order of elements is not fixed; it is kept as the two
    sets. *)

Inductive http_detail : Type :=
| Detail (message : string)
| InvalidFieldsDetail (invalid valid : gset string).

Inductive exn : Type :=
| TypeError
| ValueError
| AttributeError
| OverflowError
| DataError
| HTTPException (status_code : Z) (detail : http_detail).

Inductive outcome (A : Type) : Type :=
| Ok (a : A)
| Raise (e : exn).
Arguments Ok {A} a.
Arguments Raise {A} e.

Definition bind {A B : Type} (m : outcome A) (k : A -> outcome B) : outcome B :=
  match m with
  | Ok a => k a
  | Raise e => Raise e
  end.

Notation "x <- m ;; k" := (bind m (fun x => k))
  (at level 100, m at next level, right associativity).

(** ** Functions of the runtime that the model takes as given *)

Record runtime : Type := {
  (** [float(s)] for a string; [None] when it raises [ValueError] *)
  float_of_str : string -> option float;
  (** [str(x)] for a float *)
  str_of_float : float -> string;
  (** the integer key that SQLite compares equal to a bound value *)
  sqlite_key : pyval -> option Z
}.

Section Conversions.

Variable rt : runtime.

(** [float(v)] *)
Definition py_float (v : pyval) : outcome float :=
  match v with
  | PNone => Raise TypeError
  | PBool b => Ok (PyFloat.of_Z (Z.b2z b))
  | PInt n =>
      let x := PyFloat.of_Z n in
      if PyFloat.is_finite x then Ok x else Raise OverflowError
  | PFloat x => Ok x
  | PStr s =>
      match float_of_str rt s with
      | Some x => Ok x
      | None => Raise ValueError
      end
  end.

(** [str(v)] *)
Definition py_str (v : pyval) : string :=
  match v with
  | PNone => "None"
  | PBool b => if b then "True" else "False"
  | PInt n => (if (n <? 0)%Z then "-" else "") ++ PyFloat.decimal (Z.abs n)
  | PFloat x => str_of_float rt x
  | PStr s => s
  end.

End Conversions.

(** ** The worker: [apps/worker/pipeline/services_ocr_llm.py] *)

Module services_ocr_llm.

(** [InvoiceStatus] of [config.py] *)
Inductive InvoiceStatus : Type := OK | NEEDS_REVIEW | ERROR | PENDING | PROCESSING.


(** A review question: the dictionary built by [build_review_questions].
    The keys [hint] and [options] are absent from some questions. *)
Record Question : Type := {
  field_name : string;
  question : string;
  input_type : string;
  current_value : pyval;
  hint : option string;
  options : option (list (pyval * string))
}.

Record InvoiceExtraction : Type := {
  vendor : option string;
  date : option string;
  amount : option float;
  currency : option string;
  tax_amount : option float;
  category : option string;
  payment_method : option string;
  transaction_type : option string;
  is_paid : option bool;
  ocr_confidence : option float;
  extraction_confidence : option float;
  status : InvoiceStatus;
  review_reason : option string;
  review_questions : list Question
}.

Definition is_None {A : Type} (o : option A) : bool :=
  match o with None => true | Some _ => false end.

(** [not s] for an optional string *)
Definition falsy_str (o : option string) : bool :=
  match o with None => true | Some s => String.eqb s "" end.

(** [x or 0.0] for an optional float *)
Definition or_zero (o : option float) : float :=
  match o with
  | Some x => if PyFloat.truthy x then x else PyFloat.zero
  | None => PyFloat.zero
  end.

Definition opt_str (o : option string) : pyval :=
  match o with Some s => PStr s | None => PNone end.

Definition opt_float (o : option float) : pyval :=
  match o with Some x => PFloat x | None => PNone end.

(** [f"{x:.2f}"]; formatting [None] with a float format raises. *)
Definition format_2f (o : option float) : outcome string :=
  match o with
  | Some x => Ok (PyFloat.format_f 2 x)
  | None => Raise TypeError
  end.

Definition amount_question : Question :=
  {| field_name := "amount";
     question := "What is the total amount on this invoice?";
     input_type := "number";
     current_value := PNone;
     hint := Some "Enter the final total including VAT (in AED unless stated otherwise)";
     options := None |}.

Definition date_question : Question :=
  {| field_name := "date";
     question := "What is the invoice date?";
     input_type := "date";
     current_value := PNone;
     hint := Some "Format: DD/MM/YYYY (e.g., 15/03/2024)";
     options := None |}.

Definition vendor_question (v : option string) : Question :=
  {| field_name := "vendor";
     question := "Who is the vendor or supplier?";
     input_type := "text";
     current_value := opt_str v;
     hint := Some "Company name as shown on the invoice";
     options := None |}.

Definition is_paid_question : Question :=
  {| field_name := "is_paid";
     question := "Has this invoice been paid?";
     input_type := "select";
     current_value := PNone;
     hint := None;
     options := Some [ (PBool true, "Yes, paid");
                       (PBool false, "No, still outstanding");
                       (PNone, "Not sure") ] |}.

Definition category_question : Question :=
  {| field_name := "category";
     question := "What category does this expense belong to?";
     input_type := "select";
     current_value := PNone;
     hint := None;
     options := Some
       [ (PStr "Occupancy & Facilities", "Occupancy & Facilities (rent, DEWA, Ejari)");
         (PStr "Telecom & Connectivity", "Telecom & Connectivity (Etisalat, du)");
         (PStr "Travel & Transport", "Travel & Transport (Salik, RTA, fuel)");
         (PStr "IT, Software & Cloud", "IT, Software & Cloud (AWS, subscriptions)");
         (PStr "Professional, Banking & Insurance",
          "Professional & Banking (licenses, insurance, PRO)");
         (PStr "Office Supplies", "Office Supplies");
         (PStr "Marketing & Advertising", "Marketing & Advertising");
         (PStr "Other Business Expenses", "Other Business Expenses") ] |}.

Definition confirm_question (a : option float) (shown : string) : Question :=
  {| field_name := "amount";
     question := "Please verify: is the total amount AED " ++ shown ++ "?";
     input_type := "confirm_or_correct";
     current_value := opt_float a;
     hint := Some "Confirm if correct, or enter the right amount";
     options := None |}.

(** The two lists the function appends to. *)
Definition acc : Type := (list Question * list string)%type.

Definition append (a : acc) (q : Question) (reason : string) : acc :=
  ((fst a ++ [q])%list, (snd a ++ [reason])%list).

Definition vendor_blank (v : option string) : bool :=
  falsy_str v || match v with Some s => String.eqb (strip s) "" | None => false end.

Definition build_review_questions (result : InvoiceExtraction)
  : outcome (list Question * string) :=
  let a : acc := ([], []) in
  let a := if is_None (amount result)
           then append a amount_question "amount missing" else a in
  let a := if is_None (date result)
           then append a date_question "date missing" else a in
  let a := if vendor_blank (vendor result)
           then append a (vendor_question (vendor result)) "vendor missing" else a in
  let a := if is_None (is_paid result)
           then append a is_paid_question "payment status unclear" else a in
  let a := if is_None (category result)
           then append a category_question "category missing" else a in
  let conf := or_zero (extraction_confidence result) in
  a <- (if PyFloat.ltb conf (PyFloat.lit 5 10) && (length (fst a) =? 0)%nat
        then shown <- format_2f (amount result) ;;
             Ok (append a (confirm_question (amount result) shown)
                   "low extraction confidence")
        else Ok a) ;;
  let questions := firstn 4 (fst a) in
  let reasons := snd a in
  let reason :=
    match reasons with
    | [] => "Needs manual verification"
    | _ =>
        "Needs review: " ++ join ", " (firstn 3 reasons) ++
        (if (3 <? length reasons)%nat
         then " (+" ++ PyFloat.decimal (Z.of_nat (length reasons - 3)) ++ " more)"
         else "")
    end in
  Ok (questions, reason).

Definition _determine_status (result : InvoiceExtraction) : InvoiceStatus * string :=
  let issues : list string := [] in
  let add (l : list string) (issue : string) : list string := (l ++ [issue])%list in
  let issues := if is_None (amount result) then add issues "no amount" else issues in
  let issues := if is_None (date result) then add issues "no date" else issues in
  let issues := if falsy_str (vendor result) then add issues "no vendor" else issues in
  let conf := or_zero (extraction_confidence result) in
  let issues := if PyFloat.ltb conf (PyFloat.lit 6 10)
                then add issues ("low confidence (" ++ PyFloat.format_percent0 conf ++ ")")
                else issues in
  match issues with
  | _ :: _ => (NEEDS_REVIEW, join ", " issues)
  | [] =>
      if PyFloat.leb (PyFloat.lit 75 100) conf then (OK, "")
      else (NEEDS_REVIEW, "medium confidence (" ++ PyFloat.format_percent0 conf ++ ")")
  end.



(** ** Vendor names, categories and transaction types *)

Definition UAE_CATEGORIES : list string :=
  ["Occupancy & Facilities"; "Telecom & Connectivity"; "Travel & Transport";
   "IT, Software & Cloud"; "Professional, Banking & Insurance";
   "Office Supplies"; "Marketing & Advertising"; "Other Business Expenses"].

Definition DEFAULT_CATEGORY : string := "Other Business Expenses".

(** The dictionaries are kept as lists of their items, in the order
    of the source, which is the order of iteration. *)
Definition UAE_VENDOR_NORMALIZATION : list (string * string) :=
  [("dewa", "DEWA"); ("dubai electricity", "DEWA"); ("dubai water", "DEWA");
   ("dubai electricity and water", "DEWA");
   ("dubai electricity & water authority", "DEWA"); ("etisalat", "Etisalat");
   ("e&", "Etisalat"); ("emirates telecommunications", "Etisalat");
   ("du", "du"); ("emirates integrated telecommunications", "du");
   ("virgin mobile", "Virgin Mobile"); ("enoc", "ENOC");
   ("emirates national oil company", "ENOC"); ("eppco", "EPPCO");
   ("adnoc", "ADNOC"); ("abu dhabi national oil company", "ADNOC");
   ("emarat", "Emarat"); ("rta", "RTA");
   ("roads and transport authority", "RTA");
   ("roads & transport authority", "RTA"); ("salik", "Salik");
   ("dubai land department", "Dubai Land Department");
   ("dld", "Dubai Land Department"); ("ejari", "Ejari");
   ("tawtheeq", "Tawtheeq"); ("amer", "AMER"); ("gdrfa", "GDRFA");
   ("general directorate of residency", "GDRFA");
   ("dubai municipality", "Dubai Municipality"); ("ded", "DED");
   ("department of economic development", "DED"); ("mohre", "MOHRE");
   ("ministry of human resources", "MOHRE"); ("amazon web services", "AWS");
   ("aws", "AWS"); ("microsoft azure", "Microsoft Azure");
   ("azure", "Microsoft Azure"); ("google cloud", "Google Cloud");
   ("gcp", "Google Cloud")].

Definition VENDOR_TO_CATEGORY : list (string * string) :=
  [("DEWA", "Occupancy & Facilities");
   ("Etisalat", "Telecom & Connectivity"); ("du", "Telecom & Connectivity");
   ("Virgin Mobile", "Telecom & Connectivity");
   ("ENOC", "Travel & Transport"); ("EPPCO", "Travel & Transport");
   ("ADNOC", "Travel & Transport"); ("Emarat", "Travel & Transport");
   ("RTA", "Travel & Transport"); ("Salik", "Travel & Transport");
   ("Dubai Land Department", "Occupancy & Facilities");
   ("Ejari", "Occupancy & Facilities");
   ("Tawtheeq", "Occupancy & Facilities");
   ("AMER", "Professional, Banking & Insurance");
   ("GDRFA", "Professional, Banking & Insurance");
   ("Dubai Municipality", "Professional, Banking & Insurance");
   ("DED", "Professional, Banking & Insurance");
   ("MOHRE", "Professional, Banking & Insurance");
   ("AWS", "IT, Software & Cloud");
   ("Microsoft Azure", "IT, Software & Cloud");
   ("Google Cloud", "IT, Software & Cloud")].

Definition CATEGORY_KEYWORDS : list (string * list string) :=
  [ ("Occupancy & Facilities",
     ["dewa"; "electricity"; "water bill"; "utility bill"; "office rent";
      "rental"; "lease agreement"; "tenancy"; "ejari"; "tawtheeq"; "dld";
      "dubai land department"; "chiller"; "district cooling"; "empower";
      "tabreed"; "building maintenance"; "facilities management";
      "fm contract"; "cleaning services"; "security services"; "parking fees"]);
    ("Telecom & Connectivity",
     ["etisalat"; "e&"; "du"; "virgin mobile"; "mobile"; "telecom";
      "internet"; "broadband"; "data plan"; "phone bill"; "sim card";
      "roaming"; "landline"; "voip"; "fiber"; "wifi"]);
    ("Travel & Transport",
     ["fuel"; "petrol"; "diesel"; "enoc"; "eppco"; "adnoc"; "emarat";
      "salik"; "toll"; "parking"; "rta"; "vehicle registration";
      "registration renewal"; "mulkiya"; "traffic fine"; "vehicle insurance";
      "car rental"; "taxi"; "uber"; "careem"; "metro"; "bus"; "flight";
      "airline"; "hotel"; "travel"]);
    ("IT, Software & Cloud",
     ["aws"; "amazon web services"; "azure"; "google cloud"; "gcp";
      "software"; "saas"; "subscription"; "license"; "domain"; "hosting";
      "server"; "cloud storage"; "microsoft 365"; "office 365";
      "google workspace"; "adobe"; "zoom"; "slack"; "dropbox"; "github";
      "antivirus"; "cybersecurity"; "ssl"; "api"]);
    ("Professional, Banking & Insurance",
     ["trade license"; "license renewal"; "business license"; "visa";
      "emirates id"; "medical fitness"; "immigration"; "work permit";
      "labour card"; "establishment card"; "pro services";
      "public relations officer"; "accounting"; "audit"; "bookkeeping";
      "tax consultancy"; "legal"; "lawyer"; "attorney"; "law firm";
      "insurance"; "health insurance"; "medical insurance";
      "business insurance"; "liability insurance"; "bank charges";
      "bank fees"; "swift"; "transfer fee"]);
    ("Office Supplies",
     ["stationery"; "office supplies"; "printer"; "cartridge"; "paper";
      "pens"; "folders"; "files"; "desk"; "chair"; "furniture"; "equipment";
      "pantry"; "coffee"; "water dispenser"]);
    ("Marketing & Advertising",
     ["marketing"; "advertising"; "ads"; "campaign"; "social media";
      "facebook ads"; "google ads"; "instagram"; "seo"; "sem";
      "digital marketing"; "content creation"; "branding"; "design";
      "graphics"; "print"; "billboard"; "signage"; "banner"; "flyer"]) ].

Definition OPERATIONAL_EXPENSE_KEYWORDS : list string :=
  ["dewa"; "etisalat"; "du"; "virgin mobile"; "rent"; "ejari"; "utility";
   "telecom"; "visa"; "emirates id"; "medical fitness"; "insurance";
   "government fee"; "municipality"].

(** [d.get(key)] on the items of a dictionary. *)
Fixpoint assoc (key : string) (items : list (string * string)) : option string :=
  match items with
  | [] => None
  | (k, v) :: rest => if String.eqb k key then Some v else assoc key rest
  end.

(** [normalize_vendor_name(raw_vendor)] *)
Definition normalize_vendor_name (raw_vendor : string) : string :=
  if String.eqb raw_vendor "" then "Unknown Vendor"
  else
    let vendor_lower := strip (lower raw_vendor) in
    match List.find (fun item => contains (fst item) vendor_lower)
                    UAE_VENDOR_NORMALIZATION with
    | Some (_, normalized) => normalized
    | None =>
        foldl (fun vendor_clean suffix =>
                 if endswith (upper vendor_clean) suffix
                 then strip (drop_end (String.length suffix) vendor_clean)
                 else vendor_clean)
              (strip raw_vendor)
              [" LLC"; " L.L.C"; " FZ-LLC"; " FZE"; " FZCO"; " PJSC"; " EST"]
    end.

(** [category_scores[category] += 1] *)
Definition incr (category : string) (category_scores : list (string * nat))
  : list (string * nat) :=
  (fun item => if String.eqb (fst item) category then (fst item, S (snd item)) else item)
    <$> category_scores.

(** The scores of the categories after the loop over the keywords. *)
Definition keyword_scores (text_lower : string) : list (string * nat) :=
  foldl (fun category_scores item =>
           foldl (fun category_scores keyword =>
                    if contains keyword text_lower
                    then incr (fst item) category_scores else category_scores)
                 category_scores (snd item))
        ((fun cat => (cat, 0)) <$> UAE_CATEGORIES)
        CATEGORY_KEYWORDS.

(** [detect_category_from_text(text, vendor)] *)
Definition detect_category_from_text (text : string) (vendor : option string)
  : option string :=
  let by_vendor :=
    if negb (falsy_str vendor)
    then assoc (normalize_vendor_name (default "" vendor)) VENDOR_TO_CATEGORY
    else None in
  match by_vendor with
  | Some category => Some category
  | None =>
      let text_lower := lower text in
      let category_scores := keyword_scores text_lower in
      let max_score := foldr Nat.max 0 (snd <$> category_scores) in
      if (2 <=? max_score)%nat
      then fst <$> List.find (fun item => (snd item =? max_score)%nat) category_scores
      else None
  end.

(** [detect_transaction_type(text, vendor)] *)
Definition detect_transaction_type (text : string) (vendor : option string) : string :=
  let text_lower := lower text in
  let vendor_lower := lower (default "" vendor) in
  if existsb (fun keyword => contains keyword text_lower || contains keyword vendor_lower)
             OPERATIONAL_EXPENSE_KEYWORDS
  then "operational_expense"
  else "b2b".

(** The two checks of [extract_fields_with_llm] on the answer of the
    LLM (lines 883-897), from the entries [category] and
    [transaction_type] of the parsed answer when they are scalars. *)
Definition in_strings (v : pyval) (items : list string) : bool :=
  match v with
  | PStr s => bool_decide (s ∈ items)
  | _ => false
  end.

Definition checked_category (category : pyval) (rule_based_category : option string)
  : pyval :=
  if py_truthy category && negb (in_strings category UAE_CATEGORIES) then
    if negb (falsy_str rule_based_category)
    then PStr (default "" rule_based_category)
    else PStr DEFAULT_CATEGORY
  else if negb (py_truthy category) && negb (falsy_str rule_based_category) then
    PStr (default "" rule_based_category)
  else category.

Definition checked_transaction_type (transaction_type : pyval) (text : string)
    (vendor : option string) : pyval :=
  if negb (py_truthy transaction_type)
     || negb (in_strings transaction_type ["b2b"; "operational_expense"])
  then PStr (detect_transaction_type text vendor)
  else transaction_type.

(** ** The extraction

    [extract_fields_with_llm] from the text of the invoice and the
    answer of the LLM as [json.loads] reads it: [Some data] is a JSON
    object whose members are scalars ([Some ∅] when the answer does not
    parse, which the function replaces by the empty object), [None] a
    JSON value that is no object, on which [data.get] raises. The call
    of the LLM itself is not modelled: its answer is given.

    The dataclass annotates its fields, and the record of the model is
    typed accordingly. Python does not check the annotations: a falsy
    vendor or category that is no string and no null, or a truthy
    currency or payment method that is no string, is kept as it is;
    such an extraction is outside the typed record and is marked by
    [DataError]. *)

Section Extraction.

Variable rt : runtime.

(** The date as the function normalises it: a text that
    [datetime.fromisoformat] or [datetime.strptime] with [%d/%m/%Y]
    reads, printed as [%Y-%m-%d], and any other text unchanged. *)
Variable normalized_date : string -> string.






End Extraction.

End services_ocr_llm.


(** ** The review endpoints: [apps/api/routes/invoices.py] *)

Module invoices.

Import services_ocr_llm.

(** The content of the [review_questions] text column, by what
    [json.loads] makes of it: [RqList qs] is a text that parses into the
    list [qs] of dictionaries, which is what [json.dumps qs] writes;
    [RqOther v] is any other content [v], [None] included: a text that
    is no JSON or whose JSON is not a list. *)
Inductive rq_column : Type :=
| RqList (qs : list Question)
| RqOther (v : pyval).

(** A row of the [invoices] table as the ORM object holds it: the
    attributes by column name, [review_questions] apart. The column
    [updated_at], which the database sets by itself at every commit
    that changes the row, is not tracked: a record keeps the value it
    had. *)
Record Invoice : Type := {
  attrs : gmap string pyval;
  review_questions : rq_column
}.

(** [invoice.name]; a column that was never set is NULL. *)
Definition getattr (invoice : Invoice) (name : string) : pyval :=
  default PNone (attrs invoice !! name).

(** The mapped attributes of the [Invoice] class; an assignment to any
    other attribute does not reach the row. *)
Definition columns : gset string :=
  {[ "id"; "import_timestamp"; "company_id"; "file_original_name";
     "file_new_path"; "source"; "date"; "vendor"; "amount"; "currency";
     "tax_amount"; "category"; "payment_method"; "transaction_type";
     "is_paid"; "ocr_confidence"; "extraction_confidence"; "status";
     "notes"; "review_questions"; "review_reason"; "created_at";
     "updated_at" ]}.

Definition hasattr (name : string) : bool := bool_decide (name ∈ columns).

(** [setattr(invoice, name, v)]. A value assigned to [review_questions]
    is kept as [RqOther v]: [resolve_review], the only caller, resets the
    column to [None] before the record is read again. *)
Definition setattr (invoice : Invoice) (name : string) (v : pyval) : Invoice :=
  if String.eqb name "review_questions"
  then {| attrs := attrs invoice; review_questions := RqOther v |}
  else {| attrs := <[name := v]> (attrs invoice);
          review_questions := review_questions invoice |}.

Definition DEFAULT_VAT_RATE : float := PyFloat.lit 5 100.

Definition ALLOWED_ANSWER_FIELDS : gset string :=
  {[ "vendor"; "date"; "amount"; "currency"; "tax_amount"; "category";
     "payment_method"; "transaction_type"; "is_paid"; "notes";
     "vat_inclusive" ]}.

(** The stored questions are dictionaries already. *)
Definition _to_jsonable_questions (questions : list Question) : list Question :=
  questions.

Definition _extract_field_names (questions : list Question) : gset string :=
  foldl (fun fields q =>
           if String.eqb (field_name q) "" then fields
           else fields ∪ {[ field_name q ]})
        ∅ questions.

(** The values of a column of the declared type, read at the type the
    dataclass of the worker annotates. *)
Definition cast_str (v : pyval) : option (option string) :=
  match v with
  | PNone => Some None
  | PStr s => Some (Some s)
  | _ => None
  end.

Definition cast_float (v : pyval) : option (option float) :=
  match v with
  | PNone => Some None
  | PFloat x => Some (Some x)
  | _ => None
  end.

(** [is_paid] is an integer column holding 1, 0 or NULL. *)
Definition cast_bool (v : pyval) : option (option bool) :=
  match v with
  | PNone => Some None
  | PBool b => Some (Some b)
  | PInt n => Some (Some (negb (n =? 0)%Z))
  | _ => None
  end.

Definition extraction_of (invoice : Invoice) : option InvoiceExtraction :=
  vendor ← cast_str (getattr invoice "vendor");
  date ← cast_str (getattr invoice "date");
  amount ← cast_float (getattr invoice "amount");
  currency ← cast_str (getattr invoice "currency");
  tax_amount ← cast_float (getattr invoice "tax_amount");
  category ← cast_str (getattr invoice "category");
  payment_method ← cast_str (getattr invoice "payment_method");
  transaction_type ← cast_str (getattr invoice "transaction_type");
  is_paid ← cast_bool (getattr invoice "is_paid");
  ocr_confidence ← cast_float (getattr invoice "ocr_confidence");
  extraction_confidence ← cast_float (getattr invoice "extraction_confidence");
  Some {| vendor := vendor; date := date; amount := amount; currency := currency;
          tax_amount := tax_amount; category := category;
          payment_method := payment_method; transaction_type := transaction_type;
          is_paid := is_paid; ocr_confidence := ocr_confidence;
          extraction_confidence := extraction_confidence;
          status := NEEDS_REVIEW; review_reason := None;
          services_ocr_llm.review_questions := [] |}.

(** The guarded read of the stored questions: a non-empty list. *)
Definition stored_questions (c : rq_column) : option (list Question) :=
  match c with
  | RqList (q :: qs) => Some (q :: qs)
  | _ => None
  end.

(** Returns the record as committed and the pair [(questions, reason)].
    The commit changes [review_questions] and [review_reason]; the
    timestamp [updated_at], which it changes too, is not tracked. *)
Definition _get_or_build_review_questions (invoice : Invoice)
  : Invoice * outcome (list Question * pyval) :=
  match stored_questions (review_questions invoice) with
  | Some stored => (invoice, Ok (stored, getattr invoice "review_reason"))
  | None =>
      if negb (py_eq (getattr invoice "status") (PStr "needs_review"))
      then (invoice, Ok ([], getattr invoice "review_reason"))
      else
        match extraction_of invoice with
        | None => (invoice, Raise DataError)
        | Some extraction =>
            match build_review_questions extraction with
            | Raise e => (invoice, Raise e)
            | Ok (questions, reason) =>
                let questions_dicts := _to_jsonable_questions questions in
                let invoice :=
                  {| attrs := <["review_reason" := PStr reason]> (attrs invoice);
                     review_questions :=
                       match questions_dicts with
                       | [] => RqOther PNone
                       | _ => RqList questions_dicts
                       end |} in
                (invoice, Ok (questions_dicts, PStr reason))
            end
        end
  end.

Definition _coerce_bool (v : pyval) : option bool :=
  match v with
  | PNone => None
  | PBool b => Some b
  | PInt _ | PFloat _ => Some (py_truthy v)
  | PStr v =>
      let s := lower (strip v) in
      if bool_decide (s ∈ ["true"; "1"; "yes"; "y"]) then Some true
      else if bool_decide (s ∈ ["false"; "0"; "no"; "n"]) then Some false
      else None
  end.

Definition get (d : gmap string pyval) (key : string) : pyval :=
  default PNone (d !! key).

Definition bad_request {A : Type} (message : string) : outcome A :=
  Raise (HTTPException 400 (Detail message)).

Section WithRuntime.

Variable rt : runtime.

(** [float(v)] under [except (TypeError, ValueError)] *)
Definition float_or_400 (v : pyval) (message : string) : outcome float :=
  match py_float rt v with
  | Raise TypeError | Raise ValueError => bad_request message
  | r => r
  end.

Definition _normalize_vat (answers : gmap string pyval)
  : outcome (gmap string pyval) :=
  let out := answers in
  let vat_inclusive := _coerce_bool (get out "vat_inclusive") in
  match vat_inclusive with
  | None =>
      if bool_decide (is_Some (out !! "vat_inclusive"))
      then bad_request "vat_inclusive must be a boolean"
      else Ok out
  | Some vat =>
      match get out "amount" with
      | PNone => Ok (<["vat_inclusive" := PBool vat]> out)
      | entered =>
          entered_amount <- float_or_400 entered "amount must be a number" ;;
          tax_amount <-
            (let tax_amount := get out "tax_amount" in
             if negb (py_eq tax_amount PNone) && negb (py_eq tax_amount (PStr ""))
             then x <- float_or_400 tax_amount "tax_amount must be a number" ;;
                  Ok (Some x)
             else Ok None) ;;
          if vat then
            let gross := entered_amount in
            let tax_amount :=
              match tax_amount with
              | None =>
                  PyFloat.sub gross
                    (PyFloat.div gross
                       (PyFloat.add (PyFloat.of_Z 1) DEFAULT_VAT_RATE))
              | Some t => t
              end in
            Ok (<["vat_inclusive" := PBool true]>
                  (<["tax_amount" := PFloat (PyFloat.round tax_amount 2)]>
                     (<["amount" := PFloat (PyFloat.round gross 2)]> out)))
          else
            let tax_amount :=
              match tax_amount with
              | None => PyFloat.mul entered_amount DEFAULT_VAT_RATE
              | Some t => t
              end in
            Ok (<["vat_inclusive" := PBool false]>
                  (<["tax_amount" := PFloat (PyFloat.round tax_amount 2)]>
                     (<["amount" := PFloat (PyFloat.round entered_amount 2)]> out)))
      end
  end.

(** The loop over the answers of [resolve_review]. *)
Definition apply_answers (invoice : Invoice) (answers : gmap string pyval) : Invoice :=
  map_fold (fun k v invoice =>
              if String.eqb k "vat_inclusive" then invoice
              else if hasattr k then setattr invoice k v else invoice)
           invoice answers.

Definition close_review (invoice : Invoice) : Invoice :=
  {| attrs := <["review_reason" := PNone]> (<["status" := PStr "ok"]> (attrs invoice));
     review_questions := RqOther PNone |}.

(** [resolve_review(invoice_id, payload, db)]: the table after the call
    and the invoice returned, or the exception raised. The model follows
    the function up to its commit: the record returned holds the values
    as the function assigns them. What the database makes of an
    assigned value at [db.commit()] and [db.refresh(invoice)] (a value
    converted to the type of its column, a NaN stored as NULL, a
    negative zero read back as zero, a value it refuses) and the
    timestamp [updated_at] are not modelled. *)
Definition resolve_review (db : gmap Z Invoice) (invoice_id : Z)
    (payload : gmap string pyval) : gmap Z Invoice * outcome Invoice :=
  match db !! invoice_id with
  | None => (db, Raise (HTTPException 404 (Detail "Invoice not found")))
  | Some invoice =>
      if negb (py_eq (getattr invoice "status") (PStr "needs_review"))
      then (db, bad_request
                  ("Invoice status is '" ++ py_str rt (getattr invoice "status")
                   ++ "', not 'needs_review'. Nothing to resolve."))
      else
        match _get_or_build_review_questions invoice with
        | (invoice, Raise e) => (<[invoice_id := invoice]> db, Raise e)
        | (invoice, Ok (existing_questions, _)) =>
            let db := <[invoice_id := invoice]> db in
            let answers := payload in
            let applied :=
              if bool_decide (answers = ∅) then Ok invoice
              else
                answers <- _normalize_vat answers ;;
                let valid_fields :=
                  match existing_questions with
                  | [] => ALLOWED_ANSWER_FIELDS
                  | _ => _extract_field_names existing_questions ∪ ALLOWED_ANSWER_FIELDS
                  end in
                let invalid := dom answers ∖ valid_fields in
                if bool_decide (invalid = ∅) then Ok (apply_answers invoice answers)
                else Raise (HTTPException 400 (InvalidFieldsDetail invalid valid_fields)) in
            match applied with
            | Raise e => (db, Raise e)
            | Ok invoice =>
                let invoice := close_review invoice in
                (<[invoice_id := invoice]> db, Ok invoice)
            end
        end
  end.

(** [get_review_questions(invoice_id, db)]: the table after the call and
    the questions returned, or the exception raised. The conversion of a
    question to [ReviewQuestion] keeps its content: a question holds the
    required keys. *)
Definition get_review_questions (db : gmap Z Invoice) (invoice_id : Z)
  : gmap Z Invoice * outcome (list Question) :=
  match db !! invoice_id with
  | None => (db, Raise (HTTPException 404 (Detail "Invoice not found")))
  | Some invoice =>
      if negb (py_eq (getattr invoice "status") (PStr "needs_review"))
      then (db, Ok [])
      else
        match _get_or_build_review_questions invoice with
        | (invoice, Raise e) => (<[invoice_id := invoice]> db, Raise e)
        | (invoice, Ok (questions_dicts, _)) =>
            (<[invoice_id := invoice]> db, Ok questions_dicts)
        end
  end.

(** The attributes that [get_invoice] copies into its answer. *)
Definition detail_keys : list string :=
  ["id"; "vendor"; "amount"; "date"; "currency"; "tax_amount"; "category";
   "payment_method"; "transaction_type"; "is_paid"; "ocr_confidence";
   "extraction_confidence"; "status"; "notes"; "file_original_name";
   "file_new_path"].

(** [get_invoice(invoice_id, db)]: the table after the call and the
    answer, split into the copied attributes and the entries
    [review_questions] and [review_reason]. *)
Definition get_invoice (db : gmap Z Invoice) (invoice_id : Z)
  : gmap Z Invoice * outcome (gmap string pyval * (list Question * pyval)) :=
  match db !! invoice_id with
  | None => (db, Raise (HTTPException 404 (Detail "Invoice not found")))
  | Some invoice =>
      match _get_or_build_review_questions invoice with
      | (invoice, Raise e) => (<[invoice_id := invoice]> db, Raise e)
      | (invoice, Ok (questions, reason)) =>
          (<[invoice_id := invoice]> db,
           Ok (list_to_map ((fun k => (k, getattr invoice k)) <$> detail_keys),
               (questions, reason)))
      end
  end.

End WithRuntime.

End invoices.

(** ** The service layer: [apps/api/services/invoice_service.py] *)

Module invoice_service.

Import invoices.

Section WithRuntime.

Variable rt : runtime.

(** [float(value) if value else None] *)
Definition float_if (value : pyval) : outcome pyval :=
  if py_truthy value then x <- py_float rt value ;; Ok (PFloat x) else Ok PNone.

(** [str(value) if value else fallback] *)
Definition str_if (value fallback : pyval) : pyval :=
  if py_truthy value then PStr (py_str rt value) else fallback.

Definition paid_flag (value : pyval) : pyval :=
  match value with
  | PBool b => PInt (if b then 1 else 0)
  | PStr s => PInt (if bool_decide (lower s ∈ ["true"; "yes"; "1"]) then 1 else 0)
  | _ => PInt (if py_truthy value then 1 else 0)
  end.

(** One turn of the loop over the answers. *)
Definition apply_answer (field_name : string) (value : pyval) (invoice : Invoice)
  : outcome Invoice :=
  match value with
  | PNone => Ok invoice
  | _ =>
      if String.eqb field_name "amount"
      then v <- float_if value ;; Ok (setattr invoice "amount" v)
      else if String.eqb field_name "date"
      then Ok (setattr invoice "date" (str_if value PNone))
      else if String.eqb field_name "vendor"
      then Ok (setattr invoice "vendor" (str_if value PNone))
      else if String.eqb field_name "tax_amount"
      then v <- float_if value ;; Ok (setattr invoice "tax_amount" v)
      else if String.eqb field_name "category"
      then Ok (setattr invoice "category" (str_if value PNone))
      else if String.eqb field_name "payment_method"
      then Ok (setattr invoice "payment_method" (str_if value PNone))
      else if String.eqb field_name "is_paid"
      then Ok (setattr invoice "is_paid" (paid_flag value))
      else if String.eqb field_name "currency"
      then Ok (setattr invoice "currency" (str_if value (PStr "AED")))
      else if String.eqb field_name "transaction_type"
      then Ok (setattr invoice "transaction_type" (str_if value PNone))
      else Ok invoice
  end.

Definition mark_resolved (invoice : Invoice) : Invoice :=
  {| attrs := <["review_reason" := PNone]>
                (<["status" := PStr "ok"]>
                   (<["extraction_confidence" := PFloat (PyFloat.lit 95 100)]>
                      (attrs invoice)));
     review_questions := RqOther PNone |}.

(** [InvoiceService.resolve_review]: the table after the call and the
    invoice returned ([None] for an unknown id), or the exception of a
    conversion, which leaves the table as it was. *)
Definition resolve_review (db : gmap Z Invoice) (invoice_id : Z)
    (questions : list services_ocr_llm.Question) (answers : gmap string pyval)
  : gmap Z Invoice * outcome (option Invoice) :=
  match db !! invoice_id with
  | None => (db, Ok None)
  | Some invoice =>
      match map_fold (fun field_name value acc =>
                        invoice <- acc ;; apply_answer field_name value invoice)
                     (Ok invoice) answers with
      | Raise e => (db, Raise e)
      | Ok invoice =>
          let invoice := mark_resolved invoice in
          (<[invoice_id := invoice]> db, Ok (Some invoice))
      end
  end.

(** [InvoiceUpdate] of [schemas/invoice_schema.py], after validation: a
    field that the request did not set is [None]; a field set to null is
    [Some None]. *)
Record InvoiceUpdate : Type := {
  transaction_type : option (option string);
  is_paid : option (option bool);
  category : option (option string);
  payment_method : option (option string);
  notes : option (option string)
}.

Definition dump_str (o : option string) : pyval :=
  match o with Some s => PStr s | None => PNone end.

Definition dump_bool (o : option bool) : pyval :=
  match o with Some b => PBool b | None => PNone end.

(** [payload.model_dump(exclude_unset=True)] *)
Definition model_dump (payload : InvoiceUpdate) : gmap string pyval :=
  let put (name : string) (v : option pyval) (d : gmap string pyval) :=
    match v with Some x => <[name := x]> d | None => d end in
  put "notes" (dump_str <$> notes payload)
    (put "payment_method" (dump_str <$> payment_method payload)
       (put "category" (dump_str <$> category payload)
          (put "is_paid" (dump_bool <$> is_paid payload)
             (put "transaction_type" (dump_str <$> transaction_type payload) ∅)))).

(** [db.commit(); db.refresh(invoice)] after the assignments of
    [update_invoice]: the Integer column [is_paid] returns a boolean as 0
    or 1; the strings and nulls of the other fields are read back as
    they were written. The column [updated_at], which the database sets
    on every update of a row, is not tracked by the records. *)
Definition refresh (invoice : Invoice) : Invoice :=
  match getattr invoice "is_paid" with
  | PBool b => setattr invoice "is_paid" (PInt (Z.b2z b))
  | _ => invoice
  end.

(** [InvoiceService.update_invoice]: the table after the call and the
    invoice returned, [None] for an unknown id. *)
Definition update_invoice (db : gmap Z Invoice) (invoice_id : Z)
    (payload : InvoiceUpdate) : gmap Z Invoice * option Invoice :=
  match db !! invoice_id with
  | None => (db, None)
  | Some invoice =>
      let updates := model_dump payload in
      let invoice :=
        map_fold (fun field value invoice => setattr invoice field value)
                 invoice updates in
      let invoice := refresh invoice in
      (<[invoice_id := invoice]> db, Some invoice)
  end.

(** The line feed of the note that [mark_as_reviewed] appends. *)
Definition newline : string := String (ascii_of_nat 10) EmptyString.

(** [InvoiceService.mark_as_reviewed]: the table after the call and the
    invoice returned, [None] for an unknown id. *)
Definition mark_as_reviewed (db : gmap Z Invoice) (invoice_id : Z)
    (notes : option string) : gmap Z Invoice * option Invoice :=
  match db !! invoice_id with
  | None => (db, None)
  | Some invoice =>
      let invoice := close_review invoice in
      let invoice :=
        if negb (services_ocr_llm.falsy_str notes) then
          let existing_notes := py_or (getattr invoice "notes") (PStr "") in
          setattr invoice "notes"
            (PStr (strip (py_str rt existing_notes ++ newline
                          ++ "[Manually reviewed] " ++ default "" notes)))
        else invoice in
      (<[invoice_id := invoice]> db, Some invoice)
  end.

End WithRuntime.

End invoice_service.

(** ** The table and the reverse spreadsheet sync: [apps/worker/pipeline/storage.py] *)

Module storage.

Definition get (d : gmap string pyval) (key : string) : pyval :=
  default PNone (d !! key).

(** The running state of the loop: the table by row id, and the two
    counters. *)
Record sync_state : Type := {
  table : gmap Z (gmap string pyval);
  updated_count : nat;
  error_count : nat
}.

Section WithRuntime.

Variable rt : runtime.

(** [(v or "").strip()] *)
Definition stripped (v : pyval) : outcome string :=
  match py_or v (PStr "") with
  | PStr s => Ok (strip s)
  | _ => Raise AttributeError
  end.

(** [(v or "").strip() or None] *)
Definition stripped_or_none (v : pyval) : outcome pyval :=
  s <- stripped v ;;
  Ok (if String.eqb s "" then PNone else PStr s).

Definition put_if_differs (updates : gmap string pyval) (key : string)
    (sheet_value : pyval) (db_invoice : gmap string pyval) : gmap string pyval :=
  if negb (py_eq sheet_value (get db_invoice key))
  then <[key := sheet_value]> updates else updates.

(** The inner [try] around the tax amount. *)
Definition tax_update (updates record db_invoice : gmap string pyval)
  : outcome (gmap string pyval) :=
  let raw_tax := get record "tax_amount" in
  let sheet_tax :=
    if negb (py_eq raw_tax PNone || py_eq raw_tax (PStr "") || py_eq raw_tax (PStr " "))
    then x <- py_float rt raw_tax ;; Ok (PFloat x)
    else Ok PNone in
  match sheet_tax with
  | Ok sheet_tax => Ok (put_if_differs updates "tax_amount" sheet_tax db_invoice)
  | Raise ValueError | Raise TypeError => Ok updates
  | Raise e => Raise e
  end.

Definition paid_int (sheet_is_paid : pyval) : option Z :=
  match sheet_is_paid with
  | PBool b => Some (if b then 1 else 0)%Z
  | PStr s =>
      Some (if bool_decide (lower s ∈ ["true"; "yes"; "1"; "paid"]) then 1 else 0)%Z
  | PInt _ | PFloat _ => Some (if py_truthy sheet_is_paid then 1 else 0)%Z
  | PNone => None
  end.

(** The dictionary [updates] computed from one sheet row and the
    matching database row. *)
Definition sheet_updates (record db_invoice : gmap string pyval)
  : outcome (gmap string pyval) :=
  let updates : gmap string pyval := ∅ in
  sheet_vendor <- stripped_or_none (get record "vendor") ;;
  let updates := put_if_differs updates "vendor" sheet_vendor db_invoice in
  updates <- tax_update updates record db_invoice ;;
  sheet_category <- stripped_or_none (get record "category") ;;
  let updates := put_if_differs updates "category" sheet_category db_invoice in
  sheet_payment <- stripped_or_none (get record "payment_method") ;;
  let updates := put_if_differs updates "payment_method" sheet_payment db_invoice in
  sheet_trans_type <- stripped_or_none (get record "transaction_type") ;;
  let updates :=
    put_if_differs updates "transaction_type" sheet_trans_type db_invoice in
  let updates :=
    match paid_int (get record "is_paid") with
    | Some n => put_if_differs updates "is_paid" (PInt n) db_invoice
    | None => updates
    end in
  sheet_notes <- stripped (get record "notes") ;;
  let db_notes := py_or (get db_invoice "notes") (PStr "") in
  let updates :=
    if negb (String.eqb sheet_notes "") && negb (py_eq (PStr sheet_notes) db_notes)
    then <["notes" := PStr sheet_notes]> updates else updates in
  Ok updates.

(** [UPDATE invoices SET ... WHERE id = ?] on the row found. *)
Definition update_row (updates db_invoice : gmap string pyval) : gmap string pyval :=
  updates ∪ db_invoice.

(** A value that [sqlite3] binds as a parameter: an integer beyond 64
    bits raises [OverflowError]. *)
Definition bindable (v : pyval) : bool :=
  match v with
  | PInt n => (- 2 ^ 63 <=? n)%Z && (n <? 2 ^ 63)%Z
  | _ => true
  end.

(** One turn of the loop over the sheet rows. The [SELECT] is inside the
    [try]: an id that cannot be bound is counted as an error. *)
Definition sync_record (st : sync_state) (record : gmap string pyval) : sync_state :=
  let invoice_id := get record "id" in
  if negb (py_truthy invoice_id) then st
  else if negb (bindable invoice_id) then
    {| table := table st; updated_count := updated_count st;
       error_count := S (error_count st) |}
  else
    match sqlite_key rt invoice_id with
    | None => st
    | Some key =>
        match table st !! key with
        | None => st
        | Some db_invoice =>
            match sheet_updates record db_invoice with
            | Raise _ =>
                {| table := table st; updated_count := updated_count st;
                   error_count := S (error_count st) |}
            | Ok updates =>
                if bool_decide (updates = ∅) then st
                else {| table := <[key := update_row updates db_invoice]> (table st);
                        updated_count := S (updated_count st);
                        error_count := error_count st |}
            end
        end
    end.

(** [sync_from_sheets_to_db], from the rows read off the sheet. *)
Definition sync_from_sheets_to_db (all_records : list (gmap string pyval))
    (db : gmap Z (gmap string pyval)) : sync_state :=
  foldl sync_record {| table := db; updated_count := 0; error_count := 0 |}
        all_records.

End WithRuntime.




End storage.

(** ** The pipeline: [apps/worker/pipeline/core_pipeline.py] *)

Module core_pipeline.

Import services_ocr_llm.

Section WithRuntime.

Variable rt : runtime.

Variable normalized_date : string -> string.


End WithRuntime.

End core_pipeline.

(** ** The file organiser: [apps/worker/pipeline/file_organizer.py] *)

Module file_organizer.

(** The class [A-Za-z0-9]. *)
Definition is_alnum (c : ascii) : bool :=
  let n := nat_of_ascii c in
  ((48 <=? n)%nat && (n <=? 57)%nat)
  || ((65 <=? n)%nat && (n <=? 90)%nat)
  || ((97 <=? n)%nat && (n <=? 122)%nat).

Definition is_underscore (c : ascii) : bool := Ascii.eqb c "_".

(** [_safe_slug(value, max_len)] *)
Definition _safe_slug (value : string) (max_len : Z) : string :=
  let value := strip value in
  let value := sub_runs (fun c => negb (is_alnum c)) false value in
  let value := sub_runs is_underscore false value in
  let value := strip_by is_underscore value in
  let value :=
    if (max_len <? Z.of_nat (String.length value))%Z
    then slice_to max_len value else value in
  if String.eqb value "" then "Invoice" else value.

End file_organizer.

(** * Specification

    The properties of the specification, stated over the model, and the
    sample inputs of the closed examples. *)

(** [x] lies strictly below the positive double [mc * 2^ec]. *)
Definition below (x : float) (mc : positive) (ec : Z) : Prop :=
  match x with
  | S754_zero _ => True
  | S754_infinity s => s = true
  | S754_nan => False
  | S754_finite true _ _ => True
  | S754_finite false m e => (e < ec)%Z \/ (e = ec /\ (m < mc)%positive)
  end.

Section ClassifierSpec.

Import services_ocr_llm.

(** The confidence the classifier compares: a null one counts as 0.0. *)
Definition confidence (r : InvoiceExtraction) : float :=
  or_zero (extraction_confidence r).

(** The conditions of a review as the specification lists them. *)
Definition review_conditions (r : InvoiceExtraction) : Prop :=
  amount r = None \/ date r = None \/ falsy_str (vendor r) = true \/
  PyFloat.ltb (confidence r) (PyFloat.lit 6 10) = true \/
  (PyFloat.leb (PyFloat.lit 6 10) (confidence r) = true /\
   PyFloat.ltb (confidence r) (PyFloat.lit 75 100) = true).

(** The classifier as the specification states it. *)
Definition classifier_as_specified (r : InvoiceExtraction) : Prop :=
  (fst (_determine_status r) = NEEDS_REVIEW <-> review_conditions r) /\
  (~ review_conditions r -> _determine_status r = (OK, "")).

Definition nan_record : InvoiceExtraction :=
  {| vendor := Some "DEWA"; date := Some "2024-03-15";
     amount := Some (PyFloat.of_Z 100); currency := Some "AED";
     tax_amount := None; category := Some "Occupancy & Facilities";
     payment_method := None; transaction_type := Some "b2b";
     is_paid := Some true; ocr_confidence := None;
     extraction_confidence := Some S754_nan;
     status := NEEDS_REVIEW; review_reason := None; review_questions := [] |}.

End ClassifierSpec.

Section QuestionsSpec.

Import services_ocr_llm.

Definition when {A : Type} (b : bool) (x : A) : list A := if b then [x] else [].

(** The questions of the five field conditions that hold, in the
    priority order of the specification. *)
Definition field_questions (r : InvoiceExtraction) : list Question :=
  (when (is_None (amount r)) amount_question ++
   when (is_None (date r)) date_question ++
   when (vendor_blank (vendor r)) (vendor_question (vendor r)) ++
   when (is_None (is_paid r)) is_paid_question ++
   when (is_None (category r)) category_question)%list.

(** The last-resort check: one question confirming the amount, only
    when no field condition fired and the confidence is below 0.5. *)
Definition last_resort (r : InvoiceExtraction) : list Question :=
  match field_questions r, amount r with
  | [], Some x =>
      when (PyFloat.ltb (confidence r) (PyFloat.lit 5 10))
           (confirm_question (Some x) (PyFloat.format_f 2 x))
  | _, _ => []
  end.

(** The question list as the specification describes it. *)
Definition expected_questions (r : InvoiceExtraction) : list Question :=
  firstn 4 (field_questions r ++ last_resort r)%list.

End QuestionsSpec.

Section PipelineSpec.

Import services_ocr_llm.


(** Every field present, confidence 0.7. *)
Definition medium_record : InvoiceExtraction :=
  {| vendor := Some "DEWA"; date := Some "2024-03-15";
     amount := Some (PyFloat.of_Z 100); currency := Some "AED";
     tax_amount := None; category := Some "Occupancy & Facilities";
     payment_method := None; transaction_type := Some "b2b";
     is_paid := Some true; ocr_confidence := None;
     extraction_confidence := Some (PyFloat.lit 7 10);
     status := NEEDS_REVIEW; review_reason := None; review_questions := [] |}.

(** Nothing was extracted. *)
Definition empty_record : InvoiceExtraction :=
  {| vendor := None; date := None; amount := None; currency := Some "AED";
     tax_amount := None; category := None; payment_method := None;
     transaction_type := Some "b2b"; is_paid := None; ocr_confidence := None;
     extraction_confidence := Some PyFloat.zero;
     status := NEEDS_REVIEW; review_reason := None; review_questions := [] |}.









End PipelineSpec.

(** A runtime for the closed examples below, none of which converts a
    string to a float or prints a float; row ids are matched as integers. *)
Definition sample_runtime : runtime :=
  {| float_of_str := fun _ => None;
     str_of_float := fun _ => "";
     sqlite_key := fun v => match v with PInt n => Some n | _ => None end |}.


Section VatSpec.

Import invoices.

(** No tax amount was entered: the key is absent, null or empty. *)
Definition tax_not_provided (answers : gmap string pyval) : Prop :=
  get answers "tax_amount" = PNone \/ get answers "tax_amount" = PStr "".

(** The tax the two branches derive from the entered amount. *)
Definition derived_tax (vat_inclusive : bool) (entered : float) : float :=
  if vat_inclusive
  then PyFloat.sub entered
         (PyFloat.div entered (PyFloat.add (PyFloat.of_Z 1) (PyFloat.lit 5 100)))
  else PyFloat.mul entered (PyFloat.lit 5 100).

(** Rounding to 2 decimals, stated on the exact value [m * 2^e] of a
    double: [n] is the integer nearest to [100 * m * 2^e], the even one
    of the two when the value lies half-way between them. *)
Definition nearest_hundredths (m e n : Z) : Prop :=
  let num := (m * 100 * 2 ^ Z.max e 0)%Z in
  let den := (2 ^ Z.max (- e) 0)%Z in
  (2 * Z.abs (num - n * den) <= den)%Z /\
  ((2 * Z.abs (num - n * den) = den)%Z -> Z.even n = true).

(** The double nearest to [n / 100], with the sign [s]. *)
Definition cents (s : bool) (n : Z) : float :=
  match n with
  | Zpos p => PyFloat.div (S754_finite s p 0) (PyFloat.of_Z 100)
  | _ => S754_zero s
  end.

(** [y] is [x] rounded to 2 decimals: the double of the nearest
    hundredth of a finite [x], and [x] itself when [x] is a zero, an
    infinity or NaN. *)
Definition rounded_to_cents (x y : float) : Prop :=
  match x with
  | S754_finite s m e => exists n, nearest_hundredths (Zpos m) e n /\ y = cents s n
  | _ => y = x
  end.

End VatSpec.

Definition inclusive_answers : gmap string pyval :=
  <["vat_inclusive" := PBool true]> (<["amount" := PInt 105]> ∅).

Definition exclusive_answers : gmap string pyval :=
  <["vat_inclusive" := PStr "no"]> (<["amount" := PFloat (PyFloat.of_Z 100)]> ∅).

(** Amounts with more than 2 decimals: 19.999 inclusive of VAT, and
    12.345 exclusive of VAT. *)
Definition long_inclusive_answers : gmap string pyval :=
  <["vat_inclusive" := PBool true]>
    (<["amount" := PFloat (PyFloat.lit 19999 1000)]> ∅).

Definition long_exclusive_answers : gmap string pyval :=
  <["vat_inclusive" := PBool false]>
    (<["amount" := PFloat (PyFloat.lit 12345 1000)]> ∅).

(** An amount of 2.675, whose double lies below the decimal, with a tax
    amount of 0.125, which lies half-way between two hundredths. *)
Definition long_taxed_answers : gmap string pyval :=
  <["vat_inclusive" := PBool false]>
    (<["amount" := PFloat (PyFloat.lit 2675 1000)]>
       (<["tax_amount" := PFloat (PyFloat.lit 125 1000)]> ∅)).

Section StoredQuestionsSpec.

Import invoices.

Definition needs_review (invoice : Invoice) : Prop :=
  py_eq (getattr invoice "status") (PStr "needs_review") = true.

(** The idempotent fetch as the specification states it: the second call
    returns what the first returned, and reads it from the record, where
    the first call persisted it. *)
Definition fetch_as_specified (invoice : Invoice) : Prop :=
  needs_review invoice ->
  let first := _get_or_build_review_questions invoice in
  _get_or_build_review_questions (fst first) = first /\
  exists questions reason,
    snd first = Ok (questions, reason) /\
    stored_questions (review_questions (fst first)) = Some questions.

End StoredQuestionsSpec.

Section ResolveSpec.

Import invoices.

(** The answer keys a record accepts: the whitelist and the field names
    of its questions. *)
Definition valid_fields (existing_questions : list services_ocr_llm.Question)
  : gset string :=
  _extract_field_names existing_questions ∪ ALLOWED_ANSWER_FIELDS.

(** The value the loop over the answers assigns to attribute [k]. *)
Definition answered (answers : gmap string pyval) (k : string) : option pyval :=
  if String.eqb k "vat_inclusive" then None
  else if hasattr k then answers !! k else None.

End ResolveSpec.

Section RejectionSpec.

Import invoices.

Variable rt : runtime.

(** The rejection of unknown answer keys as the specification states
    it: a validation error listing the invalid keys and the valid set,
    the table left as it was. *)
Definition rejection_as_specified (db : gmap Z Invoice) (invoice_id : Z)
    (answers : gmap string pyval) : Prop :=
  forall invoice questions reason,
    db !! invoice_id = Some invoice -> needs_review invoice ->
    snd (_get_or_build_review_questions invoice) = Ok (questions, reason) ->
    ~ dom answers ⊆ valid_fields questions ->
    resolve_review rt db invoice_id answers =
    (db, Raise (HTTPException 400
                  (InvalidFieldsDetail (dom answers ∖ valid_fields questions)
                                       (valid_fields questions)))).

End RejectionSpec.

(** A needs_review row as the pipeline inserts it: the amount is missing
    and no review question is stored yet. *)
Definition fresh_invoice : invoices.Invoice :=
  {| invoices.attrs :=
       list_to_map
         [ ("id", PInt 1); ("file_original_name", PStr "dewa.pdf");
           ("file_new_path", PStr "Invoices/2024/03/dewa.pdf");
           ("source", PStr "upload"); ("date", PStr "2024-03-15");
           ("vendor", PStr "DEWA"); ("currency", PStr "AED");
           ("category", PStr "Occupancy & Facilities");
           ("transaction_type", PStr "b2b"); ("is_paid", PInt 0);
           ("extraction_confidence", PFloat (PyFloat.lit 3 10));
           ("status", PStr "needs_review"); ("notes", PStr "DEWA bill") ];
     invoices.review_questions := invoices.RqOther PNone |}.

Definition fresh_db : gmap Z invoices.Invoice := {[ 1%Z := fresh_invoice ]}.

(** A needs_review row with every field present and a confidence of 0.7. *)
Definition medium_invoice : invoices.Invoice :=
  {| invoices.attrs :=
       <["amount" := PFloat (PyFloat.of_Z 100)]>
         (<["extraction_confidence" := PFloat (PyFloat.lit 7 10)]>
            (invoices.attrs fresh_invoice));
     invoices.review_questions := invoices.RqOther PNone |}.

(** The same row once its questions have been fetched. *)
Definition fetched_db : gmap Z invoices.Invoice :=
  {[ 1%Z := fst (invoices._get_or_build_review_questions fresh_invoice) ]}.

Definition unknown_answers : gmap string pyval := {[ "unknown_field" := PInt 1 ]}.

Definition unknown_and_vat_answers : gmap string pyval :=
  <["vat_inclusive" := PStr "maybe"]> unknown_answers.

Definition amount_answer : gmap string pyval :=
  {[ "amount" := PFloat (PyFloat.of_Z 150) ]}.

(** What the endpoint returns on [fresh_invoice] and [amount_answer]. *)
Definition route_resolved : invoices.Invoice :=
  match snd (invoices.resolve_review sample_runtime fresh_db 1 amount_answer) with
  | Ok invoice => invoice
  | Raise _ => fresh_invoice
  end.

(** What the method of the service layer returns on the same input. *)
Definition service_resolved : invoices.Invoice :=
  match snd (invoice_service.resolve_review sample_runtime fresh_db 1 [] amount_answer) with
  | Ok (Some invoice) => invoice
  | _ => fresh_invoice
  end.

Section SyncSpec.

Import storage.

(** The fields that may flow back from the mirror, as the specification
    lists them. *)
Definition sync_allowlist : gset string :=
  {[ "vendor"; "tax_amount"; "category"; "payment_method";
     "transaction_type"; "is_paid"; "notes" ]}.

(** The fields the specification names as protected. *)
Definition protected_fields : list string :=
  ["amount"; "date"; "id"; "file_original_name"; "file_new_path"].

(** Column [k] of row [id]: whether the row exists and what it holds. *)
Definition column (t : gmap Z (gmap string pyval)) (id : Z) (k : string)
  : option (option pyval) :=
  (fun row : gmap string pyval => row !! k) <$> (t !! id).

Definition allowed (updates : gmap string pyval) : Prop :=
  dom updates ⊆ sync_allowlist.

(** The row of the table that a mirror row addresses: the row that its
    id matches, when the id is not empty and can be bound. *)
Definition addressed (rt : runtime) (record : gmap string pyval) : option Z :=
  let invoice_id := get record "id" in
  if py_truthy invoice_id && bindable invoice_id
  then sqlite_key rt invoice_id
  else None.

End SyncSpec.

(** A table row and a mirror row for it in which the vendor, the amount,
    the date and a file path were edited. *)
Definition stored_row : gmap string pyval :=
  list_to_map
    [ ("id", PInt 7); ("file_original_name", PStr "dewa.pdf");
      ("file_new_path", PStr "Invoices/2024/03/dewa.pdf");
      ("date", PStr "2024-03-15"); ("vendor", PStr "DEWA");
      ("amount", PFloat (PyFloat.of_Z 100)); ("is_paid", PInt 0);
      ("status", PStr "ok") ].

Definition edited_row : gmap string pyval :=
  list_to_map
    [ ("id", PInt 7); ("file_new_path", PStr "elsewhere.pdf");
      ("date", PStr "2031-01-01"); ("vendor", PStr "  Dubai Electricity ");
      ("amount", PInt 999); ("is_paid", PStr "Paid") ].

(** A second row of the table, which no mirror row addresses. *)
Definition second_row : gmap string pyval :=
  <["id" := PInt 8]> (<["vendor" := PStr "Etisalat"]> stored_row).

Definition two_rows_table : gmap Z (gmap string pyval) :=
  <[8%Z := second_row]> {[ 7%Z := stored_row ]}.

(** ** Further sample inputs *)

(** Answers with the flag but no amount, and a tax amount that is no number. *)
Definition flag_only_answers : gmap string pyval :=
  <["vat_inclusive" := PStr "yes"]> (<["tax_amount" := PStr "abc"]> ∅).

(** A null flag. *)
Definition null_flag_answers : gmap string pyval :=
  <["vat_inclusive" := PNone]> (<["amount" := PInt 10]> ∅).

(** The fields the question builder asks about. *)
Definition asked_fields : list string :=
  ["amount"; "date"; "vendor"; "is_paid"; "category"].

(** The fields that the resolution method of the service layer assigns
    from the answers. *)
Definition service_fields : list string :=
  ["amount"; "date"; "vendor"; "tax_amount"; "category"; "payment_method";
   "is_paid"; "currency"; "transaction_type"].

(** The fields a manual update may set. *)
Definition update_fields : list string :=
  ["transaction_type"; "is_paid"; "category"; "payment_method"; "notes"].

(** Two rows: the fresh one and one with every field present. *)
Definition two_rows_db : gmap Z invoices.Invoice :=
  <[2%Z := medium_invoice]> fresh_db.

(** Answers for the service method: an amount, a note and a null vendor. *)
Definition service_answers : gmap string pyval :=
  <["amount" := PInt 150]> (<["notes" := PStr "checked"]> (<["vendor" := PNone]> ∅)).

(** A manual update that sets the category and nulls the payment method. *)
Definition sample_update : invoice_service.InvoiceUpdate :=
  {| invoice_service.transaction_type := None;
     invoice_service.is_paid := Some (Some true);
     invoice_service.category := Some (Some "Office Supplies");
     invoice_service.payment_method := Some None;
     invoice_service.notes := None |}.

(** What the method of the service layer returns on [service_answers]. *)
Definition service_answered : invoices.Invoice :=
  match snd (invoice_service.resolve_review sample_runtime fresh_db 1 [] service_answers) with
  | Ok (Some invoice) => invoice
  | _ => fresh_invoice
  end.

(** The questions and the reason fetched for [fresh_invoice], and the
    attributes the detail endpoint answers with. *)
Definition fetched_questions : list services_ocr_llm.Question :=
  match snd (invoices._get_or_build_review_questions fresh_invoice) with
  | Ok (questions, _) => questions
  | Raise _ => []
  end.

Definition fetched_reason : pyval :=
  match snd (invoices._get_or_build_review_questions fresh_invoice) with
  | Ok (_, reason) => reason
  | Raise _ => PNone
  end.

Definition fresh_detail : gmap string pyval :=
  match snd (invoices.get_invoice fresh_db 1) with
  | Ok (fields, _) => fields
  | Raise _ => ∅
  end.

(** ** What the reverse sync may write *)

Section WrittenSpec.

(** A text cell as the sync writes it: not empty and without blanks
    around it. *)
Definition clean_text (v : pyval) : Prop :=
  exists s, v = PStr s /\ s <> "" /\ strip s = s.

(** The values that the sync writes into column [k]. *)
Definition written_ok (k : string) (v : pyval) : Prop :=
  if bool_decide (k ∈ ["vendor"; "category"; "payment_method"; "transaction_type"])
  then v = PNone \/ clean_text v
  else if String.eqb k "tax_amount" then v = PNone \/ exists x, v = PFloat x
  else if String.eqb k "is_paid" then v = PInt 0 \/ v = PInt 1
  else if String.eqb k "notes" then clean_text v
  else False.

(** Every entry of [updates] is such a value. *)
Definition written (updates : gmap string pyval) : Prop :=
  forall k v, updates !! k = Some v -> written_ok k v.

End WrittenSpec.

(** A mirror row with a tax amount and a note, the state of the loop
    before it, and the row of the table after a sync of [edited_row]. *)
Definition taxed_row : gmap string pyval :=
  list_to_map [ ("id", PInt 7); ("tax_amount", PInt 5); ("notes", PStr " checked ") ].

Definition stored_state : storage.sync_state :=
  {| storage.table := {[ 7%Z := stored_row ]};
     storage.updated_count := 0;
     storage.error_count := 0 |}.

Definition synced_row : gmap string pyval :=
  default ∅ (storage.table
               (storage.sync_from_sheets_to_db sample_runtime [edited_row]
                  {[ 7%Z := stored_row ]}) !! 7%Z).

(** ** Sample vendors *)

Definition municipality : string := "Dubai Municipality".

(** ** Columns by type

    The text and the float columns of the [Invoice] class, the column
    of the questions apart: a text in a text column and a float other
    than NaN and the negative zero in a float column are read back from
    the database as they were written (NaN is read back as NULL and the
    negative zero as zero). *)
Definition text_columns : list string :=
  ["import_timestamp"; "file_original_name"; "file_new_path"; "source"; "date";
   "vendor"; "currency"; "category"; "payment_method"; "transaction_type";
   "status"; "notes"; "review_reason"].

Definition float_columns : list string :=
  ["amount"; "tax_amount"; "ocr_confidence"; "extraction_confidence"].

Definition stored_as_written (k : string) (v : pyval) : Prop :=
  (k ∈ text_columns /\ exists s, v = PStr s) \/
  (k ∈ float_columns /\
   exists x, v = PFloat x /\ PyFloat.is_nan x = false /\ x <> S754_zero true).

(** ** Slugs *)

(** Every character of [s] satisfies [p]. *)
Fixpoint all_chars (p : ascii -> bool) (s : string) : bool :=
  match s with
  | String c s' => p c && all_chars p s'
  | EmptyString => true
  end.

(** No two underscores in a row. *)
Fixpoint no_double (s : string) : bool :=
  match s with
  | String a s' =>
      match s' with
      | String b _ =>
          negb (file_organizer.is_underscore a && file_organizer.is_underscore b)
          && no_double s'
      | EmptyString => true
      end
  | EmptyString => true
  end.

(** The characters of a slug. *)
Definition slug_char (c : ascii) : bool :=
  file_organizer.is_alnum c || file_organizer.is_underscore c.

(** * Proofs *)

(** ** Comparisons of floats against positive constants *)

Lemma ltb_below x mc ec :
  PyFloat.ltb x (S754_finite false mc ec) = true <-> below x mc ec.
Proof.
  unfold PyFloat.ltb, SFltb, below.
  destruct x as [s|s| |s m e]; cbn [SFcompare]; try destruct s; try easy.
  change (Pos.compare_cont Eq m mc) with (Pos.compare m mc).
  destruct (Z.compare_spec e ec) as [->|H|H];
    destruct (Pos.compare_spec m mc) as [->|H'|H']; split; intros; try easy; lia.
Qed.

Lemma leb_not_below x mc ec :
  PyFloat.leb (S754_finite false mc ec) x = true <->
  PyFloat.is_nan x = false /\ ~ below x mc ec.
Proof.
  unfold PyFloat.leb, SFleb, below, PyFloat.is_nan.
  destruct x as [s|s| |s m e]; cbn [SFcompare]; try destruct s;
    try (split; [intros; split; [easy | try easy] | try easy]; intuition easy).
  change (Pos.compare_cont Eq mc m) with (Pos.compare mc m).
  destruct (Z.compare_spec ec e) as [->|H|H];
    destruct (Pos.compare_spec mc m) as [->|H'|H'];
    split; try easy; try (intros _; split; [easy | lia]);
    intros [_ Hn]; exfalso; apply Hn; lia.
Qed.

Lemma classic_below x mc ec : below x mc ec \/ ~ below x mc ec.
Proof.
  unfold below. destruct x as [s|s| |[] m e]; try tauto.
  - destruct s; [left; reflexivity | right; discriminate].
  - destruct (Z.compare_spec e ec) as [->|H|H]; [| left; lia | right; lia].
    destruct (Pos.compare_spec m mc) as [->|H'|H']; [right | left | right]; lia.
Qed.

Lemma lit_0_5 : PyFloat.lit 5 10 = S754_finite false 4503599627370496 (-53).
Proof. vm_compute. reflexivity. Qed.

Lemma lit_0_6 : PyFloat.lit 6 10 = S754_finite false 5404319552844595 (-53).
Proof. vm_compute. reflexivity. Qed.

Lemma lit_0_75 : PyFloat.lit 75 100 = S754_finite false 6755399441055744 (-53).
Proof. vm_compute. reflexivity. Qed.

(** ** The status classifier *)

Section Classifier.

Import services_ocr_llm.

Lemma determine_status_cases (r : InvoiceExtraction) :
  if is_None (amount r) || is_None (date r) || falsy_str (vendor r)
     || PyFloat.ltb (confidence r) (PyFloat.lit 6 10)
  then fst (_determine_status r) = NEEDS_REVIEW
  else _determine_status r =
       if PyFloat.leb (PyFloat.lit 75 100) (confidence r) then (OK, "")
       else (NEEDS_REVIEW,
             "medium confidence (" ++ PyFloat.format_percent0 (confidence r) ++ ")").
Proof.
  unfold _determine_status, confidence.
  destruct (amount r), (date r), (falsy_str (vendor r)),
    (PyFloat.ltb (or_zero (extraction_confidence r)) (PyFloat.lit 6 10));
    reflexivity.
Qed.

Lemma is_None_true {A : Type} (o : option A) : is_None o = true <-> o = None.
Proof. destruct o; simpl; split; congruence. Qed.

(** C1, as stated, fails on a record whose confidence is NaN: every
    field is present and no comparison of the specification holds, yet
    the classifier answers needs_review. *)
Lemma C1_counterexample : ~ classifier_as_specified nan_record.
Proof.
  intros [[H _] _].
  assert (Hs : fst (_determine_status nan_record) = NEEDS_REVIEW)
    by (vm_compute; reflexivity).
  destruct (H Hs) as [H1|[H1|[H1|[H1|[H1 _]]]]]; vm_compute in H1; discriminate.
Qed.

(** C1 (amended): the classifier returns needs_review if and only if
    amount is null, or date is null, or vendor is falsy, or the
    confidence is below 0.6, or between 0.6 and 0.75, or is NaN (a null
    confidence counting as 0.0); otherwise it returns ok with an empty
    reason. *)
Theorem C1_determine_status (r : InvoiceExtraction) :
  (fst (_determine_status r) = NEEDS_REVIEW <->
   review_conditions r \/ PyFloat.is_nan (confidence r) = true) /\
  (~ (review_conditions r \/ PyFloat.is_nan (confidence r) = true) ->
   _determine_status r = (OK, "")).
Proof.
  pose proof (determine_status_cases r) as Hc.
  unfold review_conditions.
  rewrite <- !is_None_true.
  rewrite lit_0_6, lit_0_75 in *.
  set (c := confidence r) in *.
  assert (Hmono : below c 5404319552844595 (-53) -> below c 6755399441055744 (-53)).
  { unfold below. destruct c as [s|s| |[] m e]; try easy.
    intros [H|[H1 H2]]; [left; exact H | right; split; [exact H1 |]].
    apply Pos.lt_trans with (1 := H2). reflexivity. }
  destruct (is_None (amount r));
    [simpl in Hc; split; [tauto | intros H; exfalso; apply H; tauto] |].
  destruct (is_None (date r));
    [simpl in Hc; split; [tauto | intros H; exfalso; apply H; tauto] |].
  destruct (falsy_str (vendor r));
    [simpl in Hc; split; [tauto | intros H; exfalso; apply H; tauto] |].
  destruct (PyFloat.ltb c _) eqn:E6;
    [simpl in Hc; split; [tauto | intros H; exfalso; apply H; tauto] |].
  simpl in Hc.
  assert (N6 : ~ below c 5404319552844595 (-53))
    by (intros Hb; apply ltb_below in Hb; congruence).
  destruct (PyFloat.leb (S754_finite false 6755399441055744 (-53)) c) eqn:E75.
  - apply leb_not_below in E75 as [Hnan Hnb]. rewrite Hc. simpl.
    split; [split; [discriminate |] | reflexivity].
    intros [[H|[H|[H|[H|[_ H]]]]]|H]; try discriminate.
    + apply ltb_below in H. tauto.
    + congruence.
  - rewrite Hc. simpl.
    assert (Hyes : (PyFloat.leb (S754_finite false 5404319552844595 (-53)) c = true /\
                    PyFloat.ltb c (S754_finite false 6755399441055744 (-53)) = true)
                   \/ PyFloat.is_nan c = true).
    { destruct (PyFloat.is_nan c) eqn:En; [tauto | left].
      assert (Hb : below c 6755399441055744 (-53)).
      { destruct (classic_below c 6755399441055744 (-53)) as [Hb|Hb]; [exact Hb |].
        exfalso.
        assert (PyFloat.leb (S754_finite false 6755399441055744 (-53)) c = true)
          by (apply leb_not_below; tauto).
        congruence. }
      split; [apply leb_not_below; tauto | apply ltb_below; exact Hb]. }
    split; [split; [intros _; tauto | reflexivity] | intros H; exfalso; apply H; tauto].
Qed.

End Classifier.

(** ** The question builder *)

Section Questions.

Import services_ocr_llm.

Lemma build_review_questions_expected (r : InvoiceExtraction) :
  exists reason, build_review_questions r = Ok (expected_questions r, reason).
Proof.
  unfold build_review_questions, expected_questions, last_resort, field_questions,
    confidence.
  destruct (amount r) as [x|], (date r), (vendor_blank (vendor r)),
    (is_paid r), (category r);
    cbn [is_None when append fst snd app length Nat.eqb andb];
    rewrite ?andb_false_r; cbn [bind];
    try (eexists; reflexivity).
  destruct (PyFloat.ltb _ _); cbn [andb format_2f bind when app fst snd append];
    eexists; reflexivity.
Qed.

Lemma field_questions_amount (r : InvoiceExtraction) :
  amount r = None -> exists rest, field_questions r = amount_question :: rest.
Proof. intros H. unfold field_questions. rewrite H. simpl. eauto. Qed.


(** C10: the builder is total. It returns a result on every extraction;
    with a null amount the amount question heads the list, so that the
    last-resort branch, the only place where the amount is formatted, is
    taken only with an amount at hand. *)
Theorem C10_build_review_questions_total (r : InvoiceExtraction) :
  (exists questions reason, build_review_questions r = Ok (questions, reason)) /\
  (forall e, build_review_questions r <> Raise e) /\
  (last_resort r <> [] -> exists x, amount r = Some x /\
     last_resort r = [confirm_question (Some x) (PyFloat.format_f 2 x)]) /\
  (amount r = None -> last_resort r = [] /\
     exists rest reason,
       build_review_questions r = Ok (amount_question :: rest, reason)).
Proof.
  destruct (build_review_questions_expected r) as [reason Hb].
  split; [eauto |]. split; [intros e; rewrite Hb; discriminate |]. split.
  - unfold last_resort. destruct (field_questions r); [| congruence].
    destruct (amount r) as [x|]; [| congruence].
    destruct (PyFloat.ltb _ _); simpl; [eauto | congruence].
  - intros Ha. destruct (field_questions_amount r Ha) as [rest Hf].
    assert (Hl : last_resort r = []) by (unfold last_resort; rewrite Hf; reflexivity).
    split; [exact Hl |]. rewrite Hb. unfold expected_questions. rewrite Hf, Hl.
    simpl. eauto.
Qed.

End Questions.

(** ** Review questions of the records the pipeline produces *)

Section Pipeline.

Import services_ocr_llm.

Variable rt : runtime.

Variable normalized_date : string -> string.

















End Pipeline.



(** ** VAT reconciliation of the answers *)

Section Vat.

Import invoices.

Variable rt : runtime.

Lemma normalize_vat_derived (answers : gmap string pyval) (vat : bool) (entered : float) :
  _coerce_bool (get answers "vat_inclusive") = Some vat ->
  py_float rt (get answers "amount") = Ok entered ->
  tax_not_provided answers ->
  _normalize_vat rt answers =
  Ok (<["vat_inclusive" := PBool vat]>
        (<["tax_amount" := PFloat (PyFloat.round (derived_tax vat entered) 2)]>
           (<["amount" := PFloat (PyFloat.round entered 2)]> answers))).
Proof.
  intros Hv Ha Ht. unfold _normalize_vat. rewrite Hv.
  assert (Hf : float_or_400 rt (get answers "amount") "amount must be a number"
               = Ok entered) by (unfold float_or_400; rewrite Ha; reflexivity).
  assert (Htax : (negb (py_eq (get answers "tax_amount") PNone)
                  && negb (py_eq (get answers "tax_amount") (PStr ""))) = false)
    by (destruct Ht as [-> | ->]; reflexivity).
  rewrite Htax.
  destruct (get answers "amount") eqn:E; [simpl in Ha; discriminate | | | |];
    rewrite Hf; cbn [bind]; destruct vat; reflexivity.
Qed.

Lemma scaled_rne_nearest (m e : Z) :
  (0 <= m)%Z -> nearest_hundredths m e (PyFloat.scaled_rne 2 m e).
Proof.
  intros Hm. unfold nearest_hundredths, PyFloat.scaled_rne.
  change (10 ^ Z.of_nat 2)%Z with 100%Z. cbv zeta.
  destruct (Z.leb_spec 0 e) as [He | He].
  - rewrite (Z.max_l e 0), (Z.max_r (- e) 0) by lia. change (2 ^ 0)%Z with 1%Z.
    split; [lia | lia].
  - rewrite (Z.max_r e 0), (Z.max_l (- e) 0) by lia. change (2 ^ 0)%Z with 1%Z.
    assert (Hd : (0 < 2 ^ (- e))%Z) by (apply Z.pow_pos_nonneg; lia).
    set (den := (2 ^ (- e))%Z) in *.
    pose proof (Z.div_mod (m * 100) den ltac:(lia)) as Hdm.
    pose proof (Z.mod_pos_bound (m * 100) den Hd) as Hr.
    set (q := (m * 100 / den)%Z) in *. set (r := ((m * 100) mod den)%Z) in *.
    rewrite Z.mul_1_r.
    destruct (Z.compare_spec (2 * r) den) as [Heq | Hlt | Hgt].
    + destruct (Z.even q) eqn:Hq.
      * split; [nia | intros _; exact Hq].
      * split; [nia |]. intros _. rewrite Z.add_1_r, Z.even_succ, <- Z.negb_even, Hq.
        reflexivity.
    + split; [nia | nia].
    + split; [nia | nia].
Qed.

(** [round(x, 2)] rounds to 2 decimals. *)
Lemma round_cents (x : float) : rounded_to_cents x (PyFloat.round x 2).
Proof.
  destruct x as [s | s | | s m e]; cbn [rounded_to_cents PyFloat.round]; try reflexivity.
  exists (PyFloat.scaled_rne 2 (Zpos m) e). split.
  - apply scaled_rne_nearest. lia.
  - reflexivity.
Qed.

Lemma nearest_hundredths_unique (m e n n' : Z) :
  nearest_hundredths m e n -> nearest_hundredths m e n' -> n = n'.
Proof.
  unfold nearest_hundredths. cbv zeta.
  assert (Hd : (0 < 2 ^ Z.max (- e) 0)%Z) by (apply Z.pow_pos_nonneg; lia).
  set (den := (2 ^ Z.max (- e) 0)%Z) in *. set (num := (m * 100 * 2 ^ Z.max e 0)%Z).
  intros [H1 E1] [H2 E2].
  assert (Hclose : (Z.abs (n - n') <= 1)%Z) by nia.
  destruct (Z.eq_dec n n') as [-> | Hne]; [reflexivity | exfalso].
  assert (Hn : (n' = n + 1 \/ n = n' + 1)%Z) by lia.
  assert (T1 : (2 * Z.abs (num - n * den) = den)%Z) by nia.
  assert (T2 : (2 * Z.abs (num - n' * den) = den)%Z) by nia.
  specialize (E1 T1). specialize (E2 T2).
  destruct Hn as [-> | ->]; rewrite Z.add_1_r, Z.even_succ, <- Z.negb_even in *;
    destruct (Z.even _); discriminate.
Qed.

(** The rounding to 2 decimals determines its result. *)
Lemma rounded_to_cents_unique (x y y' : float) :
  rounded_to_cents x y -> rounded_to_cents x y' -> y = y'.
Proof.
  destruct x as [s | s | | s m e]; cbn [rounded_to_cents]; try congruence.
  intros (n & Hn & ->) (n' & Hn' & ->).
  rewrite (nearest_hundredths_unique _ _ _ _ Hn Hn'). reflexivity.
Qed.

Lemma round_105 : PyFloat.round (PyFloat.of_Z 105) 2 = PyFloat.of_Z 105.
Proof. vm_compute. reflexivity. Qed.

Lemma round_100 : PyFloat.round (PyFloat.of_Z 100) 2 = PyFloat.of_Z 100.
Proof. vm_compute. reflexivity. Qed.

Lemma inclusive_tax_105 :
  PyFloat.round (derived_tax true (PyFloat.of_Z 105)) 2 = PyFloat.of_Z 5.
Proof. vm_compute. reflexivity. Qed.

Lemma exclusive_tax_100 :
  PyFloat.round (derived_tax false (PyFloat.of_Z 100)) 2 = PyFloat.of_Z 5.
Proof. vm_compute. reflexivity. Qed.

Lemma round_19999 : PyFloat.round (PyFloat.lit 19999 1000) 2 = PyFloat.of_Z 20.
Proof. vm_compute. reflexivity. Qed.

Lemma inclusive_tax_19999 :
  PyFloat.round (derived_tax true (PyFloat.lit 19999 1000)) 2 = PyFloat.lit 95 100.
Proof. vm_compute. reflexivity. Qed.

Lemma round_12345 : PyFloat.round (PyFloat.lit 12345 1000) 2 = PyFloat.lit 1235 100.
Proof. vm_compute. reflexivity. Qed.

Lemma exclusive_tax_12345 :
  PyFloat.round (derived_tax false (PyFloat.lit 12345 1000)) 2 = PyFloat.lit 62 100.
Proof. vm_compute. reflexivity. Qed.

(** C3: in the VAT-inclusive branch (vat_inclusive coerces to true, the
    amount coerces to a number, no tax amount provided) the stored
    amount is the entered amount rounded to 2 decimals and the stored
    tax amount is gross - gross / (1 + 0.05) rounded to 2 decimals, the
    other answers passing through. The rounding is to the nearest
    hundredth of the exact value of the double, ties to the even one.
    An amount of 105 yields a tax amount of 5.00 and stays 105.00; an
    amount of 19.999 is stored as 20.0 with a tax amount of 0.95. *)
Theorem C3_vat_inclusive (answers : gmap string pyval) (gross : float) :
  _coerce_bool (get answers "vat_inclusive") = Some true ->
  py_float rt (get answers "amount") = Ok gross ->
  tax_not_provided answers ->
  exists out amount tax,
    _normalize_vat rt answers = Ok out /\
    out !! "amount" = Some (PFloat amount) /\
    rounded_to_cents gross amount /\
    out !! "tax_amount" = Some (PFloat tax) /\
    rounded_to_cents
      (PyFloat.sub gross
         (PyFloat.div gross (PyFloat.add (PyFloat.of_Z 1) DEFAULT_VAT_RATE))) tax /\
    out !! "vat_inclusive" = Some (PBool true) /\
    (forall k, k <> "amount" -> k <> "tax_amount" -> k <> "vat_inclusive" ->
               out !! k = answers !! k) /\
    (gross = PyFloat.of_Z 105 ->
     amount = PyFloat.of_Z 105 /\ tax = PyFloat.of_Z 5) /\
    (gross = PyFloat.lit 19999 1000 ->
     amount = PyFloat.of_Z 20 /\ tax = PyFloat.lit 95 100).
Proof.
  intros Hv Ha Ht.
  exists (<["vat_inclusive" := PBool true]>
            (<["tax_amount" := PFloat (PyFloat.round (derived_tax true gross) 2)]>
               (<["amount" := PFloat (PyFloat.round gross 2)]> answers))),
         (PyFloat.round gross 2), (PyFloat.round (derived_tax true gross) 2).
  split; [apply (normalize_vat_derived _ true gross Hv Ha Ht) |].
  split; [rewrite lookup_insert_ne, lookup_insert_ne, lookup_insert_eq by done;
          reflexivity |].
  split; [apply round_cents |].
  split; [rewrite lookup_insert_ne, lookup_insert_eq by done; reflexivity |].
  split; [apply (round_cents (derived_tax true gross)) |].
  split; [apply lookup_insert_eq |].
  split; [intros k H1 H2 H3; rewrite !lookup_insert_ne by done; reflexivity |].
  split; intros ->.
  - rewrite round_105, inclusive_tax_105. split; reflexivity.
  - rewrite round_19999, inclusive_tax_19999. split; reflexivity.
Qed.

(** C4: in the VAT-exclusive branch (vat_inclusive coerces to false, the
    amount coerces to a number, no tax amount provided) the stored tax
    amount is net * 0.05 rounded to 2 decimals and the stored amount is
    the entered net amount rounded to 2 decimals, not the amount plus
    tax, the other answers passing through. The rounding is to the
    nearest hundredth of the exact value of the double, ties to the
    even one. An amount of 100 yields a tax amount of 5.00 and a stored
    amount of 100.00; an amount of 12.345 is stored as 12.35 with a tax
    amount of 0.62. *)
Theorem C4_vat_exclusive (answers : gmap string pyval) (net : float) :
  _coerce_bool (get answers "vat_inclusive") = Some false ->
  py_float rt (get answers "amount") = Ok net ->
  tax_not_provided answers ->
  exists out amount tax,
    _normalize_vat rt answers = Ok out /\
    out !! "amount" = Some (PFloat amount) /\
    rounded_to_cents net amount /\
    out !! "tax_amount" = Some (PFloat tax) /\
    rounded_to_cents (PyFloat.mul net DEFAULT_VAT_RATE) tax /\
    out !! "vat_inclusive" = Some (PBool false) /\
    (forall k, k <> "amount" -> k <> "tax_amount" -> k <> "vat_inclusive" ->
               out !! k = answers !! k) /\
    (net = PyFloat.of_Z 100 ->
     amount = PyFloat.of_Z 100 /\ tax = PyFloat.of_Z 5) /\
    (net = PyFloat.lit 12345 1000 ->
     amount = PyFloat.lit 1235 100 /\ tax = PyFloat.lit 62 100).
Proof.
  intros Hv Ha Ht.
  exists (<["vat_inclusive" := PBool false]>
            (<["tax_amount" := PFloat (PyFloat.round (derived_tax false net) 2)]>
               (<["amount" := PFloat (PyFloat.round net 2)]> answers))),
         (PyFloat.round net 2), (PyFloat.round (derived_tax false net) 2).
  split; [apply (normalize_vat_derived _ false net Hv Ha Ht) |].
  split; [rewrite lookup_insert_ne, lookup_insert_ne, lookup_insert_eq by done;
          reflexivity |].
  split; [apply round_cents |].
  split; [rewrite lookup_insert_ne, lookup_insert_eq by done; reflexivity |].
  split; [apply (round_cents (derived_tax false net)) |].
  split; [apply lookup_insert_eq |].
  split; [intros k H1 H2 H3; rewrite !lookup_insert_ne by done; reflexivity |].
  split; intros ->.
  - rewrite round_100, exclusive_tax_100. split; reflexivity.
  - rewrite round_12345, exclusive_tax_12345. split; reflexivity.
Qed.

End Vat.

Lemma C3_vat_inclusive_witness :
  (exists out, invoices._normalize_vat sample_runtime inclusive_answers = Ok out /\
     out !! "amount" = Some (PFloat (PyFloat.of_Z 105)) /\
     out !! "tax_amount" = Some (PFloat (PyFloat.of_Z 5))) /\
  (exists out, invoices._normalize_vat sample_runtime long_inclusive_answers = Ok out /\
     out !! "amount" = Some (PFloat (PyFloat.of_Z 20)) /\
     out !! "tax_amount" = Some (PFloat (PyFloat.lit 95 100))).
Proof.
  split.
  - destruct (C3_vat_inclusive sample_runtime inclusive_answers (PyFloat.of_Z 105))
      as (out & amount & tax & Hout & Ha & _ & Ht & _ & _ & _ & H105 & _).
    + vm_compute. reflexivity.
    + vm_compute. reflexivity.
    + left. vm_compute. reflexivity.
    + destruct (H105 eq_refl) as [Ea Et]. exists out.
      split; [exact Hout |]. split; [rewrite <- Ea; exact Ha | rewrite <- Et; exact Ht].
  - destruct (C3_vat_inclusive sample_runtime long_inclusive_answers
                (PyFloat.lit 19999 1000))
      as (out & amount & tax & Hout & Ha & _ & Ht & _ & _ & _ & _ & Hlong).
    + vm_compute. reflexivity.
    + vm_compute. reflexivity.
    + left. vm_compute. reflexivity.
    + destruct (Hlong eq_refl) as [Ea Et]. exists out.
      split; [exact Hout |]. split; [rewrite <- Ea; exact Ha | rewrite <- Et; exact Ht].
Defined.

Lemma C4_vat_exclusive_witness :
  (exists out, invoices._normalize_vat sample_runtime exclusive_answers = Ok out /\
     out !! "amount" = Some (PFloat (PyFloat.of_Z 100)) /\
     out !! "tax_amount" = Some (PFloat (PyFloat.of_Z 5))) /\
  (exists out, invoices._normalize_vat sample_runtime long_exclusive_answers = Ok out /\
     out !! "amount" = Some (PFloat (PyFloat.lit 1235 100)) /\
     out !! "tax_amount" = Some (PFloat (PyFloat.lit 62 100))).
Proof.
  split.
  - destruct (C4_vat_exclusive sample_runtime exclusive_answers (PyFloat.of_Z 100))
      as (out & amount & tax & Hout & Ha & _ & Ht & _ & _ & _ & H100 & _).
    + vm_compute. reflexivity.
    + vm_compute. reflexivity.
    + left. vm_compute. reflexivity.
    + destruct (H100 eq_refl) as [Ea Et]. exists out.
      split; [exact Hout |]. split; [rewrite <- Ea; exact Ha | rewrite <- Et; exact Ht].
  - destruct (C4_vat_exclusive sample_runtime long_exclusive_answers
                (PyFloat.lit 12345 1000))
      as (out & amount & tax & Hout & Ha & _ & Ht & _ & _ & _ & _ & Hlong).
    + vm_compute. reflexivity.
    + vm_compute. reflexivity.
    + left. vm_compute. reflexivity.
    + destruct (Hlong eq_refl) as [Ea Et]. exists out.
      split; [exact Hout |]. split; [rewrite <- Ea; exact Ha | rewrite <- Et; exact Ht].
Defined.

(** ** Fetching the review questions of a stored invoice *)

Section StoredQuestions.

Import invoices.

Lemma getattr_review_reason (invoice : Invoice) (v : pyval) (c : rq_column) (k : string) :
  k <> "review_reason" ->
  getattr {| attrs := <["review_reason" := v]> (attrs invoice); review_questions := c |} k
  = getattr invoice k.
Proof. intros H. unfold getattr. simpl. rewrite lookup_insert_ne by done. reflexivity. Qed.

Lemma extraction_of_review_reason (invoice : Invoice) (v : pyval) (c : rq_column) :
  extraction_of {| attrs := <["review_reason" := v]> (attrs invoice);
                   review_questions := c |}
  = extraction_of invoice.
Proof.
  unfold extraction_of. rewrite !getattr_review_reason by done. reflexivity.
Qed.

Lemma stored_questions_Some (c : rq_column) (qs : list services_ocr_llm.Question) :
  stored_questions c = Some qs <-> c = RqList qs /\ qs <> [].
Proof.
  destruct c as [[|q l]|v]; simpl; split; intros H; try congruence;
    try (destruct H; congruence).
  split; congruence.
Qed.

(** C8, as stated, fails on a needs_review record with every field
    present and a confidence of 0.7: the first call generates an empty
    list and persists nothing, so the second call has no persisted
    questions to return and generates the list again. *)
Lemma C8_counterexample : ~ fetch_as_specified medium_invoice.
Proof.
  intros H. destruct H as [_ (questions & reason & _ & Hs)].
  - vm_compute. reflexivity.
  - vm_compute in Hs. discriminate.
Qed.

(** C8 (amended): fetching the questions is idempotent. A second call in
    succession returns what the first returned and leaves the record as
    the first left it; questions that the first call returns non-empty
    are persisted in the record, from where the second call reads them
    (an empty list is not persisted and is generated again); and on a
    needs_review record whose columns hold values of their declared types
    the call returns a question list. *)
Theorem C8_get_or_build_idempotent (invoice : Invoice) :
  let first := _get_or_build_review_questions invoice in
  _get_or_build_review_questions (fst first) = first /\
  (forall questions reason,
     snd first = Ok (questions, reason) -> questions <> [] ->
     stored_questions (review_questions (fst first)) = Some questions) /\
  (needs_review invoice -> extraction_of invoice <> None ->
   exists questions reason, snd first = Ok (questions, reason)).
Proof.
  unfold _get_or_build_review_questions, needs_review.
  destruct (stored_questions (review_questions invoice)) as [stored|] eqn:Hs.
  { simpl. rewrite Hs. split; [reflexivity |]. split; [| eauto].
    intros questions reason [= <- <-] _. reflexivity. }
  destruct (py_eq (getattr invoice "status") (PStr "needs_review")) eqn:Hst; simpl.
  2:{ rewrite Hs, Hst. simpl. split; [reflexivity |]. split; [| discriminate].
      intros questions reason [= <- <-] H. congruence. }
  destruct (extraction_of invoice) as [extraction|] eqn:He; simpl.
  2:{ rewrite Hs, Hst, He. simpl. split; [reflexivity |]. split; [| congruence].
      intros questions reason [=]. }
  destruct (build_review_questions_expected extraction) as [reason Hb].
  rewrite Hb. unfold _to_jsonable_questions.
  destruct (expected_questions extraction) as [|q qs].
  - cbn [fst snd stored_questions review_questions]. split; [| split; [| eauto]].
    + rewrite getattr_review_reason, Hst by done. cbn [negb].
      rewrite extraction_of_review_reason, He, Hb. unfold _to_jsonable_questions.
      cbn [attrs]. rewrite insert_insert_eq. reflexivity.
    + intros questions' reason' [= <- <-] Hne. congruence.
  - cbn [fst snd stored_questions review_questions]. split; [| split; [| eauto]].
    + unfold getattr. cbn [attrs]. rewrite lookup_insert_eq. reflexivity.
    + intros questions' reason' [= <- <-] Hne. reflexivity.
Qed.

End StoredQuestions.

(** ** Resolving a review *)

Section Resolve.

Import invoices.

Variable rt : runtime.

Lemma valid_fields_code (existing_questions : list services_ocr_llm.Question) :
  match existing_questions with
  | [] => ALLOWED_ANSWER_FIELDS
  | _ => _extract_field_names existing_questions ∪ ALLOWED_ANSWER_FIELDS
  end = valid_fields existing_questions.
Proof.
  unfold valid_fields. destruct existing_questions; [| reflexivity].
  unfold _extract_field_names. simpl. by rewrite (left_id_L ∅ (∪)).
Qed.

Lemma apply_answers_getattr (invoice : Invoice) (answers : gmap string pyval) (k : string) :
  k <> "review_questions" ->
  getattr (apply_answers invoice answers) k
  = default (getattr invoice k) (answered answers k).
Proof.
  revert k. unfold apply_answers.
  apply (map_fold_weak_ind
           (fun r (m : gmap string pyval) =>
              forall k, k <> "review_questions" ->
                        getattr r k = default (getattr invoice k) (answered m k))).
  - intros k _. unfold answered. rewrite lookup_empty.
    destruct (String.eqb k "vat_inclusive"), (hasattr k); reflexivity.
  - intros i x m r Hi IH k Hk. specialize (IH k Hk). unfold answered in *.
    destruct (String.eqb i "vat_inclusive") eqn:Hvat.
    + apply String.eqb_eq in Hvat as ->.
      destruct (String.eqb k "vat_inclusive") eqn:Hk'; [exact IH |].
      apply String.eqb_neq in Hk'. rewrite lookup_insert_ne by done. exact IH.
    + destruct (hasattr i) eqn:Hh.
      * unfold setattr. destruct (String.eqb_spec i "review_questions") as [-> | Hrq].
        { rewrite lookup_insert_ne by done. exact IH. }
        unfold getattr in *. cbn [attrs].
        destruct (decide (i = k)) as [-> | Hne].
        { rewrite !lookup_insert_eq. rewrite Hvat, Hh. reflexivity. }
        rewrite !lookup_insert_ne by done. exact IH.
      * destruct (decide (i = k)) as [-> | Hne].
        { rewrite Hh in *. destruct (String.eqb k "vat_inclusive"); exact IH. }
        rewrite lookup_insert_ne by done. exact IH.
Qed.

Lemma apply_answers_review_questions (invoice : Invoice) (answers : gmap string pyval) :
  answers !! "review_questions" = None ->
  review_questions (apply_answers invoice answers) = review_questions invoice.
Proof.
  unfold apply_answers.
  apply (map_fold_weak_ind
           (fun r (m : gmap string pyval) =>
              m !! "review_questions" = None ->
              review_questions r = review_questions invoice)).
  - reflexivity.
  - intros i x m r Hi IH Hl.
    destruct (decide (i = "review_questions")) as [-> | Hne];
      [rewrite lookup_insert_eq in Hl; discriminate |].
    rewrite lookup_insert_ne in Hl by done. specialize (IH Hl).
    destruct (String.eqb i "vat_inclusive"); [exact IH |].
    destruct (hasattr i); [| exact IH]. unfold setattr.
    apply String.eqb_neq in Hne. rewrite Hne. exact IH.
Qed.

(** The shape of the answers that VAT normalisation returns. *)
Lemma normalize_vat_shape (answers answers' : gmap string pyval) :
  _normalize_vat rt answers = Ok answers' ->
  answers' = answers \/
  (exists b, answers' = <["vat_inclusive" := PBool b]> answers) \/
  (exists b t x, answers' =
     <["vat_inclusive" := PBool b]>
       (<["tax_amount" := PFloat t]> (<["amount" := PFloat x]> answers))).
Proof.
  unfold _normalize_vat.
  destruct (_coerce_bool (get answers "vat_inclusive")) as [vat|].
  2:{ destruct (bool_decide _); [discriminate |]. intros [= <-]. tauto. }
  assert (Hgen : forall entered,
    (entered_amount <- float_or_400 rt entered "amount must be a number" ;;
     tax_amount <-
       (let tax_amount := get answers "tax_amount" in
        if negb (py_eq tax_amount PNone) && negb (py_eq tax_amount (PStr ""))
        then x <- float_or_400 rt tax_amount "tax_amount must be a number" ;;
             Ok (Some x)
        else Ok None) ;;
     if vat then
       let gross := entered_amount in
       let tax_amount :=
         match tax_amount with
         | None =>
             PyFloat.sub gross
               (PyFloat.div gross (PyFloat.add (PyFloat.of_Z 1) DEFAULT_VAT_RATE))
         | Some t => t
         end in
       Ok (<["vat_inclusive" := PBool true]>
             (<["tax_amount" := PFloat (PyFloat.round tax_amount 2)]>
                (<["amount" := PFloat (PyFloat.round gross 2)]> answers)))
     else
       let tax_amount :=
         match tax_amount with
         | None => PyFloat.mul entered_amount DEFAULT_VAT_RATE
         | Some t => t
         end in
       Ok (<["vat_inclusive" := PBool false]>
             (<["tax_amount" := PFloat (PyFloat.round tax_amount 2)]>
                (<["amount" := PFloat (PyFloat.round entered_amount 2)]> answers))))
    = Ok answers' ->
    exists b t x, answers' =
      <["vat_inclusive" := PBool b]>
        (<["tax_amount" := PFloat t]> (<["amount" := PFloat x]> answers))).
  { intros entered.
    destruct (float_or_400 rt entered _) as [a|]; [| discriminate]. cbn [bind].
    destruct (_ && _).
    - destruct (float_or_400 rt _ _) as [t|]; [| discriminate]. cbn [bind].
      destruct vat; intros [= <-]; eauto.
    - cbn [bind]. destruct vat; intros [= <-]; eauto. }
  destruct (get answers "amount") eqn:E; [intros [= <-]; eauto | | | |];
    intros H; right; right; eapply Hgen; exact H.
Qed.

Lemma normalize_vat_invalid (answers answers' : gmap string pyval)
    (questions : list services_ocr_llm.Question) :
  _normalize_vat rt answers = Ok answers' ->
  dom answers' ∖ valid_fields questions = dom answers ∖ valid_fields questions.
Proof.
  intros Hn. apply normalize_vat_shape in Hn.
  assert (Hv : "vat_inclusive" ∈ valid_fields questions)
    by (apply elem_of_union_r;
        refine (bool_decide_eq_true_1 ("vat_inclusive" ∈ ALLOWED_ANSWER_FIELDS) _);
        vm_compute; reflexivity).
  assert (Ht : "tax_amount" ∈ valid_fields questions)
    by (apply elem_of_union_r;
        refine (bool_decide_eq_true_1 ("tax_amount" ∈ ALLOWED_ANSWER_FIELDS) _);
        vm_compute; reflexivity).
  assert (Ha : "amount" ∈ valid_fields questions)
    by (apply elem_of_union_r;
        refine (bool_decide_eq_true_1 ("amount" ∈ ALLOWED_ANSWER_FIELDS) _);
        vm_compute; reflexivity).
  generalize dependent (valid_fields questions). intros valid Hv Ht Ha.
  destruct Hn as [-> | [[b ->] | (b & t & x & ->)]];
    rewrite ?dom_insert_L; apply set_eq; intros k;
    rewrite !elem_of_difference, ?elem_of_union, ?elem_of_singleton;
    split; intros [Hk Hnk]; (split; [| exact Hnk]); try tauto;
    intuition (subst; tauto).
Qed.

End Resolve.

Section Rejection.

Import invoices.

Variable rt : runtime.

Lemma get_or_build_frame (invoice : Invoice) (k : string) :
  k <> "review_reason" ->
  getattr (fst (_get_or_build_review_questions invoice)) k = getattr invoice k.
Proof.
  intros Hk. unfold _get_or_build_review_questions.
  destruct (stored_questions _); [reflexivity |].
  destruct (negb _); [reflexivity |].
  destruct (extraction_of invoice) as [extraction|]; [| reflexivity].
  destruct (services_ocr_llm.build_review_questions extraction) as [[qs reason]|e];
    [| reflexivity].
  cbn [fst]. apply getattr_review_reason. exact Hk.
Qed.

Lemma get_or_build_persisted (invoice : Invoice) :
  stored_questions (review_questions invoice) <> None ->
  fst (_get_or_build_review_questions invoice) = invoice.
Proof.
  intros H. unfold _get_or_build_review_questions.
  destruct (stored_questions _); [reflexivity | congruence].
Qed.

Lemma resolve_review_raise (db db' : gmap Z Invoice) (invoice_id : Z)
    (invoice : Invoice) (answers : gmap string pyval) (e : exn) :
  db !! invoice_id = Some invoice -> needs_review invoice ->
  resolve_review rt db invoice_id answers = (db', Raise e) ->
  db' = <[invoice_id := fst (_get_or_build_review_questions invoice)]> db.
Proof.
  intros Hdb Hst. unfold resolve_review. rewrite Hdb. unfold needs_review in Hst.
  rewrite Hst. cbn [negb].
  destruct (_get_or_build_review_questions invoice) as [stored [[qs reason]|e']];
    cbn [fst]; [| intros [= <- _]; reflexivity].
  cbv zeta.
  destruct (if bool_decide (answers = ∅) then _ else _) as [inv|e'];
    [discriminate | intros [= <- _]; reflexivity].
Qed.

(** C7 (amended): on a needs_review record, answers that pass VAT
    normalisation and hold a key outside the whitelist and the field
    names of the record's questions are rejected with a validation error
    carrying the invalid keys and the valid set. A rejected call leaves
    in the table the record as the question fetch committed it: every
    attribute is as before but review_reason, the review questions,
    which the fetch persists, and the timestamp updated_at, which the
    database sets at that commit; and a record whose questions were
    already persisted, on which the fetch commits nothing, is left
    untouched. *)
Theorem C7_resolve_review_rejection (db : gmap Z Invoice) (invoice_id : Z)
    (invoice : Invoice) (answers : gmap string pyval) :
  db !! invoice_id = Some invoice -> needs_review invoice ->
  let stored := fst (_get_or_build_review_questions invoice) in
  (forall questions reason answers',
     snd (_get_or_build_review_questions invoice) = Ok (questions, reason) ->
     _normalize_vat rt answers = Ok answers' ->
     ~ dom answers ⊆ valid_fields questions ->
     resolve_review rt db invoice_id answers =
     (<[invoice_id := stored]> db,
      Raise (HTTPException 400
               (InvalidFieldsDetail (dom answers ∖ valid_fields questions)
                                    (valid_fields questions))))) /\
  (forall db' e, resolve_review rt db invoice_id answers = (db', Raise e) ->
                 db' = <[invoice_id := stored]> db) /\
  (forall k, k <> "review_reason" -> k <> "updated_at" ->
             getattr stored k = getattr invoice k) /\
  (stored_questions (review_questions invoice) <> None ->
   <[invoice_id := stored]> db = db).
Proof.
  intros Hdb Hst stored. split; [| split; [| split]].
  - intros questions reason answers' Hq Hn Hinv.
    unfold resolve_review. rewrite Hdb. unfold needs_review in Hst. rewrite Hst.
    cbn [negb]. subst stored.
    destruct (_get_or_build_review_questions invoice) as [stored res].
    cbn [fst snd] in *. subst res. cbv zeta.
    assert (Hne : answers <> ∅).
    { intros ->. apply Hinv. rewrite dom_empty_L. apply empty_subseteq. }
    rewrite (bool_decide_eq_false_2 _ Hne), Hn. cbn [bind].
    rewrite valid_fields_code, (normalize_vat_invalid rt _ _ questions Hn).
    assert (Hd : dom answers ∖ valid_fields questions <> ∅).
    { intros Heq. apply Hinv. intros x Hx.
      destruct (decide (x ∈ valid_fields questions)) as [Hv | Hv]; [exact Hv |].
      exfalso. apply (not_elem_of_empty (C := gset string) x).
      rewrite <- Heq. apply elem_of_difference. split; assumption. }
    rewrite (bool_decide_eq_false_2 _ Hd). reflexivity.
  - intros db' e H. exact (resolve_review_raise _ _ _ _ _ _ Hdb Hst H).
  - intros k Hk _. apply get_or_build_frame. exact Hk.
  - intros H. subst stored. rewrite (get_or_build_persisted _ H).
    apply insert_id. exact Hdb.
Qed.

End Rejection.

(** C7, as stated, fails twice. On a record without stored questions the
    rejected call persists the generated questions and their reason; and
    an answer set with an unknown key and a malformed vat_inclusive is
    rejected by the VAT normalisation, whose message names neither the
    invalid key nor the valid set. *)
Lemma C7_counterexample :
  ~ rejection_as_specified sample_runtime fresh_db 1 unknown_answers /\
  ~ rejection_as_specified sample_runtime fetched_db 1 unknown_and_vat_answers.
Proof.
  split; intros H.
  - specialize (H fresh_invoice
                  [services_ocr_llm.amount_question]
                  (PStr "Needs review: amount missing")).
    apply (f_equal (fun p => invoices.review_questions <$> (fst p !! 1%Z))) in H.
    + vm_compute in H. discriminate.
    + reflexivity.
    + vm_compute. reflexivity.
    + vm_compute. reflexivity.
    + intros Hsub. assert (Hin : "unknown_field" ∈ dom unknown_answers)
        by (apply elem_of_dom; eexists; reflexivity).
      apply Hsub in Hin. vm_compute in Hin. discriminate.
  - specialize (H (fst (invoices._get_or_build_review_questions fresh_invoice))
                  [services_ocr_llm.amount_question]
                  (PStr "Needs review: amount missing")).
    apply (f_equal snd) in H.
    + vm_compute in H. discriminate.
    + reflexivity.
    + vm_compute. reflexivity.
    + vm_compute. reflexivity.
    + intros Hsub. assert (Hin : "unknown_field" ∈ dom unknown_and_vat_answers)
        by (apply elem_of_dom; eexists; reflexivity).
      apply Hsub in Hin. vm_compute in Hin. discriminate.
Qed.

Lemma C7_resolve_review_rejection_witness :
  invoices.resolve_review sample_runtime fresh_db 1 unknown_answers =
  (fetched_db,
   Raise (HTTPException 400
            (InvalidFieldsDetail {[ "unknown_field" ]}
               (valid_fields [services_ocr_llm.amount_question])))).
Proof.
  destruct (C7_resolve_review_rejection sample_runtime fresh_db 1 fresh_invoice
              unknown_answers) as [H _].
  - reflexivity.
  - vm_compute. reflexivity.
  - rewrite (H [services_ocr_llm.amount_question]
               (PStr "Needs review: amount missing") unknown_answers).
    + vm_compute. reflexivity.
    + vm_compute. reflexivity.
    + vm_compute. reflexivity.
    + intros Hsub. assert (Hin : "unknown_field" ∈ dom unknown_answers)
        by (apply elem_of_dom; eexists; reflexivity).
      apply Hsub in Hin. vm_compute in Hin. discriminate.
Defined.

(** ** What a successful resolution writes *)

Section Resolution.

Import invoices.

Variable rt : runtime.

Lemma close_review_getattr (invoice : Invoice) (k : string) :
  k <> "status" -> k <> "review_reason" ->
  getattr (close_review invoice) k = getattr invoice k.
Proof.
  intros H1 H2. unfold close_review, getattr. cbn [attrs].
  rewrite !lookup_insert_ne by done. reflexivity.
Qed.

Lemma normalize_vat_lookup (answers answers' : gmap string pyval) (k : string) :
  _normalize_vat rt answers = Ok answers' ->
  k <> "vat_inclusive" -> k <> "tax_amount" -> k <> "amount" ->
  answers' !! k = answers !! k.
Proof.
  intros H H1 H2 H3.
  destruct (normalize_vat_shape rt _ _ H) as [-> | [[b ->] | (b & t & x & ->)]];
    rewrite ?lookup_insert_ne by done; reflexivity.
Qed.

(** The route closes the review and writes the answered attributes; an
    attribute that no answer names, the confidence among them, is left
    as it was. *)
Lemma resolve_review_writes (db db' : gmap Z Invoice) (invoice_id : Z)
    (invoice invoice' : Invoice) (answers : gmap string pyval) :
  db !! invoice_id = Some invoice ->
  resolve_review rt db invoice_id answers = (db', Ok invoice') ->
  db' !! invoice_id = Some invoice' /\
  getattr invoice' "status" = PStr "ok" /\
  getattr invoice' "review_reason" = PNone /\
  review_questions invoice' = RqOther PNone /\
  (forall k, answers !! k = None ->
             k <> "status" -> k <> "review_reason" -> k <> "review_questions" ->
             k <> "vat_inclusive" -> k <> "tax_amount" -> k <> "amount" ->
             getattr invoice' k = getattr invoice k).
Proof.
  intros Hdb. unfold resolve_review. rewrite Hdb.
  destruct (negb _); [discriminate |].
  pose proof (get_or_build_frame invoice) as Hframe.
  destruct (_get_or_build_review_questions invoice) as [stored [[qs reason]|e]];
    [| discriminate].
  cbn [fst] in Hframe. cbv zeta.
  destruct (bool_decide (answers = ∅)) eqn:He.
  - cbv iota. intros [= <- [= <-]]. split; [apply lookup_insert_eq |].
    split; [unfold close_review, getattr; cbn [attrs];
            rewrite lookup_insert_ne, lookup_insert_eq by done; reflexivity |].
    split; [unfold close_review, getattr; cbn [attrs];
            rewrite lookup_insert_eq; reflexivity |].
    split; [reflexivity |].
    intros k _ H1 H2 _ _ _ _. rewrite close_review_getattr by done.
    apply Hframe. exact H2.
  - destruct (_normalize_vat rt answers) as [answers'|e] eqn:Hn; [| discriminate].
    clear He. cbn [bind]. destruct (bool_decide _); cbv iota; [| discriminate].
    intros [= <- [= <-]]. split; [apply lookup_insert_eq |].
    split; [unfold close_review, getattr; cbn [attrs];
            rewrite lookup_insert_ne, lookup_insert_eq by done; reflexivity |].
    split; [unfold close_review, getattr; cbn [attrs];
            rewrite lookup_insert_eq; reflexivity |].
    split; [reflexivity |].
    intros k Hk H1 H2 H3 H4 H5 H6. rewrite close_review_getattr by done.
    rewrite apply_answers_getattr by done. unfold answered.
    rewrite (normalize_vat_lookup _ _ k Hn), Hk by done.
    destruct (String.eqb k "vat_inclusive"), (hasattr k); apply Hframe; exact H2.
Qed.

(** The service method marks every record it resolves as user-verified. *)
Lemma service_resolve_review_confidence (db db' : gmap Z Invoice) (invoice_id : Z)
    (questions : list services_ocr_llm.Question) (answers : gmap string pyval)
    (invoice' : Invoice) :
  invoice_service.resolve_review rt db invoice_id questions answers
  = (db', Ok (Some invoice')) ->
  getattr invoice' "extraction_confidence" = PFloat (PyFloat.lit 95 100) /\
  getattr invoice' "status" = PStr "ok" /\
  getattr invoice' "review_reason" = PNone /\
  review_questions invoice' = RqOther PNone.
Proof.
  unfold invoice_service.resolve_review.
  destruct (db !! invoice_id); [| discriminate].
  destruct (map_fold _ _ _) as [inv|e]; [| discriminate].
  intros [= <- [= <-]]. unfold invoice_service.mark_resolved, getattr. cbn [attrs].
  rewrite lookup_insert_ne, lookup_insert_ne, !lookup_insert_eq by done.
  rewrite lookup_insert_ne, lookup_insert_eq by done. done.
Qed.

End Resolution.

(** C2: the record [fresh_invoice], in status needs_review with a
    confidence of 0.3, is resolved with the answer amount = 150. The
    endpoint applies the answer, sets the status to ok and clears the
    review questions and the reason, but it leaves extraction_confidence
    at 0.3 where the specification requires 0.95; the resolution method of the
    service layer, which the endpoint does not call, sets 0.95 on the same
    input. *)
Theorem C2_resolve_review_confidence :
  (invoices.resolve_review sample_runtime fresh_db 1 amount_answer
   = (<[1%Z := route_resolved]> fresh_db, Ok route_resolved) /\
   invoices.getattr route_resolved "amount" = PFloat (PyFloat.of_Z 150) /\
   invoices.getattr route_resolved "status" = PStr "ok" /\
   invoices.getattr route_resolved "review_reason" = PNone /\
   invoices.review_questions route_resolved = invoices.RqOther PNone /\
   invoices.getattr route_resolved "extraction_confidence" = PFloat (PyFloat.lit 3 10) /\
   invoices.getattr route_resolved "extraction_confidence"
   <> PFloat (PyFloat.lit 95 100)) /\
  (invoice_service.resolve_review sample_runtime fresh_db 1 [] amount_answer
   = (<[1%Z := service_resolved]> fresh_db, Ok (Some service_resolved)) /\
   invoices.getattr service_resolved "extraction_confidence"
   = PFloat (PyFloat.lit 95 100)).
Proof.
  split; [split; [| split; [| split; [| split; [| split; [| split]]]]] | split];
    try (vm_compute; reflexivity).
  vm_compute. discriminate.
Qed.

(** ** The reverse sync from the spreadsheet *)

Section Sync.

Import storage.

Variable rt : runtime.

Lemma allowed_insert (updates : gmap string pyval) (key : string) (v : pyval) :
  key ∈ sync_allowlist -> allowed updates -> allowed (<[key := v]> updates).
Proof.
  unfold allowed. intros Hk Hu. rewrite dom_insert_L.
  apply union_least; [| exact Hu]. apply singleton_subseteq_l. exact Hk.
Qed.

Lemma allowed_put (updates db_invoice : gmap string pyval) (key : string) (v : pyval) :
  key ∈ sync_allowlist -> allowed updates ->
  allowed (put_if_differs updates key v db_invoice).
Proof.
  intros Hk Hu. unfold put_if_differs.
  destruct (negb _); [apply allowed_insert; assumption | exact Hu].
Qed.

Lemma allowed_tax (updates updates' record db_invoice : gmap string pyval) :
  allowed updates -> tax_update rt updates record db_invoice = Ok updates' ->
  allowed updates'.
Proof.
  intros Hu. unfold tax_update.
  assert (Hin : "tax_amount" ∈ sync_allowlist) by (unfold sync_allowlist; set_solver).
  destruct (negb _).
  - destruct (py_float rt _) as [x|[]]; cbn [bind]; intros [= <-];
      try exact Hu. apply allowed_put; assumption.
  - intros [= <-]. apply allowed_put; assumption.
Qed.

Lemma sheet_updates_allowed (record db_invoice updates : gmap string pyval) :
  sheet_updates rt record db_invoice = Ok updates -> allowed updates.
Proof.
  unfold sheet_updates.
  assert (H0 : allowed (∅ : gmap string pyval))
    by (unfold allowed; rewrite dom_empty_L; apply empty_subseteq).
  destruct (stripped_or_none (get record "vendor")) as [vendor|]; [| discriminate].
  cbn [bind].
  destruct (tax_update rt _ record db_invoice) as [u1|] eqn:Ht; [| discriminate].
  cbn [bind].
  apply allowed_tax in Ht;
    [| apply allowed_put; [unfold sync_allowlist; set_solver | exact H0]].
  destruct (stripped_or_none (get record "category")) as [category|]; [| discriminate].
  cbn [bind].
  destruct (stripped_or_none (get record "payment_method")) as [payment|];
    [| discriminate].
  cbn [bind].
  destruct (stripped_or_none (get record "transaction_type")) as [trans|];
    [| discriminate].
  cbn [bind].
  destruct (stripped (get record "notes")) as [notes|]; [| discriminate].
  cbn [bind]. intros [= <-].
  assert (H1 : allowed (put_if_differs u1 "category" category db_invoice))
    by (apply allowed_put; [unfold sync_allowlist; set_solver | exact Ht]).
  assert (H2 : allowed (put_if_differs (put_if_differs u1 "category" category db_invoice)
                          "payment_method" payment db_invoice))
    by (apply allowed_put; [unfold sync_allowlist; set_solver | exact H1]).
  assert (H3 : allowed (put_if_differs
                          (put_if_differs (put_if_differs u1 "category" category db_invoice)
                             "payment_method" payment db_invoice)
                          "transaction_type" trans db_invoice))
    by (apply allowed_put; [unfold sync_allowlist; set_solver | exact H2]).
  set (u4 := match paid_int (get record "is_paid") with
             | Some n => _ | None => _ end).
  assert (H4 : allowed u4).
  { subst u4. destruct (paid_int _);
      [apply allowed_put; [unfold sync_allowlist; set_solver | exact H3] | exact H3]. }
  destruct (_ && _); [| exact H4].
  apply allowed_insert; [unfold sync_allowlist; set_solver | exact H4].
Qed.

Lemma update_row_frame (updates db_invoice : gmap string pyval) (k : string) :
  allowed updates -> k ∉ sync_allowlist ->
  update_row updates db_invoice !! k = db_invoice !! k.
Proof.
  intros Hu Hk. unfold update_row. apply lookup_union_r.
  apply not_elem_of_dom. intros Hd. apply Hk, Hu, Hd.
Qed.

Lemma sync_record_frame (st : sync_state) (record : gmap string pyval)
    (id : Z) (k : string) :
  k ∉ sync_allowlist ->
  column (table (sync_record rt st record)) id k = column (table st) id k.
Proof.
  intros Hk. unfold sync_record.
  destruct (negb (py_truthy _)); [reflexivity |].
  destruct (negb (bindable _)); [reflexivity |].
  destruct (sqlite_key rt _) as [key|]; [| reflexivity].
  destruct (table st !! key) as [db_invoice|] eqn:Hrow; [| reflexivity].
  destruct (sheet_updates rt record db_invoice) as [updates|] eqn:Hu; [| reflexivity].
  destruct (bool_decide _); [reflexivity |]. cbn [table]. unfold column.
  destruct (decide (key = id)) as [-> | Hne].
  - rewrite lookup_insert_eq, Hrow. cbn. f_equal.
    apply update_row_frame; [apply (sheet_updates_allowed _ _ _ Hu) | exact Hk].
  - rewrite lookup_insert_ne by done. reflexivity.
Qed.

Lemma sync_record_other (st : sync_state) (record : gmap string pyval) (id : Z) :
  addressed rt record <> Some id ->
  table (sync_record rt st record) !! id = table st !! id.
Proof.
  unfold addressed, sync_record. cbv zeta.
  destruct (py_truthy _); cbn [negb andb]; [| reflexivity].
  destruct (bindable _); cbn [negb]; [| reflexivity].
  destruct (sqlite_key rt _) as [key|]; [| reflexivity].
  intros Hne.
  destruct (table st !! key) as [db_invoice|]; [| reflexivity].
  destruct (sheet_updates rt record db_invoice) as [updates|]; [| reflexivity].
  destruct (bool_decide _); [reflexivity |]. cbn [table].
  apply lookup_insert_ne. congruence.
Qed.

(** C9: the reverse sync writes to matched records only, and only the
    fields vendor, tax_amount, category, payment_method,
    transaction_type, is_paid and notes. For every list of mirror rows,
    every table and every row id, each other column of the row, amount,
    date, id and the file paths among them, is after the sync what it
    was before, and no row appears or disappears; and a row of the
    table that no mirror row addresses is after the sync what it was
    before, in every column. *)
Theorem C9_sync_from_sheets_frame (all_records : list (gmap string pyval))
    (db : gmap Z (gmap string pyval)) (id : Z) :
  let db' := table (sync_from_sheets_to_db rt all_records db) in
  (forall k, k ∉ sync_allowlist -> column db' id k = column db id k) /\
  Forall (fun p => (p ∉ sync_allowlist) /\ (column db' id p = column db id p))
         protected_fields /\
  ((forall record, record ∈ all_records -> addressed rt record <> Some id) ->
   db' !! id = db !! id).
Proof.
  assert (Hgen : forall k', k' ∉ sync_allowlist ->
            forall records st,
              column (table (foldl (sync_record rt) st records)) id k'
              = column (table st) id k').
  { intros k' Hk' records. induction records as [|record records IH]; intros st.
    - reflexivity.
    - cbn [foldl]. rewrite IH. apply sync_record_frame. exact Hk'. }
  assert (Hother : forall records st,
            (forall record, record ∈ records -> addressed rt record <> Some id) ->
            table (foldl (sync_record rt) st records) !! id = table st !! id).
  { induction records as [|record records IH]; intros st Hall.
    - reflexivity.
    - cbn [foldl]. rewrite IH.
      + apply sync_record_other, Hall. apply elem_of_cons. left. reflexivity.
      + intros r Hr. apply Hall. apply elem_of_cons. right. exact Hr. }
  cbv zeta. unfold sync_from_sheets_to_db. split; [| split].
  - intros k Hk. apply (Hgen k Hk).
  - unfold protected_fields.
    repeat (apply Forall_cons; split;
            [assert (Hp : forall p, bool_decide (p ∉ sync_allowlist) = true ->
                                    p ∉ sync_allowlist)
               by (intros p; apply bool_decide_eq_true_1);
             split; [apply Hp; vm_compute; reflexivity
                    | apply Hgen, Hp; vm_compute; reflexivity] |]).
    apply Forall_nil. exact I.
  - intros Hall.
    exact (Hother all_records {| table := db; updated_count := 0; error_count := 0 |}
             Hall).
Qed.

End Sync.

Lemma C9_sync_from_sheets_frame_witness :
  column (storage.table
            (storage.sync_from_sheets_to_db sample_runtime [edited_row] two_rows_table))
         7 "amount"
  = Some (Some (PFloat (PyFloat.of_Z 100))) /\
  column (storage.table
            (storage.sync_from_sheets_to_db sample_runtime [edited_row] two_rows_table))
         7 "vendor"
  = Some (Some (PStr "Dubai Electricity")) /\
  storage.table (storage.sync_from_sheets_to_db sample_runtime [edited_row] two_rows_table)
    !! 8%Z
  = Some second_row.
Proof.
  destruct (C9_sync_from_sheets_frame sample_runtime [edited_row] two_rows_table 7)
    as [H7 _].
  destruct (C9_sync_from_sheets_frame sample_runtime [edited_row] two_rows_table 8)
    as (_ & _ & H8).
  split; [| split].
  - rewrite (H7 "amount").
    + vm_compute. reflexivity.
    + refine (bool_decide_eq_true_1 ("amount" ∉ sync_allowlist) _).
      vm_compute. reflexivity.
  - vm_compute. reflexivity.
  - rewrite H8.
    + vm_compute. reflexivity.
    + intros record Hin. apply elem_of_cons in Hin as [-> | Hin].
      * vm_compute. discriminate.
      * apply elem_of_nil in Hin. destruct Hin.
Defined.


(** ** The model on the scenarios of the specification *)

Example determine_status_empty :
  services_ocr_llm._determine_status empty_record
  = (services_ocr_llm.NEEDS_REVIEW,
     "no amount, no date, no vendor, low confidence (0%)").
Proof. vm_compute. reflexivity. Qed.

Example determine_status_medium :
  services_ocr_llm._determine_status medium_record
  = (services_ocr_llm.NEEDS_REVIEW, "medium confidence (70%)").
Proof. vm_compute. reflexivity. Qed.

Example build_review_questions_empty :
  services_ocr_llm.build_review_questions empty_record
  = Ok ([ services_ocr_llm.amount_question; services_ocr_llm.date_question;
          services_ocr_llm.vendor_question None; services_ocr_llm.is_paid_question ],
        "Needs review: amount missing, date missing, vendor missing (+2 more)").
Proof. vm_compute. reflexivity. Qed.

Example round_ties_to_even :
  PyFloat.round (PyFloat.lit 125 1000) 2 = PyFloat.lit 12 100 /\
  PyFloat.round (PyFloat.lit 2675 1000) 2 = PyFloat.lit 267 100 /\
  PyFloat.round (PyFloat.lit (-1) 1000) 2 = S754_zero true.
Proof. vm_compute. repeat split. Qed.

Example format_examples :
  PyFloat.format_f 2 (PyFloat.of_Z 105) = "105.00" /\
  PyFloat.format_f 2 (PyFloat.lit 1005 1000) = "1.00" /\
  PyFloat.format_percent0 (PyFloat.lit 55 100) = "55%" /\
  PyFloat.format_percent0 S754_nan = "nan%".
Proof. vm_compute. repeat split. Qed.

Example coerce_bool_examples :
  invoices._coerce_bool (PStr " YES ") = Some true /\
  invoices._coerce_bool (PStr "n") = Some false /\
  invoices._coerce_bool (PInt 0) = Some false /\
  invoices._coerce_bool (PStr "maybe") = None.
Proof. vm_compute. repeat split. Qed.

Example get_or_build_fresh :
  invoices._get_or_build_review_questions fresh_invoice
  = ({| invoices.attrs :=
          <["review_reason" := PStr "Needs review: amount missing"]>
            (invoices.attrs fresh_invoice);
        invoices.review_questions :=
          invoices.RqList [services_ocr_llm.amount_question] |},
     Ok ([services_ocr_llm.amount_question], PStr "Needs review: amount missing")).
Proof. vm_compute. reflexivity. Qed.

(** * Further properties of the code

    The records of the table hold the attributes that the code assigns.
    The column [updated_at], which the database sets by itself on every
    update of a row, is not tracked, and the statements below on the
    attributes that a call leaves alone do not cover it. What the
    database driver does at the commit with a value that does not fit
    its column is not modelled either: a call that succeeds here is a
    call that passes the checks of the code and reaches the commit. *)

#[local] Set Warnings "-clear-no-such-hyp".

(** ** The status classifier and the question builder *)

Section BuilderProperties.

Import services_ocr_llm.

Lemma append_not_empty (a b : string) : a <> "" -> (a ++ b)%string <> "".
Proof. destruct a; [congruence | discriminate]. Qed.

(** X1: the reason of the classifier is empty exactly when the status is
    ok: every needs_review verdict carries a non-empty reason. *)
Theorem X1_determine_status_reason (r : InvoiceExtraction) :
  snd (_determine_status r) = "" <-> fst (_determine_status r) = OK.
Proof.
  unfold _determine_status.
  destruct (is_None (amount r)), (is_None (date r)), (falsy_str (vendor r)),
    (PyFloat.ltb (or_zero (extraction_confidence r)) (PyFloat.lit 6 10));
    cbn [app join fst snd String.append];
    try (split; intros H; discriminate H).
  destruct (PyFloat.leb _ _); cbn [fst snd String.append];
    split; intros H; try reflexivity; discriminate H.
Qed.

Lemma extract_field_names_elem (questions : list Question) (k : string) :
  k ∈ invoices._extract_field_names questions <->
  k <> "" /\ exists q, q ∈ questions /\ field_name q = k.
Proof.
  unfold invoices._extract_field_names.
  assert (Hgen : forall (acc : gset string),
    k ∈ foldl (fun fields q =>
                 if String.eqb (field_name q) "" then fields
                 else fields ∪ {[ field_name q ]}) acc questions <->
    k ∈ acc \/ (k <> "" /\ exists q, q ∈ questions /\ field_name q = k)).
  { induction questions as [|q qs IH]; intros acc.
    - cbn [foldl]. split; [tauto |]. intros [H | (_ & q & Hq & _)]; [exact H |].
      apply elem_of_nil in Hq. contradiction.
    - cbn [foldl]. rewrite IH. destruct (String.eqb_spec (field_name q) "") as [He | He].
      + split.
        * intros [H | (Hk & q' & Hq' & Hf)]; [tauto |].
          right. split; [exact Hk |]. exists q'. split; [right; exact Hq' | exact Hf].
        * intros [H | (Hk & q' & Hq' & Hf)]; [tauto |].
          apply elem_of_cons in Hq' as [-> | Hq']; [congruence |].
          right. eauto.
      + rewrite elem_of_union, elem_of_singleton. split.
        * intros [[H | ->] | (Hk & q' & Hq' & Hf)]; [tauto | |].
          { right. split; [exact He |]. exists q. split; [left | reflexivity]. }
          right. split; [exact Hk |]. exists q'. split; [right; exact Hq' | exact Hf].
        * intros [H | (Hk & q' & Hq' & Hf)]; [tauto |].
          apply elem_of_cons in Hq' as [-> | Hq']; [left; right; congruence |].
          right. eauto. }
  rewrite Hgen. split; [intros [H | H]; [| exact H] | tauto].
  apply not_elem_of_empty in H. contradiction.
Qed.

(** X2: the field names collected from a question list are exactly the
    non-empty field names of its questions. *)
Theorem X2_extract_field_names (questions : list Question) (k : string) :
  k ∈ invoices._extract_field_names questions <->
  k <> "" /\ exists q, q ∈ questions /\ field_name q = k.
Proof. apply extract_field_names_elem. Qed.

Lemma expected_questions_fields (r : InvoiceExtraction) :
  Forall (fun q => field_name q ∈ asked_fields) (expected_questions r).
Proof.
  unfold expected_questions.
  assert (H : Forall (fun q => field_name q ∈ asked_fields)
                (field_questions r ++ last_resort r)).
  { apply Forall_app. split.
    - unfold field_questions, when.
      destruct (is_None (amount r)), (is_None (date r)), (vendor_blank (vendor r)),
        (is_None (is_paid r)), (is_None (category r)); cbn [app];
        repeat (apply Forall_cons; split;
                [cbn [field_name amount_question date_question vendor_question
                        is_paid_question category_question];
                 unfold asked_fields; set_solver |]);
        apply Forall_nil; exact I.
    - unfold last_resort, when. destruct (field_questions r); [| apply Forall_nil; exact I].
      destruct (amount r); [| apply Forall_nil; exact I].
      destruct (PyFloat.ltb _ _); [| apply Forall_nil; exact I].
      apply Forall_cons; split; [| apply Forall_nil; exact I].
      cbn [field_name confirm_question]. unfold asked_fields. set_solver. }
  revert H. generalize (field_questions r ++ last_resort r)%list. intros l H.
  apply Forall_forall. intros q Hq. rewrite Forall_forall in H. apply H.
  apply (subseteq_take 4 l). exact Hq.
Qed.

(** X3: every question the builder returns asks about amount, date,
    vendor, is_paid or category, so the answer keys accepted for generated
    questions are exactly the fixed whitelist of the endpoint. *)
Theorem X3_built_questions_whitelist (r : InvoiceExtraction) :
  exists questions reason,
    build_review_questions r = Ok (questions, reason) /\
    Forall (fun q => field_name q ∈ asked_fields) questions /\
    valid_fields questions = invoices.ALLOWED_ANSWER_FIELDS.
Proof.
  destruct (build_review_questions_expected r) as [reason Hb].
  exists (expected_questions r), reason. split; [exact Hb |].
  pose proof (expected_questions_fields r) as Hf. split; [exact Hf |].
  unfold valid_fields. apply set_eq. intros k. rewrite elem_of_union.
  split; [intros [Hk | Hk]; [| exact Hk] | tauto].
  apply extract_field_names_elem in Hk as (_ & q & Hq & <-).
  rewrite Forall_forall in Hf. specialize (Hf q Hq).
  unfold asked_fields in Hf. unfold invoices.ALLOWED_ANSWER_FIELDS.
  repeat (apply elem_of_cons in Hf as [-> | Hf]; [set_solver |]).
  apply elem_of_nil in Hf. contradiction.
Qed.

(** X4: the builder answers "Needs manual verification" exactly when it
    returns no question; otherwise the reason starts with "Needs review: ". *)
Theorem X4_build_review_questions_reason (r : InvoiceExtraction) :
  exists questions reason,
    build_review_questions r = Ok (questions, reason) /\
    (questions = [] <-> reason = "Needs manual verification") /\
    (questions <> [] -> String.prefix "Needs review: " reason = true).
Proof.
  unfold build_review_questions.
  destruct (amount r) as [x|], (date r), (vendor_blank (vendor r)),
    (is_paid r), (category r);
    cbn [is_None append fst snd app length Nat.eqb andb];
    rewrite ?andb_false_r; cbn [bind];
    try (eexists; eexists; split; [reflexivity |];
         split; [split; intros H; discriminate H | intros _; reflexivity]).
  destruct (PyFloat.ltb _ _); cbn [andb format_2f bind append fst snd app];
    eexists; eexists; (split; [reflexivity |]).
  - split; [split; intros H; discriminate H | intros _; reflexivity].
  - split; [split; reflexivity | intros H; exfalso; apply H; reflexivity].
Qed.

End BuilderProperties.

(** ** VAT normalisation: the other branches *)

Section VatProperties.

Import invoices.

Variable rt : runtime.

Lemma get_is_Some (answers : gmap string pyval) (k : string) :
  get answers k <> PNone -> is_Some (answers !! k).
Proof. unfold get. destruct (answers !! k); simpl; [eauto | congruence]. Qed.

Lemma coerce_bool_not_None (v : pyval) (b : bool) :
  _coerce_bool v = Some b -> v <> PNone.
Proof. intros H ->. discriminate H. Qed.

(** X5: the three cases in which no total is computed. Without the key
    vat_inclusive the answers pass through unchanged; a vat_inclusive that
    does not coerce to a boolean, an explicit null included, is rejected
    with status 400; and with a boolean flag but no amount only the flag
    is replaced by the boolean, a tax amount being neither checked nor
    changed. *)
Theorem X5_normalize_vat_without_totals (answers : gmap string pyval) :
  (answers !! "vat_inclusive" = None -> _normalize_vat rt answers = Ok answers) /\
  (forall v, answers !! "vat_inclusive" = Some v -> _coerce_bool v = None ->
     _normalize_vat rt answers
     = Raise (HTTPException 400 (Detail "vat_inclusive must be a boolean"))) /\
  (forall b, _coerce_bool (get answers "vat_inclusive") = Some b ->
     get answers "amount" = PNone ->
     _normalize_vat rt answers = Ok (<["vat_inclusive" := PBool b]> answers)).
Proof.
  unfold _normalize_vat, get, bad_request. split; [| split].
  - intros H. rewrite H. reflexivity.
  - intros v H Hc. rewrite H. cbn [from_option id]. rewrite Hc. reflexivity.
  - intros b Hc Ha. rewrite Hc, Ha. reflexivity.
Qed.

(** X6: a successful normalisation drops no answer key and adds at most
    the key tax_amount; every answer other than amount, tax_amount and
    vat_inclusive is returned as it was entered. *)
Theorem X6_normalize_vat_keys (answers out : gmap string pyval) :
  _normalize_vat rt answers = Ok out ->
  dom answers ⊆ dom out /\
  dom out ⊆ dom answers ∪ {[ "tax_amount" ]} /\
  (forall k, k <> "amount" -> k <> "tax_amount" -> k <> "vat_inclusive" ->
             out !! k = answers !! k).
Proof.
  intros H.
  assert (Hv : out = answers \/ is_Some (answers !! "vat_inclusive")).
  { revert H. unfold _normalize_vat.
    destruct (_coerce_bool (get answers "vat_inclusive")) as [b|] eqn:Hc.
    - intros _. right. apply get_is_Some. eapply coerce_bool_not_None. exact Hc.
    - destruct (bool_decide _); [discriminate |]. intros [= <-]. left. reflexivity. }
  assert (Ha : (out = answers \/ exists b, out = <["vat_inclusive" := PBool b]> answers)
               \/ is_Some (answers !! "amount")).
  { revert H. unfold _normalize_vat.
    destruct (_coerce_bool (get answers "vat_inclusive")) as [b|] eqn:Hc.
    - destruct (get answers "amount") eqn:Hg;
        [intros [= <-]; left; right; eauto | | | |];
        intros _; right; apply get_is_Some; congruence.
    - destruct (bool_decide _); [discriminate |]. intros [= <-]. left. left. reflexivity. }
  split; [| split].
  - destruct (normalize_vat_shape rt _ _ H) as [-> | [[b ->] | (b & t & x & ->)]];
      rewrite ?dom_insert_L; set_solver.
  - destruct (normalize_vat_shape rt _ _ H) as [-> | [[b ->] | (b & t & x & ->)]].
    + set_solver.
    + rewrite dom_insert_L. destruct Hv as [Hv | Hv].
      * rewrite <- Hv at 2. rewrite dom_insert_L. set_solver.
      * apply elem_of_dom in Hv. set_solver.
    + rewrite !dom_insert_L.
      assert (Hv' : "vat_inclusive" ∈ dom answers).
      { destruct Hv as [Hv | Hv]; [| apply elem_of_dom; exact Hv].
        rewrite <- Hv. rewrite !dom_insert_L. set_solver. }
      assert (Ha' : "amount" ∈ dom answers).
      { destruct Ha as [[Ha | [b' Ha]] | Ha]; [| | apply elem_of_dom; exact Ha].
        - rewrite <- Ha. rewrite !dom_insert_L. set_solver.
        - apply (f_equal (fun m : gmap string pyval => m !! "amount")) in Ha.
          rewrite lookup_insert_ne, lookup_insert_ne, lookup_insert_eq in Ha by done.
          rewrite lookup_insert_ne in Ha by done.
          apply elem_of_dom. rewrite <- Ha. eauto. }
      set_solver.
  - intros k H1 H2 H3. apply (normalize_vat_lookup rt _ _ k H); assumption.
Qed.

Lemma round_2675 : PyFloat.round (PyFloat.lit 2675 1000) 2 = PyFloat.lit 267 100.
Proof. vm_compute. reflexivity. Qed.

Lemma round_125 : PyFloat.round (PyFloat.lit 125 1000) 2 = PyFloat.lit 12 100.
Proof. vm_compute. reflexivity. Qed.

(** X7: with a tax amount entered (neither null nor empty) the default
    rate is not applied in either branch: the stored tax amount is the
    entered one rounded to 2 decimals, next to the amount rounded to 2
    decimals. The rounding is to the nearest hundredth of the exact
    value of the double, ties to the even one: an amount of 2.675,
    whose double lies below the decimal, is stored as 2.67, and a tax
    amount of 0.125 as 0.12. *)
Theorem X7_normalize_vat_entered_tax (answers : gmap string pyval)
    (vat : bool) (entered tax : float) :
  _coerce_bool (get answers "vat_inclusive") = Some vat ->
  py_float rt (get answers "amount") = Ok entered ->
  py_eq (get answers "tax_amount") PNone = false ->
  py_eq (get answers "tax_amount") (PStr "") = false ->
  py_float rt (get answers "tax_amount") = Ok tax ->
  exists amount stored_tax,
    _normalize_vat rt answers =
    Ok (<["vat_inclusive" := PBool vat]>
          (<["tax_amount" := PFloat stored_tax]>
             (<["amount" := PFloat amount]> answers))) /\
    rounded_to_cents entered amount /\
    rounded_to_cents tax stored_tax /\
    (entered = PyFloat.lit 2675 1000 -> amount = PyFloat.lit 267 100) /\
    (tax = PyFloat.lit 125 1000 -> stored_tax = PyFloat.lit 12 100).
Proof.
  intros Hv Ha Hn He Ht.
  exists (PyFloat.round entered 2), (PyFloat.round tax 2).
  split; [| split; [apply round_cents | split; [apply round_cents |]]].
  - unfold _normalize_vat. rewrite Hv, Hn, He. cbn [negb andb].
    assert (Hf : float_or_400 rt (get answers "amount") "amount must be a number"
                 = Ok entered) by (unfold float_or_400; rewrite Ha; reflexivity).
    assert (Hg : float_or_400 rt (get answers "tax_amount") "tax_amount must be a number"
                 = Ok tax) by (unfold float_or_400; rewrite Ht; reflexivity).
    destruct (get answers "amount") eqn:E; [simpl in Ha; discriminate | | | |];
      rewrite Hf; cbn [bind]; rewrite Hg; cbn [bind]; destruct vat; reflexivity.
  - split; intros ->; [apply round_2675 | apply round_125].
Qed.

Lemma py_float_raise (v : pyval) (e : exn) :
  py_float rt v = Raise e -> e = TypeError \/ e = ValueError \/ e = OverflowError.
Proof.
  destruct v as [| b | n | x | s]; simpl; try discriminate.
  - intros [= <-]. tauto.
  - destruct (PyFloat.is_finite _); [discriminate |]. intros [= <-]. tauto.
  - destruct (float_of_str rt s); [discriminate |]. intros [= <-]. tauto.
Qed.

Lemma float_or_400_raise (v : pyval) (message : string) (e : exn) :
  float_or_400 rt v message = Raise e ->
  e = HTTPException 400 (Detail message) \/ e = OverflowError.
Proof.
  unfold float_or_400, bad_request.
  destruct (py_float rt v) as [x|e'] eqn:E; [discriminate |].
  apply py_float_raise in E as [-> | [-> | ->]]; intros [= <-]; tauto.
Qed.

Lemma normalize_vat_raise (answers : gmap string pyval) (e : exn) :
  _normalize_vat rt answers = Raise e ->
  e = HTTPException 400 (Detail "vat_inclusive must be a boolean") \/
  e = HTTPException 400 (Detail "amount must be a number") \/
  e = HTTPException 400 (Detail "tax_amount must be a number") \/
  e = OverflowError.
Proof.
  unfold _normalize_vat.
  destruct (_coerce_bool (get answers "vat_inclusive")) as [vat|].
  2:{ destruct (bool_decide _); [| discriminate]. intros [= <-]. tauto. }
  assert (Hgen : forall entered,
    (entered_amount <- float_or_400 rt entered "amount must be a number" ;;
     tax_amount <-
       (let tax_amount := get answers "tax_amount" in
        if negb (py_eq tax_amount PNone) && negb (py_eq tax_amount (PStr ""))
        then x <- float_or_400 rt tax_amount "tax_amount must be a number" ;;
             Ok (Some x)
        else Ok None) ;;
     if vat then
       let gross := entered_amount in
       let tax_amount :=
         match tax_amount with
         | None =>
             PyFloat.sub gross
               (PyFloat.div gross (PyFloat.add (PyFloat.of_Z 1) DEFAULT_VAT_RATE))
         | Some t => t
         end in
       Ok (<["vat_inclusive" := PBool true]>
             (<["tax_amount" := PFloat (PyFloat.round tax_amount 2)]>
                (<["amount" := PFloat (PyFloat.round gross 2)]> answers)))
     else
       let tax_amount :=
         match tax_amount with
         | None => PyFloat.mul entered_amount DEFAULT_VAT_RATE
         | Some t => t
         end in
       Ok (<["vat_inclusive" := PBool false]>
             (<["tax_amount" := PFloat (PyFloat.round tax_amount 2)]>
                (<["amount" := PFloat (PyFloat.round entered_amount 2)]> answers))))
    = Raise e ->
    e = HTTPException 400 (Detail "amount must be a number") \/
    e = HTTPException 400 (Detail "tax_amount must be a number") \/
    e = OverflowError).
  { intros entered.
    destruct (float_or_400 rt entered _) as [a|e'] eqn:Ea.
    2:{ cbn [bind]. intros [= <-]. apply float_or_400_raise in Ea. tauto. }
    cbn [bind]. destruct (_ && _).
    - destruct (float_or_400 rt (get answers "tax_amount") _) as [t|e'] eqn:Et.
      + cbn [bind]. destruct vat; discriminate.
      + cbn [bind]. intros [= <-]. apply float_or_400_raise in Et. tauto.
    - cbn [bind]. destruct vat; discriminate. }
  destruct (get answers "amount") eqn:E; [discriminate | | | |];
    intros H; apply Hgen in H; tauto.
Qed.

(** X8: the normalisation fails in four ways only: with status 400 and
    one of the three messages about vat_inclusive, amount and tax_amount,
    or with the OverflowError of an integer too large for a float, which
    it does not catch. *)
Theorem X8_normalize_vat_errors (answers : gmap string pyval) (e : exn) :
  _normalize_vat rt answers = Raise e ->
  e = HTTPException 400 (Detail "vat_inclusive must be a boolean") \/
  e = HTTPException 400 (Detail "amount must be a number") \/
  e = HTTPException 400 (Detail "tax_amount must be a number") \/
  e = OverflowError.
Proof. apply normalize_vat_raise. Qed.

End VatProperties.

Lemma X7_normalize_vat_entered_tax_witness :
  exists out, invoices._normalize_vat sample_runtime long_taxed_answers = Ok out /\
    out !! "amount" = Some (PFloat (PyFloat.lit 267 100)) /\
    out !! "tax_amount" = Some (PFloat (PyFloat.lit 12 100)).
Proof.
  destruct (X7_normalize_vat_entered_tax sample_runtime long_taxed_answers false
              (PyFloat.lit 2675 1000) (PyFloat.lit 125 1000))
    as (amount & stored_tax & Hout & _ & _ & Ha & Ht); try (vm_compute; reflexivity).
  rewrite (Ha eq_refl), (Ht eq_refl) in Hout.
  eexists. split; [exact Hout |]. split.
  - rewrite lookup_insert_ne, lookup_insert_ne, lookup_insert_eq by done. reflexivity.
  - rewrite lookup_insert_ne, lookup_insert_eq by done. reflexivity.
Defined.

Lemma X6_normalize_vat_keys_witness :
  exists out, invoices._normalize_vat sample_runtime exclusive_answers = Ok out /\
    dom exclusive_answers ⊆ dom out /\
    dom out ⊆ dom exclusive_answers ∪ {[ "tax_amount" ]}.
Proof.
  destruct (invoices._normalize_vat sample_runtime exclusive_answers) as [out|e] eqn:E.
  - exists out. split; [reflexivity |].
    destruct (X6_normalize_vat_keys sample_runtime exclusive_answers out E)
      as (H1 & H2 & _).
    split; assumption.
  - vm_compute in E. discriminate E.
Defined.

Lemma X8_normalize_vat_errors_witness :
  invoices._normalize_vat sample_runtime null_flag_answers
  = Raise (HTTPException 400 (Detail "vat_inclusive must be a boolean")).
Proof.
  destruct (invoices._normalize_vat sample_runtime null_flag_answers) as [out|e] eqn:E.
  - vm_compute in E. discriminate E.
  - destruct (X8_normalize_vat_errors sample_runtime null_flag_answers e E)
      as [-> | [-> | [-> | ->]]]; [reflexivity | | |];
      vm_compute in E; discriminate E.
Defined.

(** ** The resolution endpoint: failures, frame and composition *)

Section ResolveProperties.

Import invoices.

Variable rt : runtime.

Lemma get_or_build_raise (invoice stored : Invoice) (e : exn) :
  _get_or_build_review_questions invoice = (stored, Raise e) -> e = DataError.
Proof.
  unfold _get_or_build_review_questions.
  destruct (stored_questions _); [discriminate |].
  destruct (negb _); [discriminate |].
  destruct (extraction_of invoice) as [extraction|]; [| intros [= _ <-]; reflexivity].
  destruct (build_review_questions_expected extraction) as [reason ->]. discriminate.
Qed.

(** X9: how the resolution endpoint fails before its commit. An unknown
    id is answered with status 404 and a record that is not in
    needs_review with status 400, both leaving the table as it was. On a
    needs_review record the checks of the endpoint fail only with one of
    the three 400 messages of the VAT normalisation, with the 400 that
    lists the answer keys outside the valid set, with the OverflowError
    of an integer too large for a float, or on a row whose columns do
    not hold values of their declared types. *)
Theorem X9_resolve_review_failures (db : gmap Z Invoice) (invoice_id : Z)
    (answers : gmap string pyval) :
  (db !! invoice_id = None ->
   resolve_review rt db invoice_id answers
   = (db, Raise (HTTPException 404 (Detail "Invoice not found")))) /\
  (forall invoice, db !! invoice_id = Some invoice -> ~ needs_review invoice ->
   resolve_review rt db invoice_id answers
   = (db, Raise (HTTPException 400
                   (Detail ("Invoice status is '"
                            ++ py_str rt (getattr invoice "status")
                            ++ "', not 'needs_review'. Nothing to resolve."))))) /\
  (forall invoice db' e, db !! invoice_id = Some invoice -> needs_review invoice ->
   resolve_review rt db invoice_id answers = (db', Raise e) ->
   e = HTTPException 400 (Detail "vat_inclusive must be a boolean") \/
   e = HTTPException 400 (Detail "amount must be a number") \/
   e = HTTPException 400 (Detail "tax_amount must be a number") \/
   e = OverflowError \/
   e = DataError \/
   exists questions reason,
     snd (_get_or_build_review_questions invoice) = Ok (questions, reason) /\
     e = HTTPException 400
           (InvalidFieldsDetail (dom answers ∖ valid_fields questions)
                                (valid_fields questions))).
Proof.
  unfold resolve_review, needs_review, bad_request. split; [| split].
  - intros H. rewrite H. reflexivity.
  - intros invoice H Hn. rewrite H.
    destruct (py_eq _ _); [exfalso; apply Hn; reflexivity | reflexivity].
  - intros invoice db' e Hdb Hst. rewrite Hdb, Hst. cbn [negb]. intros H.
    destruct (_get_or_build_review_questions invoice) as [stored [[qs reason]|e']] eqn:Hq.
    2:{ injection H as _ <-. apply get_or_build_raise in Hq. tauto. }
    cbv zeta in H. destruct (bool_decide (answers = ∅)); [discriminate H |].
    destruct (_normalize_vat rt answers) as [normalised|e'] eqn:Hn; cbn [bind] in H.
    2:{ injection H as _ <-. apply normalize_vat_raise in Hn. tauto. }
    rewrite valid_fields_code, (normalize_vat_invalid rt _ _ qs Hn) in H.
    destruct (bool_decide _); [discriminate H |]. injection H as _ <-.
    do 5 right. exists qs, reason. split; reflexivity.
Qed.

(** X10: whatever the outcome, a call touches no row of the table other
    than the one it was given. *)
Theorem X10_resolve_review_other_rows (db : gmap Z Invoice) (invoice_id other : Z)
    (answers : gmap string pyval) :
  other <> invoice_id ->
  fst (resolve_review rt db invoice_id answers) !! other = db !! other.
Proof.
  intros Hne. unfold resolve_review.
  destruct (db !! invoice_id) as [invoice|]; [| reflexivity].
  destruct (negb _); [reflexivity |].
  destruct (_get_or_build_review_questions invoice) as [stored [[qs reason]|e]];
    cbn [fst]; [| rewrite lookup_insert_ne by done; reflexivity].
  cbv zeta.
  destruct (if bool_decide (answers = ∅) then _ else _) as [inv|e]; cbn [fst];
    rewrite ?lookup_insert_ne by done; reflexivity.
Qed.

(** X11: what a successful call writes. The returned record is stored
    under its id with status ok, no reason and no questions. An
    attribute for which the normalised answers hold no value, because
    the key is absent, is vat_inclusive or is no column, keeps its
    value; and a text given for a text column, or a float that is
    neither NaN nor the negative zero given for a float column, is
    stored as given. *)
Theorem X11_resolve_review_applies (db db' : gmap Z Invoice) (invoice_id : Z)
    (invoice invoice' : Invoice) (answers : gmap string pyval) :
  db !! invoice_id = Some invoice ->
  resolve_review rt db invoice_id answers = (db', Ok invoice') ->
  db' !! invoice_id = Some invoice' /\
  getattr invoice' "status" = PStr "ok" /\
  getattr invoice' "review_reason" = PNone /\
  review_questions invoice' = RqOther PNone /\
  exists normalised,
    (answers = ∅ /\ normalised = ∅ \/
     answers <> ∅ /\ _normalize_vat rt answers = Ok normalised) /\
    (forall k, k <> "status" -> k <> "review_reason" -> k <> "review_questions" ->
       k <> "updated_at" -> answered normalised k = None ->
       getattr invoice' k = getattr invoice k) /\
    (forall k v, k <> "status" -> k <> "review_reason" -> k <> "review_questions" ->
       answered normalised k = Some v -> stored_as_written k v ->
       getattr invoice' k = v).
Proof.
  intros Hdb.
  assert (Hsplit : forall normalised : gmap string pyval,
    (forall k, k <> "status" -> k <> "review_reason" -> k <> "review_questions" ->
       getattr invoice' k = default (getattr invoice k) (answered normalised k)) ->
    (forall k, k <> "status" -> k <> "review_reason" -> k <> "review_questions" ->
       k <> "updated_at" -> answered normalised k = None ->
       getattr invoice' k = getattr invoice k) /\
    (forall k v, k <> "status" -> k <> "review_reason" -> k <> "review_questions" ->
       answered normalised k = Some v -> stored_as_written k v ->
       getattr invoice' k = v)).
  { intros normalised H. split.
    - intros k H1 H2 H3 _ Ha. rewrite H, Ha by assumption. reflexivity.
    - intros k v H1 H2 H3 Ha _. rewrite H, Ha by assumption. reflexivity. }
  revert Hsplit. unfold resolve_review. rewrite Hdb. intros Hsplit.
  destruct (negb _); [discriminate |].
  pose proof (get_or_build_frame invoice) as Hframe.
  destruct (_get_or_build_review_questions invoice) as [stored [[qs reason]|e]];
    [| discriminate].
  cbn [fst] in Hframe. cbv zeta.
  assert (Hclose : forall inv,
    <[invoice_id := close_review inv]> (<[invoice_id := stored]> db) !! invoice_id
    = Some (close_review inv) /\
    getattr (close_review inv) "status" = PStr "ok" /\
    getattr (close_review inv) "review_reason" = PNone /\
    review_questions (close_review inv) = RqOther PNone).
  { intros inv. split; [apply lookup_insert_eq |].
    unfold close_review, getattr. cbn [attrs review_questions].
    rewrite lookup_insert_eq, lookup_insert_ne, lookup_insert_eq by done. done. }
  destruct (bool_decide (answers = ∅)) eqn:He.
  - cbv iota. intros [= <- [= <-]].
    destruct (Hclose stored) as (H1 & H2 & H3 & H4).
    repeat (split; [assumption |]).
    exists ∅. split; [left; split; [| reflexivity];
                      apply bool_decide_eq_true_1 in He; exact He |].
    apply Hsplit.
    intros k Hs Hr Hq. rewrite close_review_getattr by done.
    unfold answered. rewrite lookup_empty.
    destruct (String.eqb k "vat_inclusive"), (hasattr k); apply Hframe; exact Hr.
  - destruct (_normalize_vat rt answers) as [normalised|e] eqn:Hn; [| discriminate].
    apply bool_decide_eq_false_1 in He.
    cbn [bind]. destruct (bool_decide (dom normalised ∖ _ = ∅)); cbv iota;
      [| discriminate].
    intros [= <- [= <-]].
    destruct (Hclose (apply_answers stored normalised)) as (H1 & H2 & H3 & H4).
    repeat (split; [assumption |]).
    exists normalised. split; [right; split; [exact He | reflexivity] |].
    apply Hsplit.
    intros k Hs Hr Hq. rewrite close_review_getattr by done.
    rewrite apply_answers_getattr by done. rewrite Hframe by done. reflexivity.
Qed.

Lemma resolve_review_closed (db db' : gmap Z Invoice) (invoice_id : Z)
    (invoice invoice' : Invoice) (answers : gmap string pyval) :
  db !! invoice_id = Some invoice ->
  resolve_review rt db invoice_id answers = (db', Ok invoice') ->
  db' !! invoice_id = Some invoice' /\
  getattr invoice' "status" = PStr "ok" /\
  getattr invoice' "review_reason" = PNone /\
  review_questions invoice' = RqOther PNone.
Proof.
  intros Hdb H.
  destruct (resolve_review_writes rt db db' invoice_id invoice invoice' answers Hdb H)
    as (H1 & H2 & H3 & H4 & _).
  repeat split; assumption.
Qed.

(** X12: a resolved record is closed for good. After a successful call
    the question fetch returns no question and leaves the record alone,
    and a second call on the same id, whatever its answers, is refused
    with status 400 and changes nothing. *)
Theorem X12_resolve_review_once (db db' : gmap Z Invoice) (invoice_id : Z)
    (invoice' : Invoice) (answers again : gmap string pyval) :
  resolve_review rt db invoice_id answers = (db', Ok invoice') ->
  _get_or_build_review_questions invoice' = (invoice', Ok ([], PNone)) /\
  resolve_review rt db' invoice_id again
  = (db', Raise (HTTPException 400
                   (Detail "Invoice status is 'ok', not 'needs_review'. Nothing to resolve."))).
Proof.
  intros H.
  destruct (db !! invoice_id) as [invoice|] eqn:Hdb.
  2:{ unfold resolve_review in H. rewrite Hdb in H. discriminate H. }
  destruct (resolve_review_closed db db' invoice_id invoice invoice' answers Hdb H)
    as (H1 & H2 & H3 & H4).
  split.
  - unfold _get_or_build_review_questions. rewrite H4, H2, H3. reflexivity.
  - unfold resolve_review. rewrite H1, H2. reflexivity.
Qed.

End ResolveProperties.

Lemma X10_resolve_review_other_rows_witness :
  fst (invoices.resolve_review sample_runtime two_rows_db 1 unknown_answers) !! 2%Z
  = Some medium_invoice.
Proof.
  rewrite (X10_resolve_review_other_rows sample_runtime two_rows_db 1 2 unknown_answers).
  - vm_compute. reflexivity.
  - discriminate.
Defined.

Lemma X11_resolve_review_applies_witness :
  invoices.getattr route_resolved "amount" = PFloat (PyFloat.of_Z 150) /\
  invoices.getattr route_resolved "vendor" = PStr "DEWA".
Proof.
  destruct (X11_resolve_review_applies sample_runtime fresh_db
              (<[1%Z := route_resolved]> fresh_db) 1 fresh_invoice route_resolved
              amount_answer) as (_ & _ & _ & _ & normalised & Hn & Hk & Hv).
  - reflexivity.
  - vm_compute. reflexivity.
  - destruct Hn as [[He _] | [_ Hn]]; [vm_compute in He; discriminate He |].
    assert (normalised = amount_answer) as ->
      by (vm_compute in Hn; injection Hn as <-; vm_compute; reflexivity).
    split.
    + apply Hv; try discriminate; [vm_compute; reflexivity |].
      right. split; [clear; unfold float_columns; set_solver |].
      eexists. split; [reflexivity | split; [reflexivity | discriminate]].
    + refine (eq_trans (Hk "vendor" _ _ _ _ _) _); try discriminate;
        vm_compute; reflexivity.
Defined.

Lemma X12_resolve_review_once_witness :
  invoices.resolve_review sample_runtime (<[1%Z := route_resolved]> fresh_db) 1
    amount_answer
  = (<[1%Z := route_resolved]> fresh_db,
     Raise (HTTPException 400
              (Detail "Invoice status is 'ok', not 'needs_review'. Nothing to resolve."))).
Proof.
  apply (X12_resolve_review_once sample_runtime fresh_db
           (<[1%Z := route_resolved]> fresh_db) 1 route_resolved amount_answer
           amount_answer).
  vm_compute. reflexivity.
Defined.

(** ** The service layer *)

Section ServiceProperties.

Import invoices.

Variable rt : runtime.

Lemma setattr_getattr_ne (invoice : Invoice) (name k : string) (v : pyval) :
  k <> name -> getattr (setattr invoice name v) k = getattr invoice k.
Proof.
  intros Hk. unfold setattr, getattr.
  destruct (String.eqb name "review_questions"); cbn [attrs]; [reflexivity |].
  rewrite lookup_insert_ne by done. reflexivity.
Qed.

Lemma setattr_getattr_eq (invoice : Invoice) (name : string) (v : pyval) :
  name <> "review_questions" -> getattr (setattr invoice name v) name = v.
Proof.
  intros Hk. unfold setattr, getattr. apply String.eqb_neq in Hk. rewrite Hk.
  cbn [attrs]. rewrite lookup_insert_eq. reflexivity.
Qed.

Lemma setattr_review_questions (invoice : Invoice) (name : string) (v : pyval) :
  name <> "review_questions" ->
  review_questions (setattr invoice name v) = review_questions invoice.
Proof.
  intros Hk. unfold setattr. apply String.eqb_neq in Hk. rewrite Hk. reflexivity.
Qed.

Lemma apply_answer_frame (field_name : string) (value : pyval)
    (invoice invoice' : Invoice) (k : string) :
  invoice_service.apply_answer rt field_name value invoice = Ok invoice' ->
  k ∉ service_fields ->
  getattr invoice' k = getattr invoice k.
Proof.
  intros H Hk. unfold service_fields in Hk.
  assert (Hne : forall name, name ∈ service_fields -> k <> name)
    by (intros name Hn ->; apply Hk; exact Hn).
  unfold service_fields in Hne.
  revert H. unfold invoice_service.apply_answer.
  assert (Hset : forall name v, name ∈ service_fields ->
                   getattr (setattr invoice name v) k = getattr invoice k)
    by (intros name v Hn; apply setattr_getattr_ne, Hne, Hn).
  unfold service_fields in Hset.
  destruct value; [intros [= <-]; reflexivity | | | |];
    repeat (match goal with
            | |- context [String.eqb field_name ?s] => destruct (String.eqb field_name s)
            end;
            [first [ destruct (invoice_service.float_if rt _) as [v|];
                     cbn [bind]; [| discriminate]
                   | idtac ];
             intros [= <-]; apply Hset; set_solver |]);
    intros [= <-]; reflexivity.
Qed.

Lemma service_fold_frame (invoice invoice' : Invoice) (answers : gmap string pyval)
    (k : string) :
  map_fold (fun field_name value acc =>
              invoice <- acc ;; invoice_service.apply_answer rt field_name value invoice)
           (Ok invoice) answers = Ok invoice' ->
  k ∉ service_fields ->
  getattr invoice' k = getattr invoice k.
Proof.
  intros H Hk. revert invoice' H.
  apply (map_fold_weak_ind
           (fun (r : outcome Invoice) (m : gmap string pyval) =>
              forall invoice', r = Ok invoice' ->
                               getattr invoice' k = getattr invoice k)).
  - intros invoice' [= <-]. reflexivity.
  - intros i x m r Hi IH invoice'. destruct r as [inv|e]; cbn [bind]; [| discriminate].
    intros H. rewrite (apply_answer_frame _ _ _ _ k H Hk). apply IH. reflexivity.
Qed.

(** X13: the resolution method of the service layer, on success, stores
    the record under its id with a confidence of 0.95, status ok, no
    reason and no questions, and assigns from the answers only amount,
    date, vendor, tax_amount, category, payment_method, is_paid, currency
    and transaction_type: every other attribute, notes included, keeps
    its value whatever the answers say. *)
Theorem X13_service_resolve_review (db db' : gmap Z Invoice) (invoice_id : Z)
    (questions : list services_ocr_llm.Question) (answers : gmap string pyval)
    (invoice' : Invoice) :
  invoice_service.resolve_review rt db invoice_id questions answers
  = (db', Ok (Some invoice')) ->
  exists invoice,
    db !! invoice_id = Some invoice /\
    db' = <[invoice_id := invoice']> db /\
    getattr invoice' "extraction_confidence" = PFloat (PyFloat.lit 95 100) /\
    getattr invoice' "status" = PStr "ok" /\
    getattr invoice' "review_reason" = PNone /\
    review_questions invoice' = RqOther PNone /\
    forall k, k ∉ service_fields ->
      k <> "extraction_confidence" -> k <> "status" -> k <> "review_reason" ->
      k <> "updated_at" ->
      getattr invoice' k = getattr invoice k.
Proof.
  unfold invoice_service.resolve_review.
  destruct (db !! invoice_id) as [invoice|]; [| discriminate].
  destruct (map_fold _ _ _) as [inv|e] eqn:Hf; [| discriminate].
  intros [= <- [= <-]]. exists invoice. split; [reflexivity |]. split; [reflexivity |].
  unfold invoice_service.mark_resolved, getattr. cbn [attrs review_questions].
  rewrite lookup_insert_ne, lookup_insert_ne, !lookup_insert_eq by done.
  rewrite lookup_insert_ne, lookup_insert_eq by done.
  repeat (split; [reflexivity |]).
  intros k Hk H1 H2 H3 _. rewrite !lookup_insert_ne by done.
  apply (service_fold_frame invoice inv answers k Hf Hk).
Qed.

(** X14: the service method returns no invoice for an unknown id, and
    an answer that does not convert raises; in both cases the table is
    left as it was. *)
Theorem X14_service_resolve_review_failures (db db' : gmap Z Invoice) (invoice_id : Z)
    (questions : list services_ocr_llm.Question) (answers : gmap string pyval) :
  (db !! invoice_id = None ->
   invoice_service.resolve_review rt db invoice_id questions answers = (db, Ok None)) /\
  (invoice_service.resolve_review rt db invoice_id questions answers = (db', Ok None) ->
   db !! invoice_id = None /\ db' = db) /\
  (forall e,
     invoice_service.resolve_review rt db invoice_id questions answers = (db', Raise e) ->
     db' = db /\ (e = TypeError \/ e = ValueError \/ e = OverflowError)).
Proof.
  unfold invoice_service.resolve_review. split; [| split].
  - intros H. rewrite H. reflexivity.
  - destruct (db !! invoice_id) as [invoice|]; [| intros [= <-]; split; reflexivity].
    destruct (map_fold _ _ _); discriminate.
  - intros e. destruct (db !! invoice_id) as [invoice|]; [| discriminate].
    destruct (map_fold _ _ _) as [inv|e'] eqn:Hf; [discriminate |].
    intros [= <- [= <-]]. split; [reflexivity |].
    revert Hf.
    apply (map_fold_weak_ind
             (fun (r : outcome Invoice) (m : gmap string pyval) =>
                r = Raise e' -> e' = TypeError \/ e' = ValueError \/ e' = OverflowError)).
    + discriminate.
    + intros i x m r Hi IH. destruct r as [inv|e'']; cbn [bind]; [| exact IH].
      intros H. clear IH. revert H. unfold invoice_service.apply_answer.
      destruct x; [discriminate | | | |];
        repeat (match goal with
                | |- context [String.eqb i ?s] => destruct (String.eqb i s)
                end;
                [first [ unfold invoice_service.float_if;
                         match goal with
                         | |- context [py_truthy ?v] => destruct (py_truthy v)
                         end; cbn [bind]; [| discriminate];
                         match goal with
                         | |- context [py_float rt ?v] =>
                             destruct (py_float rt v) as [y|e3] eqn:Ef
                         end; cbn [bind]; [discriminate |];
                         intros [= <-]; apply (py_float_raise rt _ _ Ef)
                       | discriminate ] |]);
        discriminate.
Qed.

End ServiceProperties.

Section ManualActions.

Import invoices.

Variable rt : runtime.

Lemma setattr_fold (invoice : Invoice) (updates : gmap string pyval) :
  updates !! "review_questions" = None ->
  review_questions (map_fold (fun field value invoice => setattr invoice field value)
                             invoice updates) = review_questions invoice /\
  forall k, getattr (map_fold (fun field value invoice => setattr invoice field value)
                              invoice updates) k
            = default (getattr invoice k) (updates !! k).
Proof.
  apply (map_fold_weak_ind
           (fun (r : Invoice) (m : gmap string pyval) =>
              m !! "review_questions" = None ->
              review_questions r = review_questions invoice /\
              forall k, getattr r k = default (getattr invoice k) (m !! k))).
  - intros _. split; [reflexivity |]. intros k. rewrite lookup_empty. reflexivity.
  - intros i x m r Hi IH Hq.
    destruct (decide (i = "review_questions")) as [-> | Hne];
      [rewrite lookup_insert_eq in Hq; discriminate |].
    rewrite lookup_insert_ne in Hq by done. destruct (IH Hq) as [IH1 IH2].
    split; [rewrite setattr_review_questions by done; exact IH1 |].
    intros k. destruct (decide (k = i)) as [-> | Hk].
    + rewrite lookup_insert_eq. apply setattr_getattr_eq. exact Hne.
    + rewrite lookup_insert_ne by done. rewrite setattr_getattr_ne by done. apply IH2.
Qed.

Lemma model_dump_other (payload : invoice_service.InvoiceUpdate) (k : string) :
  k ∉ update_fields -> invoice_service.model_dump payload !! k = None.
Proof.
  intros Hk.
  assert (Hne : forall name, name ∈ update_fields -> k <> name)
    by (intros name Hn ->; apply Hk; exact Hn).
  unfold update_fields in Hne.
  assert (H1 : k <> "transaction_type") by (apply Hne; set_solver).
  assert (H2 : k <> "is_paid") by (apply Hne; set_solver).
  assert (H3 : k <> "category") by (apply Hne; set_solver).
  assert (H4 : k <> "payment_method") by (apply Hne; set_solver).
  assert (H5 : k <> "notes") by (apply Hne; set_solver).
  unfold invoice_service.model_dump.
  destruct (invoice_service.notes payload), (invoice_service.payment_method payload),
    (invoice_service.category payload), (invoice_service.is_paid payload),
    (invoice_service.transaction_type payload); cbn [fmap option_fmap option_map];
    rewrite ?lookup_insert_ne by done; apply lookup_empty.
Qed.

Lemma model_dump_is_paid (payload : invoice_service.InvoiceUpdate) :
  invoice_service.model_dump payload !! "is_paid"
  = invoice_service.dump_bool <$> invoice_service.is_paid payload.
Proof.
  unfold invoice_service.model_dump.
  destruct (invoice_service.notes payload), (invoice_service.payment_method payload),
    (invoice_service.category payload), (invoice_service.is_paid payload),
    (invoice_service.transaction_type payload); cbn [fmap option_fmap option_map];
    rewrite ?lookup_insert_ne by done; rewrite ?lookup_insert_eq; try reflexivity;
    apply lookup_empty.
Qed.

Lemma refresh_getattr_ne (invoice : Invoice) (k : string) :
  k <> "is_paid" ->
  getattr (invoice_service.refresh invoice) k = getattr invoice k.
Proof.
  intros Hk. unfold invoice_service.refresh.
  destruct (getattr invoice "is_paid"); try reflexivity.
  apply setattr_getattr_ne. exact Hk.
Qed.

Lemma refresh_review_questions (invoice : Invoice) :
  review_questions (invoice_service.refresh invoice) = review_questions invoice.
Proof.
  unfold invoice_service.refresh.
  destruct (getattr invoice "is_paid"); reflexivity.
Qed.

(** X15: a manual update writes the fields set in the request and
    nothing else. The questions and every attribute other than
    transaction_type, is_paid, category, payment_method and notes keep
    their values, so a record in needs_review stays in needs_review with
    its questions; a text or a null set in the request is stored as
    given and a boolean for is_paid as 0 or 1; an unknown id changes
    nothing. *)
Theorem X15_update_invoice (db : gmap Z Invoice) (invoice_id : Z)
    (payload : invoice_service.InvoiceUpdate) :
  (db !! invoice_id = None ->
   invoice_service.update_invoice db invoice_id payload = (db, None)) /\
  (forall invoice, db !! invoice_id = Some invoice ->
   exists invoice',
     invoice_service.update_invoice db invoice_id payload
     = (<[invoice_id := invoice']> db, Some invoice') /\
     review_questions invoice' = review_questions invoice /\
     (forall k, k ∉ update_fields -> k <> "updated_at" ->
                getattr invoice' k = getattr invoice k) /\
     (forall k v, k <> "is_paid" ->
                  invoice_service.model_dump payload !! k = Some v ->
                  getattr invoice' k = v) /\
     (forall b, invoice_service.is_paid payload = Some (Some b) ->
                getattr invoice' "is_paid" = PInt (Z.b2z b)) /\
     (invoice_service.is_paid payload = Some None ->
      getattr invoice' "is_paid" = PNone) /\
     (needs_review invoice -> needs_review invoice')).
Proof.
  unfold invoice_service.update_invoice. split.
  - intros H. rewrite H. reflexivity.
  - intros invoice H. rewrite H. eexists. split; [reflexivity |].
    assert (Hq : invoice_service.model_dump payload !! "review_questions" = None)
      by (apply model_dump_other; unfold update_fields; set_solver).
    destruct (setattr_fold invoice _ Hq) as [H1 H2].
    set (assigned := map_fold (fun field value invoice => setattr invoice field value)
                              invoice (invoice_service.model_dump payload)) in *.
    assert (H3 : forall k, k ∉ update_fields ->
              getattr (invoice_service.refresh assigned) k = getattr invoice k).
    { intros k Hk. rewrite refresh_getattr_ne, H2, (model_dump_other payload k Hk);
        [reflexivity |].
      intros ->. apply Hk. clear. unfold update_fields. set_solver. }
    split; [rewrite refresh_review_questions; exact H1 |].
    split; [intros k Hk _; apply H3, Hk |].
    split; [intros k v Hk Hv; rewrite refresh_getattr_ne, H2, Hv by exact Hk;
            reflexivity |].
    assert (Hpaid : getattr assigned "is_paid"
                    = default (getattr invoice "is_paid")
                        (invoice_service.dump_bool
                           <$> invoice_service.is_paid payload))
      by (rewrite H2, model_dump_is_paid; reflexivity).
    split; [| split].
    + intros b Hb. rewrite Hb in Hpaid. cbn in Hpaid.
      unfold invoice_service.refresh. rewrite Hpaid.
      apply setattr_getattr_eq. discriminate.
    + intros Hb. rewrite Hb in Hpaid. cbn in Hpaid.
      unfold invoice_service.refresh. rewrite Hpaid. exact Hpaid.
    + unfold needs_review. rewrite H3; [tauto |]. clear. unfold update_fields.
      set_solver.
Qed.

(** X16: marking a record as reviewed closes the review without touching
    the data: the status becomes ok and the reason and the questions are
    cleared, every attribute other than status, review_reason and notes
    keeps its value (the confidence is not raised), the notes are left
    alone when no note is given, and the resolution endpoint refuses the
    record afterwards; an unknown id changes nothing. *)
Theorem X16_mark_as_reviewed (db : gmap Z Invoice) (invoice_id : Z)
    (notes : option string) :
  (db !! invoice_id = None ->
   invoice_service.mark_as_reviewed rt db invoice_id notes = (db, None)) /\
  (forall invoice, db !! invoice_id = Some invoice ->
   exists invoice',
     invoice_service.mark_as_reviewed rt db invoice_id notes
     = (<[invoice_id := invoice']> db, Some invoice') /\
     getattr invoice' "status" = PStr "ok" /\
     getattr invoice' "review_reason" = PNone /\
     review_questions invoice' = RqOther PNone /\
     (forall k, k <> "status" -> k <> "review_reason" -> k <> "notes" ->
                k <> "updated_at" -> getattr invoice' k = getattr invoice k) /\
     (services_ocr_llm.falsy_str notes = true ->
      getattr invoice' "notes" = getattr invoice "notes") /\
     (forall answers,
        resolve_review rt (<[invoice_id := invoice']> db) invoice_id answers
        = (<[invoice_id := invoice']> db,
           Raise (HTTPException 400
                    (Detail "Invoice status is 'ok', not 'needs_review'. Nothing to resolve."))))).
Proof.
  unfold invoice_service.mark_as_reviewed. split.
  - intros H. rewrite H. reflexivity.
  - intros invoice H. rewrite H. eexists. split; [reflexivity |].
    assert (Hs : forall inv, getattr (close_review inv) "status" = PStr "ok")
      by (intros inv; unfold close_review, getattr; cbn [attrs];
          rewrite lookup_insert_ne, lookup_insert_eq by done; reflexivity).
    assert (Hr : forall inv, getattr (close_review inv) "review_reason" = PNone)
      by (intros inv; unfold close_review, getattr; cbn [attrs];
          rewrite lookup_insert_eq; reflexivity).
    destruct (services_ocr_llm.falsy_str notes); cbn [negb].
    + split; [apply Hs |]. split; [apply Hr |]. split; [reflexivity |].
      split; [intros k H1 H2 _ _; apply close_review_getattr; assumption |].
      split; [intros _; apply close_review_getattr; discriminate |].
      intros answers. unfold resolve_review. rewrite lookup_insert_eq, Hs. reflexivity.
    + split; [rewrite setattr_getattr_ne by discriminate; apply Hs |].
      split; [rewrite setattr_getattr_ne by discriminate; apply Hr |].
      split; [rewrite setattr_review_questions by discriminate; reflexivity |].
      split; [intros k H1 H2 H3 _; rewrite setattr_getattr_ne by done;
              apply close_review_getattr; assumption |].
      split; [discriminate |].
      intros answers. unfold resolve_review. rewrite lookup_insert_eq.
      rewrite setattr_getattr_ne by discriminate. rewrite Hs. reflexivity.
Qed.

End ManualActions.

Lemma X5_normalize_vat_without_totals_witness :
  invoices._normalize_vat sample_runtime flag_only_answers
  = Ok (<["vat_inclusive" := PBool true]> flag_only_answers).
Proof.
  apply (X5_normalize_vat_without_totals sample_runtime flag_only_answers);
    vm_compute; reflexivity.
Defined.

Lemma X13_service_resolve_review_witness :
  invoices.getattr service_answered "amount" = PFloat (PyFloat.of_Z 150) /\
  invoices.getattr service_answered "notes" = PStr "DEWA bill" /\
  invoices.getattr service_answered "extraction_confidence" = PFloat (PyFloat.lit 95 100).
Proof.
  destruct (X13_service_resolve_review sample_runtime fresh_db
              (<[1%Z := service_answered]> fresh_db) 1 [] service_answers
              service_answered) as (invoice & Hi & _ & Hc & _ & _ & _ & Hk).
  - vm_compute; reflexivity.
  - split; [vm_compute; reflexivity |]. split; [| exact Hc].
    refine (eq_trans (Hk "notes" _ _ _ _ _) _);
      [clear; unfold service_fields; set_solver | discriminate .. |].
    unfold fresh_db in Hi. rewrite lookup_singleton_eq in Hi.
    injection Hi as <-. vm_compute. reflexivity.
Defined.

Lemma X15_update_invoice_witness :
  exists invoice',
    invoice_service.update_invoice fresh_db 1 sample_update
    = (<[1%Z := invoice']> fresh_db, Some invoice') /\
    invoices.getattr invoice' "status" = PStr "needs_review" /\
    invoices.getattr invoice' "category" = PStr "Office Supplies" /\
    invoices.getattr invoice' "is_paid" = PInt 1.
Proof.
  destruct (X15_update_invoice fresh_db 1 sample_update) as [_ H].
  destruct (H fresh_invoice) as (invoice' & He & _ & Hk & Hv & Hp & _);
    [reflexivity |].
  exists invoice'. split; [exact He |]. split; [| split].
  - refine (eq_trans (Hk "status" _ _) _);
      [clear; unfold update_fields; set_solver | discriminate
      | vm_compute; reflexivity].
  - apply Hv; [discriminate | vm_compute; reflexivity].
  - apply (Hp true). reflexivity.
Defined.

Lemma X16_mark_as_reviewed_witness :
  exists invoice',
    invoice_service.mark_as_reviewed sample_runtime fresh_db 1 None
    = (<[1%Z := invoice']> fresh_db, Some invoice') /\
    invoices.getattr invoice' "status" = PStr "ok" /\
    invoices.getattr invoice' "notes" = PStr "DEWA bill" /\
    invoices.getattr invoice' "extraction_confidence" = PFloat (PyFloat.lit 3 10).
Proof.
  destruct (X16_mark_as_reviewed sample_runtime fresh_db 1 None) as [_ H].
  destruct (H fresh_invoice) as (invoice' & He & Hs & _ & _ & Hk & Hn & _);
    [reflexivity |].
  exists invoice'. split; [exact He |]. split; [exact Hs |]. split.
  - refine (eq_trans (Hn _) _); [reflexivity | vm_compute; reflexivity].
  - refine (eq_trans (Hk "extraction_confidence" _ _ _ _) _);
      [discriminate .. | vm_compute; reflexivity].
Defined.

(** ** The read endpoints *)

Section ReadEndpoints.

Import services_ocr_llm.
Import invoices.

Variable rt : runtime.

Lemma get_or_build_twice (invoice : Invoice) :
  _get_or_build_review_questions (fst (_get_or_build_review_questions invoice))
  = _get_or_build_review_questions invoice.
Proof.
  unfold _get_or_build_review_questions.
  destruct (stored_questions (review_questions invoice)) as [stored|] eqn:Hs.
  { cbn [fst]. rewrite Hs. reflexivity. }
  destruct (py_eq (getattr invoice "status") (PStr "needs_review")) eqn:Hst;
    cbn [negb].
  2:{ cbn [fst]. rewrite Hs, Hst. reflexivity. }
  destruct (extraction_of invoice) as [extraction|] eqn:He.
  2:{ cbn [fst]. rewrite Hs, Hst, He. reflexivity. }
  destruct (build_review_questions_expected extraction) as [reason Hb].
  rewrite Hb. unfold _to_jsonable_questions.
  destruct (expected_questions extraction) as [|q qs].
  - cbn [fst snd stored_questions review_questions].
    rewrite getattr_review_reason, Hst by done. cbn [negb].
    rewrite extraction_of_review_reason, He, Hb. unfold _to_jsonable_questions.
    cbn [attrs]. rewrite insert_insert_eq. reflexivity.
  - cbn [fst snd stored_questions review_questions].
    unfold getattr. cbn [attrs]. rewrite lookup_insert_eq. reflexivity.
Qed.

(** X17: the question endpoint. An unknown id is answered with status
    404 and a record that is not in needs_review with the empty list,
    questions stored for it or not; both leave the table as it was. A
    call that returns questions touches no other row and no attribute of
    the record but review_reason and the stored questions, and a second
    call returns the same questions and changes nothing more. *)
Theorem X17_get_review_questions (db : gmap Z Invoice) (invoice_id : Z) :
  (db !! invoice_id = None ->
   get_review_questions db invoice_id
   = (db, Raise (HTTPException 404 (Detail "Invoice not found")))) /\
  (forall invoice, db !! invoice_id = Some invoice -> ~ needs_review invoice ->
   get_review_questions db invoice_id = (db, Ok [])) /\
  (forall db' questions,
     get_review_questions db invoice_id = (db', Ok questions) ->
     get_review_questions db' invoice_id = (db', Ok questions) /\
     (forall other, other <> invoice_id -> db' !! other = db !! other) /\
     exists invoice invoice',
       db !! invoice_id = Some invoice /\ db' !! invoice_id = Some invoice' /\
       forall k, k <> "review_reason" -> k <> "updated_at" ->
                 getattr invoice' k = getattr invoice k).
Proof.
  unfold get_review_questions, needs_review. split; [| split].
  - intros H. rewrite H. reflexivity.
  - intros invoice H Hn. rewrite H.
    destruct (py_eq _ _); [exfalso; apply Hn; reflexivity | reflexivity].
  - intros db' questions.
    destruct (db !! invoice_id) as [invoice|] eqn:Hdb; [| discriminate].
    destruct (py_eq (getattr invoice "status") (PStr "needs_review")) eqn:Hst;
      cbn [negb].
    2:{ intros [= <- <-]. rewrite Hdb, Hst. cbn [negb].
        split; [reflexivity |]. split; [reflexivity |].
        exists invoice, invoice. done. }
    pose proof (get_or_build_twice invoice) as Htwice.
    pose proof (get_or_build_frame invoice) as Hframe.
    destruct (_get_or_build_review_questions invoice) as [stored [[qs reason]|e]];
      [| discriminate].
    cbn [fst] in Htwice, Hframe. intros [= <- <-].
    split; [| split].
    + rewrite lookup_insert_eq, Hframe, Hst, Htwice by done. cbn [negb].
      rewrite insert_insert_eq. reflexivity.
    + intros other Ho. rewrite lookup_insert_ne by done. reflexivity.
    + exists invoice, stored. rewrite lookup_insert_eq.
      split; [reflexivity |]. split; [reflexivity |].
      intros k Hk _. apply Hframe, Hk.
Qed.

(** X18: the detail endpoint answers with the attributes of the record
    as the question fetch left it: no attribute but review_reason differs
    from the stored one. On a needs_review record it returns the
    questions of the question endpoint and leaves the same table; on any
    other record with stored questions it returns them although the
    question endpoint returns none. *)
Theorem X18_get_invoice (db : gmap Z Invoice) (invoice_id : Z) (invoice : Invoice) :
  db !! invoice_id = Some invoice ->
  (forall db' fields questions reason,
     get_invoice db invoice_id = (db', Ok (fields, (questions, reason))) ->
     (forall k, k ∈ detail_keys -> fields !! k = Some (getattr invoice k)) /\
     (forall k, k ∉ detail_keys -> fields !! k = None) /\
     (needs_review invoice ->
      get_review_questions db invoice_id = (db', Ok questions))) /\
  (forall questions, ~ needs_review invoice ->
     stored_questions (review_questions invoice) = Some questions ->
     get_review_questions db invoice_id = (db, Ok []) /\
     exists fields,
       get_invoice db invoice_id
       = (<[invoice_id := invoice]> db,
          Ok (fields, (questions, getattr invoice "review_reason")))).
Proof.
  intros Hdb. unfold get_invoice, get_review_questions, needs_review.
  rewrite Hdb. split.
  - intros db' fields questions reason.
    pose proof (get_or_build_frame invoice) as Hframe.
    destruct (_get_or_build_review_questions invoice) as [stored [[qs r]|e]];
      [| discriminate].
    cbn [fst] in Hframe. intros [= <- <- <- <-].
    split; [| split].
    + intros k Hk.
      assert (Hr : k <> "review_reason")
        by (intros ->; revert Hk; clear; unfold detail_keys; set_solver).
      rewrite <- (Hframe k Hr). revert Hk. clear. unfold detail_keys.
      rewrite !elem_of_cons, elem_of_nil.
      intros H; repeat (destruct H as [-> | H]; [reflexivity |]); contradiction.
    + intros k Hk. clear Hframe. unfold detail_keys in Hk.
      repeat (apply not_elem_of_cons in Hk as [? Hk]).
      rewrite !lookup_insert_ne by congruence. apply lookup_empty.
    + intros ->. reflexivity.
  - intros questions Hn Hs.
    destruct (py_eq (getattr invoice "status") (PStr "needs_review"));
      [exfalso; apply Hn; reflexivity |].
    cbn [negb]. split; [reflexivity |].
    unfold _get_or_build_review_questions. rewrite Hs. eexists. reflexivity.
Qed.

End ReadEndpoints.

Section Acceptance.

Import services_ocr_llm.
Import invoices.

Variable rt : runtime.

(** X19: when the resolution endpoint accepts. On a needs_review record
    whose questions can be fetched, a call passes the checks of the
    endpoint and reaches the commit exactly when the answers are empty,
    or pass VAT normalisation and name only whitelisted fields and field
    names of the questions. In particular empty answers always close the
    review. *)
Theorem X19_resolve_review_accepts (db : gmap Z Invoice) (invoice_id : Z)
    (invoice : Invoice) (questions : list Question) (reason : pyval)
    (answers : gmap string pyval) :
  db !! invoice_id = Some invoice -> needs_review invoice ->
  snd (_get_or_build_review_questions invoice) = Ok (questions, reason) ->
  (exists db' invoice', resolve_review rt db invoice_id answers = (db', Ok invoice'))
  <->
  (answers = ∅ \/
   (exists normalised, _normalize_vat rt answers = Ok normalised) /\
   dom answers ⊆ valid_fields questions).
Proof.
  intros Hdb Hst Hq. unfold resolve_review. rewrite Hdb.
  unfold needs_review in Hst. rewrite Hst. cbn [negb].
  destruct (_get_or_build_review_questions invoice) as [stored res].
  cbn [snd] in Hq. subst res. cbv zeta.
  destruct (decide (answers = ∅)) as [He | He].
  { rewrite (bool_decide_eq_true_2 _ He). split; [tauto | eauto]. }
  rewrite (bool_decide_eq_false_2 _ He).
  destruct (_normalize_vat rt answers) as [normalised|e] eqn:Hn; cbn [bind].
  2:{ split.
      - intros (db' & invoice' & H). discriminate H.
      - intros [H | [[n H] _]]; [contradiction | discriminate H]. }
  rewrite valid_fields_code, (normalize_vat_invalid rt _ _ questions Hn).
  destruct (decide (dom answers ∖ valid_fields questions = ∅)) as [Hd | Hd].
  - rewrite (bool_decide_eq_true_2 _ Hd). split; [| eauto].
    intros _. right. split; [eauto |].
    intros x Hx. destruct (decide (x ∈ valid_fields questions)) as [Hv | Hv];
      [exact Hv |].
    exfalso. apply (not_elem_of_empty (C := gset string) x). rewrite <- Hd.
    apply elem_of_difference. split; assumption.
  - rewrite (bool_decide_eq_false_2 _ Hd). split.
    + intros (db' & invoice' & H). discriminate H.
    + intros [H | [_ H]]; [contradiction |].
      exfalso. apply Hd. apply set_eq. intros x.
      rewrite elem_of_difference. split; [| intros Hx; apply not_elem_of_empty in Hx; contradiction].
      intros [H1 H2]. exfalso. apply H2, H, H1.
Qed.

End Acceptance.

Lemma X18_get_invoice_witness :
  invoices.get_review_questions fresh_db 1 = (fetched_db, Ok fetched_questions).
Proof.
  apply (proj1 (X18_get_invoice fresh_db 1 fresh_invoice eq_refl)
           fetched_db fresh_detail fetched_questions fetched_reason);
    vm_compute; reflexivity.
Defined.

Lemma X19_resolve_review_accepts_witness :
  exists db' invoice',
    invoices.resolve_review sample_runtime fresh_db 1 ∅ = (db', Ok invoice').
Proof.
  apply (X19_resolve_review_accepts sample_runtime fresh_db 1 fresh_invoice
           fetched_questions fetched_reason ∅).
  - reflexivity.
  - vm_compute. reflexivity.
  - vm_compute. reflexivity.
  - left. reflexivity.
Defined.

(** ** The reverse sync: counters and written values *)

Section SyncProperties.

Import storage.

Variable rt : runtime.

Lemma rstrip_rstrip (s : string) : rstrip (rstrip s) = rstrip s.
Proof.
  induction s as [|c s IH]; [reflexivity |].
  cbn [rstrip]. destruct (rstrip s) as [|d r] eqn:Hr.
  - destruct (is_space c) eqn:Hc; [reflexivity |]. cbn [rstrip]. rewrite Hc. reflexivity.
  - change (rstrip (String c (String d r))) with
      (match rstrip (String d r) with
       | EmptyString => if is_space c then EmptyString else String c EmptyString
       | r' => String c r'
       end).
    rewrite IH. reflexivity.
Qed.

Lemma lstrip_head (s : string) :
  lstrip s = "" \/ exists c r, lstrip s = String c r /\ is_space c = false.
Proof.
  induction s as [|c s IH]; [left; reflexivity |].
  cbn [lstrip]. destruct (is_space c) eqn:Hc; [exact IH |]. right. eauto.
Qed.

Lemma rstrip_head (c : ascii) (s : string) :
  is_space c = false -> exists r, rstrip (String c s) = String c r.
Proof.
  intros Hc. cbn [rstrip]. destruct (rstrip s); [rewrite Hc |]; eauto.
Qed.

Lemma strip_strip (s : string) : strip (strip s) = strip s.
Proof.
  unfold strip. destruct (lstrip_head s) as [-> | (c & r & -> & Hc)]; [reflexivity |].
  destruct (rstrip_head c r Hc) as [r' Hr]. rewrite Hr.
  cbn [lstrip]. rewrite Hc, <- Hr. apply rstrip_rstrip.
Qed.

Lemma stripped_or_none_ok (v w : pyval) :
  stripped_or_none v = Ok w -> w = PNone \/ clean_text w.
Proof.
  unfold stripped_or_none, stripped.
  destruct (py_or v (PStr "")) as [| | | |s]; try discriminate.
  cbn [bind]. destruct (String.eqb_spec (strip s) "") as [He | He]; intros [= <-].
  - left. reflexivity.
  - right. exists (strip s). split; [reflexivity |]. split; [exact He | apply strip_strip].
Qed.

Lemma paid_int_ok (v : pyval) (n : Z) : paid_int v = Some n -> n = 0%Z \/ n = 1%Z.
Proof.
  destruct v as [|b|k|x|s]; cbn [paid_int]; try discriminate; intros [= <-].
  all: match goal with |- context [if ?b then _ else _] => destruct b end; tauto.
Qed.

Lemma written_put (updates db_invoice : gmap string pyval) (key : string) (v : pyval) :
  written updates -> written_ok key v ->
  written (put_if_differs updates key v db_invoice).
Proof.
  intros Hu Hv. unfold put_if_differs. destruct (negb _); [| exact Hu].
  intros k w. destruct (decide (k = key)) as [-> | Hne].
  - rewrite lookup_insert_eq. intros [= <-]. exact Hv.
  - rewrite lookup_insert_ne by done. apply Hu.
Qed.

Lemma sheet_updates_written (record db_invoice updates : gmap string pyval) :
  sheet_updates rt record db_invoice = Ok updates -> written updates.
Proof.
  unfold sheet_updates.
  assert (H0 : written (∅ : gmap string pyval))
    by (intros k v; rewrite lookup_empty; discriminate).
  destruct (stripped_or_none (get record "vendor")) as [vendor|] eqn:Hv;
    [| discriminate].
  cbn [bind]. apply stripped_or_none_ok in Hv.
  assert (H1 : written (put_if_differs ∅ "vendor" vendor db_invoice))
    by (apply written_put; [exact H0 | exact Hv]).
  destruct (tax_update rt _ record db_invoice) as [u1|] eqn:Ht; [| discriminate].
  cbn [bind].
  assert (H2 : written u1).
  { revert Ht. unfold tax_update. destruct (negb _).
    - destruct (py_float rt _) as [x|[]]; cbn [bind]; intros [= <-];
        try exact H1. apply written_put; [exact H1 | right; eauto].
    - intros [= <-]. apply written_put; [exact H1 | left; reflexivity]. }
  destruct (stripped_or_none (get record "category")) as [category|] eqn:Hc;
    [| discriminate].
  cbn [bind]. apply stripped_or_none_ok in Hc.
  destruct (stripped_or_none (get record "payment_method")) as [payment|] eqn:Hp;
    [| discriminate].
  cbn [bind]. apply stripped_or_none_ok in Hp.
  destruct (stripped_or_none (get record "transaction_type")) as [trans|] eqn:Hy;
    [| discriminate].
  cbn [bind]. apply stripped_or_none_ok in Hy.
  destruct (stripped (get record "notes")) as [notes|] eqn:Hn; [| discriminate].
  cbn [bind]. intros [= <-].
  assert (H3 : written (put_if_differs u1 "category" category db_invoice))
    by (apply written_put; assumption).
  assert (H4 : written (put_if_differs _ "payment_method" payment db_invoice))
    by (apply written_put; [exact H3 | exact Hp]).
  assert (H5 : written (put_if_differs _ "transaction_type" trans db_invoice))
    by (apply written_put; [exact H4 | exact Hy]).
  assert (H6 : written
                 match paid_int (get record "is_paid") with
                 | Some n => put_if_differs
                               (put_if_differs
                                  (put_if_differs
                                     (put_if_differs u1 "category" category db_invoice)
                                     "payment_method" payment db_invoice)
                                  "transaction_type" trans db_invoice)
                               "is_paid" (PInt n) db_invoice
                 | None => put_if_differs
                               (put_if_differs
                                  (put_if_differs u1 "category" category db_invoice)
                                  "payment_method" payment db_invoice)
                               "transaction_type" trans db_invoice
                 end).
  { destruct (paid_int _) as [n|] eqn:Hpaid; [| exact H5].
    apply written_put; [exact H5 |].
    destruct (paid_int_ok _ _ Hpaid) as [-> | ->]; [left | right]; reflexivity. }
  destruct (negb (String.eqb notes "")) eqn:Hne; cbn [andb]; [| exact H6].
  match goal with |- context [if ?b then _ else _] => destruct b end; [| exact H6].
  intros k w. destruct (decide (k = "notes")) as [-> | Hk].
  - rewrite lookup_insert_eq. intros [= <-]. exists notes. split; [reflexivity |].
    revert Hn. unfold stripped. destruct (py_or _ _) as [| | | |s]; try discriminate.
    intros [= <-]. split; [| apply strip_strip].
    intros He. rewrite He in Hne. discriminate Hne.
  - rewrite lookup_insert_ne by done. apply H6.
Qed.

(** X20: the counters of the reverse sync. Every sheet row is counted at
    most once, as updated or as failed; a run that reports no update
    has written nothing; and a sheet row whose id is not empty and
    cannot be bound, an integer beyond 64 bits, is counted as failed
    and writes nothing. *)
Theorem X20_sync_counters (all_records : list (gmap string pyval))
    (db : gmap Z (gmap string pyval)) :
  let st := sync_from_sheets_to_db rt all_records db in
  updated_count st + error_count st <= length all_records /\
  (updated_count st = 0 -> table st = db) /\
  (forall st0 record,
     py_truthy (get record "id") = true -> bindable (get record "id") = false ->
     sync_record rt st0 record
     = {| table := table st0; updated_count := updated_count st0;
          error_count := S (error_count st0) |}) /\
  (forall n, (2 ^ 63 <= n)%Z ->
     error_count (sync_from_sheets_to_db rt [<["id" := PInt n]> ∅] db) = 1).
Proof.
  unfold sync_from_sheets_to_db.
  assert (Hstep : forall st record,
    let st' := sync_record rt st record in
    updated_count st <= updated_count st' /\
    updated_count st' + error_count st' <= S (updated_count st + error_count st) /\
    (updated_count st' = updated_count st -> table st' = table st)).
  { intros st record. unfold sync_record.
    assert (Hsame : updated_count st <= updated_count st /\
                    updated_count st + error_count st
                    <= S (updated_count st + error_count st) /\
                    (updated_count st = updated_count st -> table st = table st))
      by (split; [lia | split; [lia | reflexivity]]).
    destruct (negb (py_truthy _)); [exact Hsame |].
    destruct (negb (bindable _));
      [cbv zeta; cbn [updated_count error_count table];
       split; [lia | split; [lia | reflexivity]] |].
    destruct (sqlite_key rt _) as [key|]; [| exact Hsame].
    destruct (table st !! key) as [db_invoice|]; [| exact Hsame].
    destruct (sheet_updates rt record db_invoice) as [updates|];
      [| cbv zeta; cbn [updated_count error_count table];
         split; [lia | split; [lia | reflexivity]]].
    destruct (bool_decide _); [exact Hsame |].
    cbv zeta. cbn [updated_count error_count table].
    split; [lia | split; [lia | intros He; lia]]. }
  assert (Hgen : forall records st,
    let st' := foldl (sync_record rt) st records in
    updated_count st <= updated_count st' /\
    updated_count st' + error_count st'
    <= length records + (updated_count st + error_count st) /\
    (updated_count st' = updated_count st -> table st' = table st)).
  { induction records as [|record records IH]; intros st; cbn [foldl length].
    - cbv zeta. split; [lia | split; [lia | reflexivity]].
    - specialize (IH (sync_record rt st record)). specialize (Hstep st record).
      cbv zeta in *. destruct IH as (I1 & I2 & I3), Hstep as (S1 & S2 & S3).
      split; [lia |]. split; [lia |].
      intros He. rewrite I3 by lia. apply S3. lia. }
  specialize (Hgen all_records {| table := db; updated_count := 0; error_count := 0 |}).
  cbv zeta in *. cbn [updated_count error_count table] in Hgen.
  destruct Hgen as (_ & G2 & G3). split; [lia |]. split; [exact G3 |]. split.
  - intros st0 record Ht Hb. unfold sync_record. rewrite Ht, Hb. reflexivity.
  - intros n Hn. cbn [foldl]. unfold sync_record, get.
    rewrite lookup_insert_eq. cbn [default from_option id py_truthy bindable].
    assert (H0 : (n =? 0)%Z = false) by (apply Z.eqb_neq; lia).
    assert (H1 : (n <? 2 ^ 63)%Z = false) by (apply Z.ltb_ge; exact Hn).
    rewrite H0, H1, andb_false_r. reflexivity.
Qed.

(** X21: what the reverse sync leaves in the table. Every cell of every
    row is the cell the table held before or a value written by the
    sync: for vendor, category, payment_method and transaction_type a
    null or a non-empty text without surrounding blanks, for tax_amount
    a null or a float, for is_paid 0 or 1, and for notes a non-empty
    text without surrounding blanks, so notes are never cleared. *)
Theorem X21_sync_written_values (all_records : list (gmap string pyval))
    (db : gmap Z (gmap string pyval)) (id : Z) (row' : gmap string pyval) :
  table (sync_from_sheets_to_db rt all_records db) !! id = Some row' ->
  exists row, db !! id = Some row /\
    forall k, row' !! k = row !! k \/ exists v, row' !! k = Some v /\ written_ok k v.
Proof.
  unfold sync_from_sheets_to_db.
  assert (Hgen : forall records st row',
    table (foldl (sync_record rt) st records) !! id = Some row' ->
    exists row, table st !! id = Some row /\
      forall k, row' !! k = row !! k \/ exists v, row' !! k = Some v /\ written_ok k v).
  { induction records as [|record records IH]; intros st r'; cbn [foldl].
    - intros H. exists r'. split; [exact H | intros k; left; reflexivity].
    - intros H. destruct (IH _ _ H) as (r1 & Hr1 & Hk1). clear IH H.
      revert Hr1. unfold sync_record.
      destruct (negb (py_truthy _)); [eauto |].
      destruct (negb (bindable _)); [cbn [table]; eauto |].
      destruct (sqlite_key rt _) as [key|]; [| eauto].
      destruct (table st !! key) as [db_invoice|] eqn:Hrow; [| eauto].
      destruct (sheet_updates rt record db_invoice) as [updates|] eqn:Hu; [| eauto].
      destruct (bool_decide _); [eauto |]. cbn [table].
      destruct (decide (key = id)) as [-> | Hne].
      + rewrite lookup_insert_eq. intros [= <-]. exists db_invoice.
        split; [exact Hrow |]. intros k.
        destruct (Hk1 k) as [Hk | Hk]; [| right; exact Hk].
        rewrite Hk. unfold update_row.
        destruct (updates !! k) as [v|] eqn:Hv.
        * right. exists v. split; [apply lookup_union_Some_l; exact Hv |].
          apply (sheet_updates_written _ _ _ Hu k v Hv).
        * left. apply lookup_union_r. exact Hv.
      + rewrite lookup_insert_ne by done. eauto. }
  apply Hgen.
Qed.

End SyncProperties.

Section SyncTwice.

Import storage.

Variable rt : runtime.

Lemma float_eqb_refl (x : float) : PyFloat.is_nan x = false -> PyFloat.eqb x x = true.
Proof.
  unfold PyFloat.eqb, SFeqb. destruct x as [s|s| |s m e]; cbn [SFcompare PyFloat.is_nan];
    try discriminate; intros _; try (destruct s; reflexivity).
  rewrite Z.compare_refl, Pos.compare_cont_refl. destruct s; reflexivity.
Qed.

Lemma py_eq_refl (v : pyval) :
  (forall x, v = PFloat x -> PyFloat.is_nan x = false) -> py_eq v v = true.
Proof.
  intros H. destruct v as [|b|n|x|s]; cbn [py_eq].
  - reflexivity.
  - destruct b; reflexivity.
  - apply Z.eqb_refl.
  - apply float_eqb_refl, H. reflexivity.
  - apply String.eqb_refl.
Qed.

Lemma get_union (updates row : gmap string pyval) (k : string) :
  get (updates ∪ row) k = default (get row k) (updates !! k).
Proof.
  unfold get. destruct (updates !! k) as [v|] eqn:Hv.
  - rewrite (lookup_union_Some_l _ _ _ _ Hv). reflexivity.
  - rewrite (lookup_union_r _ _ _ Hv). reflexivity.
Qed.

Lemma put_ne (updates row : gmap string pyval) (key k : string) (v : pyval) :
  k <> key -> put_if_differs updates key v row !! k = updates !! k.
Proof.
  intros Hk. unfold put_if_differs. destruct (negb _); [| reflexivity].
  apply lookup_insert_ne. congruence.
Qed.

Lemma put_again (updates other row row' : gmap string pyval) (key : string) (v : pyval) :
  (forall x, v = PFloat x -> PyFloat.is_nan x = false) ->
  updates !! key = None ->
  get row' key = default (get row key) (put_if_differs updates key v row !! key) ->
  put_if_differs other key v row' = other.
Proof.
  intros Hv Hu. unfold put_if_differs.
  destruct (py_eq v (get row key)) eqn:He; cbn [negb].
  - rewrite Hu. cbn [default from_option id]. intros ->. rewrite He. reflexivity.
  - rewrite lookup_insert_eq. cbn [default from_option id]. intros ->.
    rewrite py_eq_refl by exact Hv. reflexivity.
Qed.

Lemma tax_ne (updates updates' record row : gmap string pyval) (k : string) :
  tax_update rt updates record row = Ok updates' -> k <> "tax_amount" ->
  updates' !! k = updates !! k.
Proof.
  unfold tax_update. intros H Hk. destruct (negb _).
  - destruct (py_float rt _) as [x|[]]; cbn [bind] in H;
      first [discriminate H | injection H as <-]; try reflexivity.
    apply put_ne. exact Hk.
  - injection H as <-. apply put_ne. exact Hk.
Qed.

Lemma tax_again (updates updates' other record row row' : gmap string pyval) :
  (forall x, py_float rt (get record "tax_amount") = Ok x -> PyFloat.is_nan x = false) ->
  tax_update rt updates record row = Ok updates' ->
  updates !! "tax_amount" = None ->
  get row' "tax_amount" = default (get row "tax_amount") (updates' !! "tax_amount") ->
  tax_update rt other record row' = Ok other.
Proof.
  intros Hnan. unfold tax_update. destruct (negb _).
  - destruct (py_float rt (get record "tax_amount")) as [x|e] eqn:Hf; cbn [bind].
    + intros [= <-] Hu Hr. f_equal.
      apply (put_again updates other row row' "tax_amount" (PFloat x)); try assumption.
      intros y [= <-]. apply Hnan. reflexivity.
    + destruct e; try discriminate; reflexivity.
  - intros [= <-] Hu Hr. f_equal.
    apply (put_again updates other row row' "tax_amount" PNone); try assumption.
    discriminate.
Qed.

Lemma sheet_updates_again (record row updates : gmap string pyval) :
  (forall x, py_float rt (get record "tax_amount") = Ok x -> PyFloat.is_nan x = false) ->
  sheet_updates rt record row = Ok updates ->
  sheet_updates rt record (update_row updates row) = Ok ∅.
Proof.
  intros Hnan. unfold sheet_updates, update_row.
  destruct (stripped_or_none (get record "vendor")) as [vendor|] eqn:Hv;
    [| discriminate].
  cbn [bind].
  destruct (tax_update rt _ record row) as [u1|] eqn:Ht; [| discriminate].
  cbn [bind].
  destruct (stripped_or_none (get record "category")) as [category|] eqn:Hc;
    [| discriminate].
  cbn [bind].
  destruct (stripped_or_none (get record "payment_method")) as [payment|] eqn:Hp;
    [| discriminate].
  cbn [bind].
  destruct (stripped_or_none (get record "transaction_type")) as [trans|] eqn:Hy;
    [| discriminate].
  cbn [bind].
  destruct (stripped (get record "notes")) as [notes|] eqn:Hn; [| discriminate].
  cbn [bind].
  assert (Htext : forall w raw, stripped_or_none raw = Ok w ->
                    forall x, w = PFloat x -> PyFloat.is_nan x = false).
  { intros w raw H x ->. revert H. unfold stripped_or_none, stripped.
    destruct (py_or raw (PStr "")); try discriminate. cbn [bind].
    destruct (String.eqb _ _); discriminate. }
  assert (Ht1 : forall k, k <> "tax_amount" ->
                  u1 !! k = put_if_differs ∅ "vendor" vendor row !! k)
    by (intros k; apply (tax_ne _ _ _ _ k Ht)).
  set (uC := put_if_differs u1 "category" category row).
  set (uP := put_if_differs uC "payment_method" payment row).
  set (uY := put_if_differs uP "transaction_type" trans row).
  set (uI := match paid_int (get record "is_paid") with
             | Some n => put_if_differs uY "is_paid" (PInt n) row
             | None => uY
             end).
  set (cond := negb (String.eqb notes "")
               && negb (py_eq (PStr notes) (py_or (get row "notes") (PStr "")))).
  intros [= <-].
  set (U := if cond then <["notes" := PStr notes]> uI else uI).
  assert (HI : forall k, k <> "notes" -> U !! k = uI !! k).
  { intros k Hk. subst U. destruct cond; [| reflexivity].
    apply lookup_insert_ne. congruence. }
  assert (HY : forall k, k <> "is_paid" -> uI !! k = uY !! k).
  { intros k Hk. subst uI. destruct (paid_int _); [| reflexivity].
    apply put_ne. exact Hk. }
  assert (Hvendor : put_if_differs ∅ "vendor" vendor (U ∪ row) = ∅).
  { apply (put_again ∅ ∅ row); [exact (Htext _ _ Hv) | apply lookup_empty |].
    rewrite get_union, HI, HY by discriminate. subst uY uP uC.
    rewrite !put_ne by discriminate. rewrite Ht1 by discriminate. reflexivity. }
  rewrite Hvendor.
  assert (Htax : tax_update rt ∅ record (U ∪ row) = Ok ∅).
  { apply (tax_again _ _ ∅ record row (U ∪ row) Hnan Ht).
    - rewrite put_ne by discriminate. apply lookup_empty.
    - rewrite get_union, HI, HY by discriminate. subst uY uP uC.
      rewrite !put_ne by discriminate. reflexivity. }
  rewrite Htax. cbn [bind].
  assert (H0 : forall k, k <> "tax_amount" -> k <> "vendor" -> u1 !! k = None).
  { intros k H1 H2. rewrite Ht1 by exact H1. rewrite put_ne by exact H2.
    apply lookup_empty. }
  assert (Hcategory : put_if_differs ∅ "category" category (U ∪ row) = ∅).
  { apply (put_again u1 ∅ row); [exact (Htext _ _ Hc) | apply H0; discriminate |].
    rewrite get_union, HI, HY by discriminate. subst uY uP.
    rewrite !put_ne by discriminate. reflexivity. }
  rewrite Hcategory.
  assert (Hpayment : put_if_differs ∅ "payment_method" payment (U ∪ row) = ∅).
  { apply (put_again uC ∅ row); [exact (Htext _ _ Hp) | |].
    - subst uC. rewrite put_ne by discriminate. apply H0; discriminate.
    - rewrite get_union, HI, HY by discriminate. subst uY.
      rewrite !put_ne by discriminate. reflexivity. }
  rewrite Hpayment.
  assert (Htrans : put_if_differs ∅ "transaction_type" trans (U ∪ row) = ∅).
  { apply (put_again uP ∅ row); [exact (Htext _ _ Hy) | |].
    - subst uP uC. rewrite !put_ne by discriminate. apply H0; discriminate.
    - rewrite get_union, HI, HY by discriminate. reflexivity. }
  rewrite Htrans.
  assert (HuY : forall k, k <> "category" -> k <> "payment_method" ->
                  k <> "transaction_type" -> k <> "tax_amount" -> k <> "vendor" ->
                  uY !! k = None).
  { intros k H1 H2 H3 H4 H5. subst uY uP uC. rewrite !put_ne by assumption.
    apply H0; assumption. }
  assert (Hpaid : match paid_int (get record "is_paid") with
                  | Some n => put_if_differs ∅ "is_paid" (PInt n) (U ∪ row)
                  | None => ∅
                  end = ∅).
  { subst uI. destruct (paid_int (get record "is_paid")) as [n|]; [| reflexivity].
    apply (put_again uY ∅ row); [discriminate | apply HuY; discriminate |].
    rewrite get_union, HI by discriminate. reflexivity. }
  rewrite Hpaid.
  assert (Hnotes : negb (String.eqb notes "")
                   && negb (py_eq (PStr notes)
                              (py_or (get (U ∪ row) "notes") (PStr ""))) = false).
  { rewrite get_union. subst U cond.
    destruct (negb (String.eqb notes "")) eqn:Hne; cbn [andb]; [| reflexivity].
    destruct (negb (py_eq (PStr notes) (py_or (get row "notes") (PStr "")))) eqn:Hd.
    - rewrite lookup_insert_eq. cbn [default from_option id].
      unfold py_or. cbn [py_truthy]. rewrite Hne. cbn [py_eq].
      rewrite String.eqb_refl. reflexivity.
    - assert (Hnone : uI !! "notes" = None)
        by (rewrite HY by discriminate; apply HuY; discriminate).
      rewrite Hnone. cbn [default from_option id]. exact Hd. }
  rewrite Hnotes. reflexivity.
Qed.

(** X22: applying a sheet row a second time changes nothing. Unless the
    tax cell of the row converts to NaN, a second pass over the same row
    finds no difference: it writes nothing and counts no update. *)
Theorem X22_sync_record_twice (st : sync_state) (record : gmap string pyval) :
  (forall x, py_float rt (get record "tax_amount") = Ok x -> PyFloat.is_nan x = false) ->
  let once := sync_record rt st record in
  let twice := sync_record rt once record in
  table twice = table once /\ updated_count twice = updated_count once.
Proof.
  intros Hnan. cbv zeta. unfold sync_record at 2 4.
  destruct (negb (py_truthy (get record "id"))) eqn:Hid; [split; reflexivity |].
  destruct (negb (bindable (get record "id"))) eqn:Hbind.
  { unfold sync_record. rewrite Hid, Hbind. split; reflexivity. }
  destruct (sqlite_key rt (get record "id")) as [key|] eqn:Hkey; [| split; reflexivity].
  unfold sync_record. rewrite Hid, Hbind, Hkey.
  destruct (table st !! key) as [row|] eqn:Hrow.
  2:{ rewrite Hrow. split; reflexivity. }
  destruct (sheet_updates rt record row) as [updates|e] eqn:Hu.
  2:{ cbn [table]. rewrite Hrow, Hu. split; reflexivity. }
  destruct (bool_decide (updates = ∅)) eqn:He.
  { rewrite Hrow, Hu, He. split; reflexivity. }
  cbn [table]. rewrite lookup_insert_eq.
  rewrite (sheet_updates_again record row updates Hnan Hu).
  rewrite bool_decide_eq_true_2 by reflexivity. split; reflexivity.
Qed.

End SyncTwice.

Lemma X21_sync_written_values_witness :
  exists row, ({[ 7%Z := stored_row ]} : gmap Z (gmap string pyval)) !! 7%Z = Some row /\
    forall k, synced_row !! k = row !! k \/
              exists v, synced_row !! k = Some v /\ written_ok k v.
Proof.
  apply (X21_sync_written_values sample_runtime [edited_row]
           {[ 7%Z := stored_row ]} 7 synced_row).
  vm_compute. reflexivity.
Defined.

Lemma X22_sync_record_twice_witness :
  storage.table
    (storage.sync_record sample_runtime
       (storage.sync_record sample_runtime stored_state taxed_row) taxed_row)
  = storage.table (storage.sync_record sample_runtime stored_state taxed_row).
Proof.
  apply (X22_sync_record_twice sample_runtime stored_state taxed_row).
  intros x H. vm_compute in H. injection H as <-. reflexivity.
Defined.

(** ** Vendor names, categories and transaction types *)

Section VendorProperties.

Import services_ocr_llm.

Lemma contains_empty (pattern : string) :
  pattern <> "" -> contains pattern "" = false.
Proof. destruct pattern; [congruence | reflexivity]. Qed.

Lemma contains_du_lstrip (s : string) :
  contains "du" s = true -> contains "du" (lstrip s) = true.
Proof.
  induction s as [|c s IH]; [discriminate |].
  cbn [lstrip]. destruct (is_space c) eqn:Hc; [| tauto].
  cbn [contains String.prefix]. destruct (ascii_dec "d" c) as [<- | _];
    [vm_compute in Hc; discriminate Hc |]. exact IH.
Qed.

Lemma contains_du_rstrip (s : string) :
  contains "du" s = true -> contains "du" (rstrip s) = true.
Proof.
  induction s as [|c s IH]; [discriminate |].
  intros H. cbn [contains] in H. apply orb_true_iff in H as [H | H].
  - cbn [String.prefix] in H. destruct (ascii_dec "d" c) as [<- | _]; [| discriminate H].
    destruct s as [|c' t]; cbn [String.prefix] in H; [discriminate H |].
    destruct (ascii_dec "u" c') as [<- | _]; [| discriminate H].
    destruct (rstrip_head "u" t eq_refl) as [r Hr].
    cbn [rstrip] in Hr |- *. rewrite Hr. cbn [contains]. apply orb_true_iff. left.
    cbn. destruct r; reflexivity.
  - specialize (IH H). cbn [rstrip]. destruct (rstrip s) as [|d r] eqn:Hr;
      [discriminate IH |].
    cbn [contains]. cbn [contains] in IH. rewrite IH. apply orb_true_r.
Qed.

Lemma normalize_du (raw_vendor : string) :
  contains "du" (lower raw_vendor) = true ->
  normalize_vendor_name raw_vendor = "DEWA" \/
  normalize_vendor_name raw_vendor = "Etisalat" \/
  normalize_vendor_name raw_vendor = "du".
Proof.
  intros H. unfold normalize_vendor_name.
  destruct raw_vendor as [|c s]; [discriminate H |]. cbn [String.eqb].
  apply contains_du_lstrip, contains_du_rstrip in H. fold (strip (lower (String c s))) in H.
  cbv zeta. unfold UAE_VENDOR_NORMALIZATION. cbn [List.find fst]. rewrite H.
  repeat match goal with
         | |- context [if contains ?p ?t then _ else _] => destruct (contains p t)
         end; tauto.
Qed.

(** X23: the pattern du shadows every later pattern. A vendor whose
    name contains the letters du, in any case, is normalised to DEWA,
    Etisalat or du, whatever else the name says; whatever the text, its
    category is then Occupancy & Facilities or Telecom & Connectivity
    and its transaction type operational_expense. *)
Theorem X23_vendor_du_shadowing (raw_vendor text : string) :
  contains "du" (lower raw_vendor) = true ->
  (normalize_vendor_name raw_vendor = "DEWA" \/
   normalize_vendor_name raw_vendor = "Etisalat" \/
   normalize_vendor_name raw_vendor = "du") /\
  (detect_category_from_text text (Some raw_vendor) = Some "Occupancy & Facilities" \/
   detect_category_from_text text (Some raw_vendor) = Some "Telecom & Connectivity") /\
  detect_transaction_type text (Some raw_vendor) = "operational_expense".
Proof.
  intros H. pose proof (normalize_du raw_vendor H) as Hn.
  split; [exact Hn |]. split.
  - unfold detect_category_from_text, falsy_str.
    destruct raw_vendor as [|c s]; [discriminate H |].
    cbn [String.eqb negb default from_option id].
    destruct Hn as [-> | [-> | ->]]; [left | right | right]; reflexivity.
  - unfold detect_transaction_type. cbv zeta. cbn [default from_option id].
    assert (He : existsb (fun keyword =>
                            contains keyword (lower text)
                            || contains keyword (lower raw_vendor))
                         OPERATIONAL_EXPENSE_KEYWORDS = true).
    { apply existsb_exists. exists "du". split.
      - unfold OPERATIONAL_EXPENSE_KEYWORDS. cbn [In]. tauto.
      - rewrite H. apply orb_true_r. }
    rewrite He. reflexivity.
Qed.

Lemma incr_keys (category : string) (scores : list (string * nat)) :
  fst <$> incr category scores = fst <$> scores.
Proof.
  unfold incr. induction scores as [|item scores IH]; [reflexivity |].
  cbn [fmap list_fmap]. f_equal; [| exact IH].
  destruct (String.eqb _ _); reflexivity.
Qed.

Lemma incr_other (category : string) (scores : list (string * nat)) :
  category <> DEFAULT_CATEGORY ->
  Forall (fun item => fst item = DEFAULT_CATEGORY -> snd item = 0) scores ->
  Forall (fun item => fst item = DEFAULT_CATEGORY -> snd item = 0) (incr category scores).
Proof.
  intros Hc. unfold incr. induction 1 as [|item scores Hi Hs IH]; [constructor |].
  cbn [fmap list_fmap]. constructor; [| exact IH].
  destruct (String.eqb_spec (fst item) category) as [He | He]; [| exact Hi].
  cbn [fst snd]. intros Hd. congruence.
Qed.

Lemma keyword_scores_shape (text_lower : string) :
  fst <$> keyword_scores text_lower = UAE_CATEGORIES /\
  Forall (fun item => fst item = DEFAULT_CATEGORY -> snd item = 0)
         (keyword_scores text_lower).
Proof.
  unfold keyword_scores.
  assert (Hinner : forall category keywords scores,
    category <> DEFAULT_CATEGORY ->
    fst <$> scores = UAE_CATEGORIES /\
    Forall (fun item => fst item = DEFAULT_CATEGORY -> snd item = 0) scores ->
    let scores' :=
      foldl (fun category_scores keyword =>
               if contains keyword text_lower
               then incr category category_scores else category_scores)
            scores keywords in
    fst <$> scores' = UAE_CATEGORIES /\
    Forall (fun item => fst item = DEFAULT_CATEGORY -> snd item = 0) scores').
  { intros category keywords. induction keywords as [|keyword keywords IH];
      intros scores Hc Hs; cbn [foldl]; [exact Hs |].
    apply IH; [exact Hc |]. destruct (contains keyword text_lower); [| exact Hs].
    destruct Hs as [H1 H2]. split; [rewrite incr_keys; exact H1 |].
    apply incr_other; assumption. }
  assert (Houter : forall items scores,
    Forall (fun item : string * list string => fst item <> DEFAULT_CATEGORY) items ->
    fst <$> scores = UAE_CATEGORIES /\
    Forall (fun item => fst item = DEFAULT_CATEGORY -> snd item = 0) scores ->
    let scores' :=
      foldl (fun category_scores item =>
               foldl (fun category_scores keyword =>
                        if contains keyword text_lower
                        then incr (fst item) category_scores else category_scores)
                     category_scores (snd item))
            scores items in
    fst <$> scores' = UAE_CATEGORIES /\
    Forall (fun item => fst item = DEFAULT_CATEGORY -> snd item = 0) scores').
  { induction items as [|item items IH]; intros scores Hi Hs; cbn [foldl];
      [exact Hs |].
    apply Forall_cons in Hi as [Hc Hi]. apply IH; [exact Hi |].
    apply Hinner; assumption. }
  apply Houter.
  - unfold CATEGORY_KEYWORDS. repeat (apply Forall_cons; split; [discriminate |]).
    apply Forall_nil. exact I.
  - split; [reflexivity |]. unfold UAE_CATEGORIES. cbn [fmap list_fmap].
    repeat (apply Forall_cons; split; [cbn [fst snd]; intros _; reflexivity |]).
    apply Forall_nil. exact I.
Qed.

Lemma vendor_category_known (vendor category : string) :
  assoc vendor VENDOR_TO_CATEGORY = Some category ->
  category ∈ UAE_CATEGORIES /\ category <> DEFAULT_CATEGORY.
Proof.
  unfold VENDOR_TO_CATEGORY. cbn [assoc].
  assert (Hknown : forall c, In c (removelast UAE_CATEGORIES) ->
                     Some c = Some category ->
                     category ∈ UAE_CATEGORIES /\ category <> DEFAULT_CATEGORY).
  { intros c Hc [= <-]. split.
    - apply list_elem_of_In. revert Hc. unfold UAE_CATEGORIES. cbn [removelast In].
      tauto.
    - revert Hc. unfold UAE_CATEGORIES, DEFAULT_CATEGORY. cbn [removelast In].
      intros H; repeat (destruct H as [<- | H]; [discriminate |]); contradiction. }
  repeat match goal with
         | |- context [if String.eqb ?k ?v then _ else _] =>
             destruct (String.eqb k v);
             [apply Hknown; unfold UAE_CATEGORIES; cbn [removelast In];
              repeat (first [left; reflexivity | right]) |]
         end.
  discriminate.
Qed.

Lemma detect_category_known (text : string) (vendor : option string)
    (category : string) :
  detect_category_from_text text vendor = Some category ->
  category ∈ UAE_CATEGORIES /\ category <> DEFAULT_CATEGORY.
Proof.
  unfold detect_category_from_text.
  destruct (if negb (falsy_str vendor) then _ else None) as [c|] eqn:Hv.
  - intros [= <-]. destruct (negb _); [| discriminate Hv].
    apply (vendor_category_known _ _ Hv).
  - clear Hv. cbv zeta.
    destruct (keyword_scores_shape (lower text)) as [Hk Hd].
    destruct (2 <=? _)%nat eqn:Hmax; [| discriminate].
    destruct (List.find _ _) as [item|] eqn:Hf; [| discriminate].
    intros [= <-]. apply find_some in Hf as [Hin Hs].
    apply Nat.leb_le in Hmax. apply Nat.eqb_eq in Hs.
    split.
    + rewrite <- Hk. apply list_elem_of_fmap. exists item.
      split; [reflexivity | apply list_elem_of_In; exact Hin].
    + intros Hdef. rewrite Forall_forall in Hd.
      apply list_elem_of_In in Hin. specialize (Hd item Hin Hdef). lia.
Qed.

(** X24: the category detected before the LLM is a known one. Whatever
    the text and the vendor, a detected category belongs to the list of
    categories and is never the default category Other Business
    Expenses. *)
Theorem X24_detect_category_known (text : string) (vendor : option string)
    (category : string) :
  detect_category_from_text text vendor = Some category ->
  category ∈ UAE_CATEGORIES /\ category <> DEFAULT_CATEGORY.
Proof. apply detect_category_known. Qed.

Lemma is_space_lower (c : ascii) : is_space c = true -> lower_char c = c.
Proof.
  destruct c as [[] [] [] [] [] [] [] []]; vm_compute; intros H;
    first [reflexivity | discriminate H].
Qed.

Lemma lstrip_lower_empty (s : string) : lstrip s = "" -> lstrip (lower s) = "".
Proof.
  induction s as [|c s IH]; [reflexivity |].
  cbn [lstrip lower]. destruct (is_space c) eqn:Hc; [| discriminate].
  rewrite (is_space_lower c Hc), Hc. exact IH.
Qed.

Lemma strip_empty (s : string) : strip s = "" -> lstrip s = "".
Proof.
  unfold strip. destruct (lstrip_head s) as [-> | (c & r & -> & Hc)]; [reflexivity |].
  destruct (rstrip_head c r Hc) as [r' ->]. discriminate.
Qed.

(** X25: the edges of the vendor normalisation. The empty name gives
    Unknown Vendor, but a name of blanks only gives the empty string;
    and every result is free of surrounding blanks. *)
Theorem X25_normalize_vendor_name_edges (raw_vendor : string) :
  (raw_vendor = "" -> normalize_vendor_name raw_vendor = "Unknown Vendor") /\
  (raw_vendor <> "" -> strip raw_vendor = "" -> normalize_vendor_name raw_vendor = "") /\
  strip (normalize_vendor_name raw_vendor) = normalize_vendor_name raw_vendor.
Proof.
  split; [intros ->; reflexivity |]. split.
  - intros Hne Hs. unfold normalize_vendor_name.
    destruct (String.eqb_spec raw_vendor "") as [He | _]; [contradiction |].
    cbv zeta. unfold strip at 1.
    rewrite (lstrip_lower_empty _ (strip_empty _ Hs)), Hs. reflexivity.
  - unfold normalize_vendor_name.
    destruct (String.eqb raw_vendor ""); [reflexivity |]. cbv zeta.
    destruct (List.find _ _) as [[pattern normalized]|] eqn:Hf.
    + apply find_some in Hf as [Hin _]. revert Hin.
      unfold UAE_VENDOR_NORMALIZATION. cbn [In].
      intros H; repeat (destruct H as [[= <- <-] | H]; [reflexivity |]); contradiction.
    + assert (Hgen : forall suffixes vendor_clean,
        strip vendor_clean = vendor_clean ->
        strip (foldl (fun vendor_clean suffix =>
                        if endswith (upper vendor_clean) suffix
                        then strip (drop_end (String.length suffix) vendor_clean)
                        else vendor_clean) vendor_clean suffixes)
        = foldl (fun vendor_clean suffix =>
                   if endswith (upper vendor_clean) suffix
                   then strip (drop_end (String.length suffix) vendor_clean)
                   else vendor_clean) vendor_clean suffixes).
      { induction suffixes as [|suffix suffixes IH]; intros v Hv; cbn [foldl];
          [exact Hv |].
        apply IH. destruct (endswith _ _); [apply strip_strip | exact Hv]. }
      apply Hgen, strip_strip.
Qed.

(** X26: the checks on the answer of the LLM. The category kept for an
    extraction is falsy or one of the categories of the list, whatever
    the LLM answered; and the transaction type is b2b or
    operational_expense. *)
Theorem X26_checked_fields (category transaction_type : pyval) (text : string)
    (vendor : option string) :
  let kept := checked_category category (detect_category_from_text text None) in
  (py_truthy kept = true -> exists c, kept = PStr c /\ c ∈ UAE_CATEGORIES) /\
  (checked_transaction_type transaction_type text vendor = PStr "b2b" \/
   checked_transaction_type transaction_type text vendor = PStr "operational_expense").
Proof.
  cbv zeta. split.
  - unfold checked_category.
    destruct (detect_category_from_text text None) as [rule|] eqn:Hr.
    + destruct (detect_category_known _ _ _ Hr) as [Hin Hne].
      assert (Hrule : falsy_str (Some rule) = false).
      { cbn [falsy_str]. apply String.eqb_neq. intros ->. revert Hin. clear.
        unfold UAE_CATEGORIES. rewrite list_elem_of_In. cbn [In].
        intros H; repeat (destruct H as [H | H]; [discriminate H |]); contradiction. }
      rewrite Hrule. cbn [negb default from_option id].
      destruct (py_truthy category) eqn:Ht; cbn [andb negb].
      * destruct (in_strings category UAE_CATEGORIES) eqn:Hc; cbn [negb];
          [| intros _; eauto].
        intros _. destruct category as [| | | |s]; try discriminate Hc.
        exists s. split; [reflexivity |]. apply bool_decide_eq_true_1 in Hc. exact Hc.
      * intros _. eauto.
    + cbn [falsy_str negb andb]. rewrite andb_false_r.
      destruct (py_truthy category) eqn:Ht; cbn [andb]; [| congruence].
      destruct (in_strings category UAE_CATEGORIES) eqn:Hc; cbn [negb].
      * intros _. destruct category as [| | | |s]; try discriminate Hc.
        exists s. split; [reflexivity |]. apply bool_decide_eq_true_1 in Hc. exact Hc.
      * intros _. exists DEFAULT_CATEGORY. split; [reflexivity |].
        unfold UAE_CATEGORIES, DEFAULT_CATEGORY. rewrite list_elem_of_In. cbn [In].
        repeat (first [left; reflexivity | right]).
  - unfold checked_transaction_type.
    destruct (negb (py_truthy transaction_type)); cbn [orb].
    { unfold detect_transaction_type. cbv zeta. destruct (existsb _ _); tauto. }
    destruct (in_strings transaction_type _) eqn:Hc; cbn [negb].
    + destruct transaction_type as [| | | |s]; try discriminate Hc.
      apply bool_decide_eq_true_1 in Hc. revert Hc. rewrite !elem_of_cons, elem_of_nil.
      intros [-> | [-> | []]]; tauto.
    + unfold detect_transaction_type. cbv zeta. destruct (existsb _ _); tauto.
Qed.

End VendorProperties.

Lemma X23_vendor_du_shadowing_witness :
  services_ocr_llm.normalize_vendor_name municipality = "du" /\
  services_ocr_llm.detect_category_from_text "" (Some municipality)
  = Some "Telecom & Connectivity" /\
  services_ocr_llm.detect_transaction_type "" (Some municipality)
  = "operational_expense".
Proof.
  destruct (X23_vendor_du_shadowing municipality "") as (_ & _ & H3);
    [vm_compute; reflexivity |].
  split; [vm_compute; reflexivity |]. split; [vm_compute; reflexivity | exact H3].
Defined.

Lemma X24_detect_category_known_witness :
  "Travel & Transport" ∈ services_ocr_llm.UAE_CATEGORIES /\
  "Travel & Transport" <> services_ocr_llm.DEFAULT_CATEGORY.
Proof.
  apply (X24_detect_category_known "Taxi to the hotel" None).
  vm_compute. reflexivity.
Defined.

Lemma X25_normalize_vendor_name_edges_witness :
  services_ocr_llm.normalize_vendor_name "  " = "".
Proof.
  apply (proj1 (proj2 (X25_normalize_vendor_name_edges "  ")));
    [discriminate | reflexivity].
Defined.

(** ** Slugs of file names *)

Section Slugs.

Import file_organizer.

Lemma append_cons (c : ascii) (a b : string) :
  (String c a ++ b)%string = String c (a ++ b)%string.
Proof. reflexivity. Qed.

Lemma append_empty_r (s : string) : (s ++ "")%string = s.
Proof.
  induction s as [|c s IH]; [reflexivity |]. rewrite append_cons, IH. reflexivity.
Qed.

Lemma all_chars_true (p : ascii -> bool) (s : string) :
  (forall c, p c = true) -> all_chars p s = true.
Proof.
  intros H. induction s as [|c s IH]; [reflexivity |].
  cbn [all_chars]. rewrite H, IH. reflexivity.
Qed.

Lemma all_chars_impl (p q : ascii -> bool) (s : string) :
  (forall c, p c = true -> q c = true) -> all_chars p s = true -> all_chars q s = true.
Proof.
  intros H. induction s as [|c s IH]; [reflexivity |].
  cbn [all_chars]. rewrite !andb_true_iff. intros [H1 H2]. auto.
Qed.

Lemma all_chars_app (p : ascii -> bool) (a b : string) :
  all_chars p (a ++ b) = all_chars p a && all_chars p b.
Proof.
  induction a as [|c a IH]; [reflexivity |].
  rewrite append_cons. cbn [all_chars]. rewrite IH. apply andb_assoc.
Qed.

Lemma all_chars_sub_runs (q class : ascii -> bool) (inside : bool) (s : string) :
  q "_"%char = true ->
  all_chars (fun c => class c || q c) s = true ->
  all_chars q (sub_runs class inside s) = true.
Proof.
  intros Hu. revert inside. induction s as [|c s IH]; intros inside; [reflexivity |].
  cbn [all_chars sub_runs]. rewrite andb_true_iff. intros [Hc Hs].
  destruct (class c); cbn [orb] in Hc.
  - destruct inside; [apply IH, Hs |]. cbn [all_chars]. rewrite Hu. apply IH, Hs.
  - cbn [all_chars]. rewrite Hc. apply IH, Hs.
Qed.

Lemma lstrip_by_suffix (chars : ascii -> bool) (s : string) :
  exists t, s = t ++ lstrip_by chars s.
Proof.
  induction s as [|c s [t IH]]; [exists ""; reflexivity |].
  cbn [lstrip_by]. destruct (chars c); [| exists ""; reflexivity].
  exists (String c t). rewrite append_cons. f_equal. exact IH.
Qed.

Lemma rstrip_by_prefix (chars : ascii -> bool) (s : string) :
  exists t, s = rstrip_by chars s ++ t.
Proof.
  induction s as [|c s [t IH]]; [exists ""; reflexivity |].
  cbn [rstrip_by]. destruct (rstrip_by chars s) as [|d r].
  - destruct (chars c); [exists (String c s); reflexivity |].
    exists t. rewrite append_cons. f_equal. exact IH.
  - exists t. rewrite append_cons. f_equal. exact IH.
Qed.

Lemma substring_prefix (n : nat) (s : string) :
  exists t, s = substring 0 n s ++ t.
Proof.
  revert s. induction n as [|n IH]; intros s.
  - exists s. destruct s; reflexivity.
  - destruct s as [|c s]; [exists ""; reflexivity |].
    destruct (IH s) as [t Ht]. exists t. cbn [substring]. rewrite append_cons.
    f_equal. exact Ht.
Qed.

Lemma substring_length (n : nat) (s : string) :
  String.length (substring 0 n s) <= n.
Proof.
  revert s. induction n as [|n IH]; intros s.
  - destruct s; cbn; lia.
  - destruct s as [|c s]; cbn [substring String.length]; [lia |].
    specialize (IH s). lia.
Qed.

Lemma slice_to_prefix (n : Z) (s : string) : exists t, s = slice_to n s ++ t.
Proof. unfold slice_to. destruct (0 <=? n)%Z; apply substring_prefix. Qed.

Lemma no_double_tail (c : ascii) (s : string) :
  no_double (String c s) = true -> no_double s = true.
Proof.
  destruct s as [|d r]; [reflexivity |].
  change (no_double (String c (String d r)))
    with (negb (is_underscore c && is_underscore d) && no_double (String d r)).
  rewrite andb_true_iff. tauto.
Qed.

Lemma no_double_app_r (a b : string) : no_double (a ++ b) = true -> no_double b = true.
Proof.
  induction a as [|c a IH]; [tauto |].
  rewrite append_cons. intros H. apply IH, (no_double_tail c), H.
Qed.

Lemma no_double_app_l (a b : string) : no_double (a ++ b) = true -> no_double a = true.
Proof.
  induction a as [|c a IH]; [reflexivity |].
  rewrite append_cons. intros H. pose proof (no_double_tail _ _ H) as Ht.
  destruct a as [|d r]; [reflexivity |].
  rewrite append_cons in H, Ht, IH.
  change (no_double (String c (String d (r ++ b))))
    with (negb (is_underscore c && is_underscore d) && no_double (String d (r ++ b))) in H.
  change (no_double (String c (String d r)))
    with (negb (is_underscore c && is_underscore d) && no_double (String d r)).
  apply andb_true_iff in H as [H1 _]. rewrite H1. apply IH, Ht.
Qed.

Lemma no_double_sub_runs (inside : bool) (s : string) :
  no_double (sub_runs is_underscore inside s) = true /\
  (inside = true -> String.prefix "_" (sub_runs is_underscore inside s) = false).
Proof.
  revert inside. induction s as [|c s IH]; intros inside; [split; reflexivity |].
  cbn [sub_runs]. destruct (is_underscore c) eqn:Hc.
  - destruct inside.
    + apply IH.
    + destruct (IH true) as [H1 H2]. specialize (H2 eq_refl). split; [| discriminate].
      destruct (sub_runs is_underscore true s) as [|d r]; [reflexivity |].
      change (no_double (String "_" (String d r)))
        with (negb (is_underscore "_" && is_underscore d) && no_double (String d r)).
      rewrite H1, andb_true_r. cbn [String.prefix] in H2.
      destruct (ascii_dec "_" d) as [<- | Hd].
      * destruct r; discriminate H2.
      * unfold is_underscore. rewrite (proj2 (Ascii.eqb_neq d "_")) by congruence.
        reflexivity.
  - destruct (IH false) as [H1 _]. split.
    + destruct (sub_runs is_underscore false s) as [|d r]; [reflexivity |].
      change (no_double (String c (String d r)))
        with (negb (is_underscore c && is_underscore d) && no_double (String d r)).
      rewrite Hc, H1. reflexivity.
    + intros _. cbn [String.prefix]. destruct (ascii_dec "_" c) as [<- | _];
        [discriminate Hc | reflexivity].
Qed.

Lemma contains_double (s : string) : no_double s = true -> contains "__" s = false.
Proof.
  induction s as [|c s IH]; [reflexivity |].
  intros H. cbn [contains]. rewrite (IH (no_double_tail _ _ H)), orb_false_r.
  cbn [String.prefix]. destruct (ascii_dec "_" c) as [<- | _]; [| reflexivity].
  destruct s as [|d r]; [reflexivity |]. cbn [String.prefix].
  destruct (ascii_dec "_" d) as [<- | _]; [| reflexivity].
  change (no_double (String "_" (String "_" r)))
    with (negb (is_underscore "_" && is_underscore "_") && no_double (String "_" r)) in H.
  discriminate H.
Qed.

Lemma lstrip_by_head (chars : ascii -> bool) (s : string) :
  lstrip_by chars s = "" \/
  exists c r, lstrip_by chars s = String c r /\ chars c = false.
Proof.
  induction s as [|c s IH]; [left; reflexivity |].
  cbn [lstrip_by]. destruct (chars c) eqn:Hc; [exact IH |]. right. eauto.
Qed.

Lemma rstrip_by_head (chars : ascii -> bool) (c : ascii) (s : string) :
  chars c = false -> exists r, rstrip_by chars (String c s) = String c r.
Proof.
  intros Hc. cbn [rstrip_by]. destruct (rstrip_by chars s); [rewrite Hc |]; eauto.
Qed.

Lemma prefix_head (c : ascii) (r t s : string) :
  String c r = s ++ t -> s = "" \/ exists r', s = String c r'.
Proof.
  destruct s as [|d s']; [left; reflexivity |].
  rewrite append_cons. intros [= -> _]. right. eauto.
Qed.

(** X27: the slug of a file name. Whatever the value and the length
    limit, the slug is not empty, consists of ASCII letters, digits and
    underscores, does not begin with an underscore and holds no two
    underscores in a row; and with a limit that is not negative it is no
    longer than the limit, or than the 7 characters of Invoice. *)
Theorem X27_safe_slug (value : string) (max_len : Z) :
  let slug := _safe_slug value max_len in
  slug <> "" /\
  all_chars slug_char slug = true /\
  String.prefix "_" slug = false /\
  contains "__" slug = false /\
  ((0 <= max_len)%Z -> (Z.of_nat (String.length slug) <= Z.max max_len 7)%Z).
Proof.
  cbv zeta. unfold _safe_slug.
  set (A := sub_runs (fun c => negb (is_alnum c)) false (strip value)).
  set (B := sub_runs is_underscore false A).
  set (C := strip_by is_underscore B).
  set (D := if (max_len <? Z.of_nat (String.length C))%Z then slice_to max_len C else C).
  assert (HA : all_chars slug_char A = true).
  { apply all_chars_sub_runs; [reflexivity |]. apply all_chars_true.
    intros c. unfold slug_char. destruct (is_alnum c); reflexivity. }
  assert (HB : all_chars slug_char B = true /\ no_double B = true).
  { split; [| apply (no_double_sub_runs false A)].
    apply all_chars_sub_runs; [reflexivity |].
    apply (all_chars_impl slug_char); [| exact HA].
    intros c ->. apply orb_true_r. }
  destruct HB as [HB1 HB2].
  destruct (lstrip_by_suffix is_underscore B) as [l Hl].
  destruct (rstrip_by_prefix is_underscore (lstrip_by is_underscore B)) as [r Hr].
  fold (strip_by is_underscore B) in Hr. fold C in Hr.
  assert (HC : all_chars slug_char C = true /\ no_double C = true).
  { rewrite Hl, Hr in HB1, HB2. rewrite !all_chars_app, !andb_true_iff in HB1.
    split; [tauto |]. apply no_double_app_r, no_double_app_l in HB2. exact HB2. }
  assert (HCh : C = "" \/ exists c r', C = String c r' /\ is_underscore c = false).
  { subst C. unfold strip_by.
    destruct (lstrip_by_head is_underscore B) as [-> | (c & r' & -> & Hc)];
      [left; reflexivity |].
    destruct (rstrip_by_head is_underscore c r' Hc) as [r'' ->]. right. eauto. }
  assert (Hpre : exists t, C = D ++ t).
  { subst D. destruct (_ <? _)%Z; [apply slice_to_prefix |].
    exists "". symmetry. apply append_empty_r. }
  destruct Hpre as [t Ht].
  assert (HD : all_chars slug_char D = true /\ no_double D = true).
  { destruct HC as [H1 H2]. rewrite Ht in H1, H2.
    rewrite all_chars_app, andb_true_iff in H1. split; [tauto |].
    apply no_double_app_l in H2. exact H2. }
  assert (HDh : String.prefix "_" D = false).
  { destruct HCh as [He | (c & r' & He & Hc)]; rewrite He in Ht.
    - destruct D; [reflexivity | discriminate Ht].
    - destruct (prefix_head _ _ _ _ Ht) as [-> | [r'' ->]]; [reflexivity |].
      cbn [String.prefix]. destruct (ascii_dec "_" c) as [<- | _];
        [discriminate Hc | reflexivity]. }
  assert (HDl : (0 <= max_len)%Z -> (Z.of_nat (String.length D) <= max_len)%Z).
  { intros Hm. subst D. destruct (max_len <? Z.of_nat (String.length C))%Z eqn:Hlt.
    - unfold slice_to. rewrite (proj2 (Z.leb_le 0 max_len) Hm).
      pose proof (substring_length (Z.to_nat max_len) C). lia.
    - apply Z.ltb_ge in Hlt. exact Hlt. }
  destruct (String.eqb_spec D "") as [He | He].
  - split; [discriminate |]. split; [reflexivity |]. split; [reflexivity |].
    split; [reflexivity |]. intros Hm. cbn [String.length]. lia.
  - split; [exact He |]. split; [tauto |]. split; [exact HDh |].
    split; [apply contains_double; tauto |]. intros Hm. specialize (HDl Hm). lia.
Qed.

End Slugs.
